(** * The probe/agent protocol of the Blackfire Python SDK (blackfire/agent.py)

    A shallow embedding of [Protocol], [Connection], [BlackfireRequest],
    [BlackfireAPMRequest], [BlackfireResponseBase], [BlackfireAPMResponse]
    and [BlackfireResponse], followed by the properties of their framing,
    parsing and handshake code.

    Conventions of the embedding.
    - The [IS_PY3] branches are the ones embedded.
    - [Protocol.ENCODING] is UTF-8 and every marker, keyword and separator of
      the protocol is ASCII.  A text is given by its UTF-8 bytes: byte strings
      and decoded text are both values of [string], and
      [decode]/[bytes(..., ENCODING)] are the identity.  The character classes
      of [str.strip], [str.isdigit], [str.lower] and [int] are embedded for
      the ASCII range only: a property that rests on one of them is stated
      for ASCII text ([Py.isascii]), on which they are the ones of Python.
    - A Python [dict] is an association list with unique keys kept in
      insertion order; a [set] is a list without repetition.
    - A call either returns a value or raises: [result]. Methods of
      [Connection] also thread the connection and may block on the socket:
      [outcome].
    - The socket is a script of what its calls give; the file system, the
      environment and the interpreter version are read from a record.
    - Calls of [log.debug] are left out; the records passed to
      [log.warning] are returned next to the value. *)

From Stdlib Require Import String Ascii List ZArith Lia Bool Permutation.
From Stdlib Require Import Numbers.DecimalString.
Import ListNotations.
Open Scope string_scope.
Open Scope nat_scope.

(* ================================================================== *)
(** * Python primitives used by agent.py *)
(* ================================================================== *)

Module Py.

(** ** Characters *)

(** [str.isspace] on one ASCII character: TAB, LF, VT, FF, CR, the four
    separators FS, GS, RS, US and the space. *)
Definition isspace (c : ascii) : bool :=
  let n := nat_of_ascii c in
  ((9 <=? n) && (n <=? 13)) || ((28 <=? n) && (n <=? 32)).

(** [str.isdigit] on one ASCII character. *)
Definition isdigit_char (c : ascii) : bool :=
  let n := nat_of_ascii c in (48 <=? n) && (n <=? 57).

Definition lower_char (c : ascii) : ascii :=
  let n := nat_of_ascii c in
  if (65 <=? n) && (n <=? 90) then ascii_of_nat (n + 32) else c.

(** ** Strings *)

Fixpoint rev (s : string) : string :=
  match s with
  | EmptyString => EmptyString
  | String c s' => rev s' ++ String c EmptyString
  end.

Fixpoint forallb (p : ascii -> bool) (s : string) : bool :=
  match s with
  | EmptyString => true
  | String c s' => p c && forallb p s'
  end.

Fixpoint lower (s : string) : string :=
  match s with
  | EmptyString => EmptyString
  | String c s' => String (lower_char c) (lower s')
  end.

(** [s.isdigit()]: non-empty and made of digits only. *)
Definition isdigit (s : string) : bool :=
  match s with
  | EmptyString => false
  | _ => forallb isdigit_char s
  end.

Fixpoint lstrip (s : string) : string :=
  match s with
  | EmptyString => EmptyString
  | String c s' => if isspace c then lstrip s' else s
  end.

Fixpoint rstrip (s : string) : string :=
  match s with
  | EmptyString => EmptyString
  | String c s' =>
      match rstrip s' with
      | EmptyString => if isspace c then EmptyString else String c EmptyString
      | r => String c r
      end
  end.

(** [s.strip()] *)
Definition strip (s : string) : string := rstrip (lstrip s).

(** [s.startswith(p)] *)
Definition startswith (s p : string) : bool := prefix p s.

(** [s.endswith(p)] *)
Definition endswith (s p : string) : bool := prefix (rev p) (rev s).

(** [sub in s] *)
Fixpoint contains (sub s : string) : bool :=
  prefix sub s ||
  match s with
  | EmptyString => false
  | String _ s' => contains sub s'
  end.

(** [s.find(sub)] for a one-character [sub]: the first index, or [-1]. *)
Fixpoint find_from (c : ascii) (s : string) (i : Z) : Z :=
  match s with
  | EmptyString => (-1)%Z
  | String a s' => if Ascii.eqb a c then i else find_from c s' (i + 1)%Z
  end.

Definition find (s : string) (c : ascii) : Z := find_from c s 0%Z.

(** The slices [s[:i]] and [s[i:]] for [0 <= i]. *)
Definition slice_to (s : string) (i : Z) : string :=
  substring 0 (Z.to_nat i) s.

Definition slice_from (s : string) (i : Z) : string :=
  substring (Z.to_nat i) (String.length s - Z.to_nat i) s.

(** Puts a character in front of the first piece of a split. *)
Definition cons_head (c : ascii) (l : list string) : list string :=
  match l with
  | [] => [String c EmptyString]
  | h :: t => String c h :: t
  end.

(** [s.split(sep, maxsplit)] for a non-empty [sep]: pieces are cut at the
    leftmost occurrences, left to right, without overlap; at most [maxsplit]
    cuts when it is given.  [skip] counts the characters of a separator that
    has just been matched and that are still to be passed over. *)
Fixpoint split_go (sep : string) (maxsplit : option nat) (skip : nat)
    (s : string) : list string :=
  match s with
  | EmptyString => [EmptyString]
  | String c s' =>
      match skip with
      | S k => split_go sep maxsplit k s'
      | O =>
          match maxsplit with
          | Some O => [s]
          | _ =>
              if prefix sep s
              then EmptyString ::
                   split_go sep (option_map Nat.pred maxsplit)
                            (String.length sep - 1) s'
              else cons_head c (split_go sep maxsplit 0 s')
          end
      end
  end.

(** [s.split(sep)] *)
Definition split (s sep : string) : list string := split_go sep None 0 s.

(** [s.split(sep, n)] *)
Definition split_n (s sep : string) (n : nat) : list string :=
  split_go sep (Some n) 0 s.

(** [s.rsplit(sep, n)]: the same cuts taken from the right. *)
Definition rsplit_n (s sep : string) (n : nat) : list string :=
  List.rev (map rev (split_go (rev sep) (Some n) 0 (rev s))).

(** Value of a string of decimal digits. *)
Fixpoint digits_value (acc : Z) (s : string) : Z :=
  match s with
  | EmptyString => acc
  | String c s' =>
      digits_value (10 * acc + Z.of_nat (nat_of_ascii c - 48))%Z s'
  end.

(** [str(n)] for an integer. *)
Definition str_of_int (z : Z) : string :=
  NilEmpty.string_of_int (Z.to_int z).

(** [s.isascii()]: every character is below 128. *)
Definition isascii_char (c : ascii) : bool := nat_of_ascii c <? 128.

Definition isascii (s : string) : bool := forallb isascii_char s.

(** [len(s)] for a text: the number of its characters, which are the UTF-8
    bytes that do not continue a character (those outside 128..191). *)
Fixpoint len (s : string) : nat :=
  match s with
  | EmptyString => 0
  | String c s' =>
      let n := nat_of_ascii c in
      (if (128 <=? n) && (n <=? 191) then 0 else 1) + len s'
  end.

End Py.

(* ================================================================== *)
(** * Results, exceptions and dictionaries *)
(* ================================================================== *)

(** A Python [dict] with string keys: unique keys, in insertion order. *)
Definition dict (V : Type) : Type := list (string * V).

Module Dict.
Section Ops.
Context {V : Type}.

(** [d.get(k)] *)
Fixpoint get (d : dict V) (k : string) : option V :=
  match d with
  | [] => None
  | (k', v) :: d' => if String.eqb k' k then Some v else get d' k
  end.

(** [d.get(k, default)] *)
Definition get_default (d : dict V) (k : string) (default : V) : V :=
  match get d k with
  | Some v => v
  | None => default
  end.

(** [k in d] *)
Definition mem (d : dict V) (k : string) : bool :=
  match get d k with
  | Some _ => true
  | None => false
  end.

(** [d[k] = v]: an existing key keeps its place, a new one goes last. *)
Fixpoint set (d : dict V) (k : string) (v : V) : dict V :=
  match d with
  | [] => [(k, v)]
  | (k', v') :: d' =>
      if String.eqb k' k then (k', v) :: d' else (k', v') :: set d' k v
  end.

(** [d.update(other)] *)
Definition update (d other : dict V) : dict V :=
  fold_left (fun acc kv => set acc (fst kv) (snd kv)) other d.

(** [dict(pairs)] *)
Definition of_pairs (pairs : list (string * V)) : dict V := update [] pairs.

Definition keys (d : dict V) : list string := map fst d.
End Ops.

(** [d[k].append(v)] on a [defaultdict(list)] *)
Definition append_item {A : Type} (d : dict (list A)) (k : string) (v : A)
  : dict (list A) :=
  set d k (get_default d k [] ++ [v])%list.
End Dict.

(** [BlackfireResponse.StatusCode] *)
Inductive StatusCode : Type :=
| OK    (* = 0 *)
| ERR.  (* = 1 *)

(** What a [BlackfireApiException] of agent.py is raised with: the format
    string it uses and the values formatted into it. *)
Inductive api_error : Type :=
| AgentSendFailed (cause data : string)
    (* 'Agent send data failed.[%s][%s]' % (e, data) *)
| AgentRecvFailed (cause : string)
    (* 'Agent recv data failed.[%s]' % (e) *)
| InvalidResponse (code : StatusCode) (args : dict (list string))
                  (status_val : option string)
    (* 'Invalid response received from Agent. [%s]' % (self.agent_response),
       whose repr shows status_code, args and status_val *)
| InvalidYmlResponse (code : StatusCode) (args : dict (list string))
                     (status_val : option string)
    (* 'Invalid response received from Agent to blackfire_yml request. [%s]' *)
| InvalidRequestMessage (data : string).
    (* 'Invalid BlackfireRequest message. [%s]' % (data) *)

(** The exceptions the embedded code raises, its own and the interpreter's. *)
Inductive exn : Type :=
| BlackfireApiException (err : api_error)
| BlackfireAPMException (msg : string)
| BlackfireAPMStatusFalseException (msg : string)
| ValueError
| IndexError
| KeyError (key : string)
| TypeError.

Inductive result (A : Type) : Type :=
| Ok (a : A)
| Raise (e : exn).
Arguments Ok {A} a.
Arguments Raise {A} e.

Definition bind {A B : Type} (r : result A) (k : A -> result B) : result B :=
  match r with
  | Ok a => k a
  | Raise e => Raise e
  end.

Declare Scope py_scope.
Delimit Scope py_scope with py.
Notation "x <- e ;; k" := (bind e (fun x => k))
  (at level 61, e at next level, right associativity) : py_scope.
Open Scope py_scope.

(** [a, b = l]: unpacking a list into two names. *)
Definition unpack2 (l : list string) : result (string * string) :=
  match l with
  | [a; b] => Ok (a, b)
  | _ => Raise ValueError
  end.

(** [l[i]] *)
Definition index {A : Type} (l : list A) (i : nat) : result A :=
  match nth_error l i with
  | Some a => Ok a
  | None => Raise IndexError
  end.

(** [int(s)] for an ASCII string: surrounding whitespace, an optional sign,
    then decimal digits that single underscores may separate. The whitespace
    that [int] skips in an ASCII string is the one of C, without the four
    separators that [str.strip] removes; a number of more than 4300 digits
    is refused ([sys.int_info.default_max_str_digits]). *)
Module PyInt.
Definition is_underscore (c : ascii) : bool := Ascii.eqb c "_"%char.

(** TAB, LF, VT, FF, CR and the space. *)
Definition isspace (c : ascii) : bool :=
  let n := nat_of_ascii c in
  ((9 <=? n) && (n <=? 13)) || (n =? 32).

Fixpoint lstrip (s : string) : string :=
  match s with
  | EmptyString => EmptyString
  | String c s' => if isspace c then lstrip s' else s
  end.

Fixpoint rstrip (s : string) : string :=
  match s with
  | EmptyString => EmptyString
  | String c s' =>
      match rstrip s' with
      | EmptyString => if isspace c then EmptyString else String c EmptyString
      | r => String c r
      end
  end.

Definition strip (s : string) : string := rstrip (lstrip s).

Definition MAX_STR_DIGITS : nat := 4300.

(** [prev_digit] tells whether the previous character was a digit. *)
Fixpoint valid_body (prev_digit : bool) (s : string) : bool :=
  match s with
  | EmptyString => prev_digit
  | String c s' =>
      if Py.isdigit_char c then valid_body true s'
      else if is_underscore c then prev_digit && valid_body false s'
      else false
  end.

Fixpoint drop_underscores (s : string) : string :=
  match s with
  | EmptyString => EmptyString
  | String c s' =>
      if is_underscore c then drop_underscores s'
      else String c (drop_underscores s')
  end.

Definition unsigned (s : string) : result Z :=
  if valid_body false s
  then
    let digits := drop_underscores s in
    if String.length digits <=? MAX_STR_DIGITS
    then Ok (Py.digits_value 0 digits)
    else Raise ValueError
  else Raise ValueError.

Definition int (s : string) : result Z :=
  match strip s with
  | EmptyString => unsigned EmptyString
  | String c body =>
      if Ascii.eqb c "-"%char then n <- unsigned body ;; Ok (- n)%Z
      else if Ascii.eqb c "+"%char then unsigned body
      else unsigned (String c body)
  end.
End PyInt.

(* ================================================================== *)
(** * class Protocol *)
(* ================================================================== *)

Module Protocol.
Definition MAX_RECV_SIZE : nat := 4096.
Definition MAX_SEND_SIZE : nat := 4096.

(** ['\n'] *)
Definition HEADER_MARKER : string := String "010"%char EmptyString.
(** ['\n\n'] *)
Definition MARKER : string := HEADER_MARKER ++ HEADER_MARKER.
End Protocol.

Abbreviation LF := Protocol.HEADER_MARKER.

(* ================================================================== *)
(** * class BlackfireResponseBase: the accessors shared by the responses *)
(* ================================================================== *)

(** An argument identifier of an instrumented function: a position or a
    name. *)
Inductive arg_id : Type :=
| ArgInt (n : Z)
| ArgStr (s : string).

(** The records [log.warning] is called with by the accessors. *)
Inductive warning : Type :=
| InvalidTimespanSelector (ts_sel : string)
    (* "Ignoring invalid timespan selector '%s'." *)
| AlreadyInstrumented (fn_name fn_arg : string).
    (* "Function '%s' is already instrumented. Ignoring fn-args
       directive %s." *)

(** The value [get_timespan_selectors] returns, [{'^': set(), '=': set()}]:
    each set is a list without repetition. *)
Record selectors : Type := mk_selectors {
  sel_prefix : list string;   (* result['^'] *)
  sel_exact  : list string    (* result['='] *)
}.

Module BlackfireResponseBase.

(** [s.add(x)] on a set *)
Definition set_add (x : string) (s : list string) : list string :=
  if existsb (String.eqb x) s then s else (s ++ [x])%list.

(** The loop of [get_timespan_selectors]; [ts_sel[0]] raises on an empty
    selector. *)
Fixpoint timespan_loop (res : selectors) (log : list warning)
    (ts_selectors : list string) : result (selectors * list warning) :=
  match ts_selectors with
  | [] => Ok (res, log)
  | ts_sel :: rest =>
      match ts_sel with
      | EmptyString => Raise IndexError
      | String c tail =>
          if Ascii.eqb c "^"%char then
            timespan_loop
              (mk_selectors (set_add tail (sel_prefix res)) (sel_exact res))
              log rest
          else if Ascii.eqb c "="%char then
            timespan_loop
              (mk_selectors (sel_prefix res) (set_add tail (sel_exact res)))
              log rest
          else
            timespan_loop res (log ++ [InvalidTimespanSelector ts_sel])%list
                          rest
      end
  end.

Definition get_timespan_selectors (TIMESPAN_KEY : string)
    (args : dict (list string)) : result (selectors * list warning) :=
  timespan_loop (mk_selectors [] []) []
                (Dict.get_default args TIMESPAN_KEY []).

Definition get_constants (CONSTANTS_KEY : string)
    (args : dict (list string)) : list string :=
  Dict.get_default args CONSTANTS_KEY [].

(** One token of the argument list: [int(arg_id)] when
    [arg_id.isdigit()], the token itself otherwise. *)
Definition parse_arg_id (tok : string) : result arg_id :=
  if Py.isdigit tok then n <- PyInt.int tok ;; Ok (ArgInt n)
  else Ok (ArgStr tok).

Fixpoint parse_arg_ids (toks : list string) : result (list arg_id) :=
  match toks with
  | [] => Ok []
  | tok :: rest =>
      a <- parse_arg_id tok ;;
      l <- parse_arg_ids rest ;;
      Ok (a :: l)
  end.

(** The loop of [get_instrumented_funcs] over the fn-args values. *)
Fixpoint instrumented_loop (res : dict (list arg_id)) (log : list warning)
    (fn_args : list string) : result (dict (list arg_id) * list warning) :=
  match fn_args with
  | [] => Ok (res, log)
  | fn_arg :: rest =>
      p <- unpack2 (Py.rsplit_n fn_arg " " 1) ;;
      let fn_name := Py.strip (fst p) in
      let arg_ids_s := snd p in
      if Dict.mem res fn_name then
        instrumented_loop res
          (log ++ [AlreadyInstrumented fn_name fn_arg])%list rest
      else
        arg_ids <- parse_arg_ids (Py.split (Py.strip arg_ids_s) ",") ;;
        instrumented_loop (Dict.set res fn_name arg_ids) log rest
  end.

Definition get_instrumented_funcs (FN_ARGS_KEY : string)
    (args : dict (list string))
    : result (dict (list arg_id) * list warning) :=
  instrumented_loop [] [] (Dict.get_default args FN_ARGS_KEY []).

End BlackfireResponseBase.

(* ================================================================== *)
(** * class BlackfireRequest *)
(* ================================================================== *)

(** A header value: a string, or an integer such as the payload length. *)
Inductive pyval : Type :=
| PStr (s : string)
| PInt (n : Z).

(** ['%s' % v] *)
Definition str (v : pyval) : string :=
  match v with
  | PStr s => s
  | PInt n => Py.str_of_int n
  end.

Module BlackfireRequest.

Record t : Type := mk {
  headers : dict pyval;
  data : option string
}.

Definition mem_list (k : string) (l : list string) : bool :=
  existsb (String.eqb k) l.

(** [__init__]: every header name is lower-cased but the two that the
    agent expects as they are. *)
Definition init (hdrs : dict pyval) (d : option string) : t :=
  mk (fold_left
        (fun self_headers kv =>
           let '(k, v) := kv in
           if negb (mem_list k ["Blackfire-Query"; "Blackfire-Probe"])
           then Dict.set self_headers (Py.lower k) v
           else Dict.set self_headers k v)
        hdrs [])
     d.

Definition header_line (k : string) (v : pyval) : string :=
  k ++ ": " ++ str v ++ LF.

(** The [for k, v in self.headers.items()] loop of [to_bytes]. *)
Definition other_headers (result : string) (hdrs : dict pyval) : string :=
  fold_left
    (fun result kv =>
       let '(k, v) := kv in
       if mem_list k ["Blackfire-Query"; "file-format"] then result
       else result ++ header_line k v)
    hdrs result.

Definition to_bytes (self : t) : string :=
  let result := "" in
  let result :=
    match Dict.get (headers self) "file-format" with
    | Some v => result ++ "file-format: " ++ str v ++ LF
    | None => result
    end in
  let result :=
    match Dict.get (headers self) "Blackfire-Query" with
    | Some v => result ++ "Blackfire-Query: " ++ str v ++ LF
    | None => result
    end in
  let result := other_headers result (headers self) in
  let result :=
    if 0 <? List.length (headers self) then result ++ LF else result in
  match data self with
  | Some d => if 0 <? String.length d then result ++ d else result
  | None => result
  end.

(** The [for line in header_lines] loop of [from_bytes]. *)
Definition parse_header_lines (hdrs : dict pyval) (header_lines : list string)
  : dict pyval :=
  fold_left
    (fun hdrs line =>
       let spos := Py.find line ":"%char in
       if (-1 <? spos)%Z
       then Dict.set hdrs (Py.strip (Py.slice_to line spos))
                     (PStr (Py.strip (Py.slice_from line (spos + 1)%Z)))
       else hdrs)
    header_lines hdrs.

Definition from_bytes (self : t) (data_in : string) : result t :=
  let dsp := Py.split data_in Protocol.MARKER in
  p <- match dsp with
       | [h; b1; b2] => Ok (h, Some (b1 ++ LF ++ b2))
       | [h; b] => Ok (h, Some b)
       | [h] => Ok (h, data self)
       | _ => Raise (BlackfireApiException (InvalidRequestMessage data_in))
       end ;;
  let header_lines := Py.split (fst p) LF in
  Ok (mk (parse_header_lines (headers self) header_lines) (snd p)).

End BlackfireRequest.

(* ================================================================== *)
(** * class BlackfireAPMRequest *)
(* ================================================================== *)

(** A [BlackfireRequest] with another [to_bytes]. *)
Module BlackfireAPMRequest.

(** The [for k, v in self.headers.items()] loop of [to_bytes]. *)
Definition other_headers (result : string) (hdrs : dict pyval) : string :=
  fold_left
    (fun result kv =>
       let '(k, v) := kv in
       if String.eqb k "file-format" then result
       else result ++ k ++ ": " ++ str v ++ LF)
    hdrs result.

(** [self.headers['file-format']] raises [KeyError] without the header. *)
Definition to_bytes (self : BlackfireRequest.t) : result string :=
  let result := "" in
  file_format <- match Dict.get (BlackfireRequest.headers self)
                                "file-format" with
                 | Some v => Ok v
                 | None => Raise (KeyError "file-format")
                 end ;;
  let result := result ++ "file-format: " ++ str file_format ++ LF in
  let result := other_headers result (BlackfireRequest.headers self) in
  let result :=
    match BlackfireRequest.data self with
    | Some d => result ++ d
    | None => result
    end in
  Ok (result ++ Protocol.MARKER).

End BlackfireAPMRequest.

(* ================================================================== *)
(** * class BlackfireAPMResponse *)
(* ================================================================== *)

Module BlackfireAPMResponse.

Definition TIMESPAN_KEY : string := "timespan".
Definition FN_ARGS_KEY : string := "fn-args".
Definition CONSTANTS_KEY : string := "Blackfire-Const".

(** [status_val] and [status_val_dict] are attributes that [from_bytes]
    creates: they are [None] on a new object. An entry of [key_pages] is
    [None] when a closing line had no opening one. *)
Record t : Type := mk {
  args : dict (list string);
  key_pages : list (option (dict string));
  raw_data : string;
  update_config : bool;
  status_val : option string;
  status_val_dict : option (dict string)
}.

(** [__init__] *)
Definition init : t := mk [] [] "" false None None.

(** The [for line in lines[1:]] loop; [key_page] is the page being read. *)
Fixpoint body_loop (args : dict (list string))
    (key_pages : list (option (dict string)))
    (key_page : option (dict string)) (lines : list string)
    : result (dict (list string) * list (option (dict string))) :=
  match lines with
  | [] => Ok (args, key_pages)
  | line :: rest =>
      let line := Py.strip line in
      if Py.startswith line "key-page(" then
        body_loop args key_pages (Some []) rest
      else if Py.startswith line ")" then
        body_loop args (key_pages ++ [key_page])%list None rest
      else
        p <- unpack2 (Py.split_n line ":" 1) ;;
        let resp_key := Py.strip (fst p) in
        let resp_val := Py.strip (snd p) in
        match key_page with
        | Some kp =>
            body_loop args key_pages (Some (Dict.set kp resp_key resp_val))
                      rest
        | None =>
            body_loop (Dict.append_item args resp_key resp_val) key_pages
                      None rest
        end
  end.

Definition NO_ERROR_RECEIVED : string :=
  "status=False and no error received from Agent.".

Section FromBytes.
(** [parse_qsl] is imported from blackfire.utils. *)
Variable parse_qsl : string -> list (string * string).

Definition from_bytes (self : t) (data : string) : result t :=
  let raw_data := Py.strip data in
  let lines := Py.split raw_data LF in
  (* first line is the status line *)
  let resp := Py.split (hd EmptyString lines) ":" in
  resp_type <- index resp 0 ;;
  resp_val <- index resp 1 ;;
  if String.eqb resp_type "Blackfire-Error" then
    Raise (BlackfireAPMException
             ("Agent could not send APM trace. reason=" ++ resp_val))
  else
    let status_val := Py.strip resp_val in
    let status_val_dict := Dict.of_pairs (parse_qsl status_val) in
    success <- match Dict.get status_val_dict "success" with
               | Some v => Ok v
               | None => Raise (KeyError "success")
               end ;;
    if Py.contains "false" success then
      Raise (BlackfireAPMStatusFalseException
               (Dict.get_default status_val_dict "error"
                                 NO_ERROR_RECEIVED))
    else
      let update_config :=
        if String.eqb
             (Dict.get_default status_val_dict "update_config" "false")
             "false"
        then false else true in
      p <- body_loop (args self) (key_pages self) None (tl lines) ;;
      Ok (mk (fst p) (snd p) raw_data update_config (Some status_val)
             (Some status_val_dict)).
End FromBytes.

Definition get_timespan_selectors (self : t) :=
  BlackfireResponseBase.get_timespan_selectors TIMESPAN_KEY (args self).
Definition get_constants (self : t) :=
  BlackfireResponseBase.get_constants CONSTANTS_KEY (args self).
Definition get_instrumented_funcs (self : t) :=
  BlackfireResponseBase.get_instrumented_funcs FN_ARGS_KEY (args self).

End BlackfireAPMResponse.

(* ================================================================== *)
(** * class BlackfireResponse *)
(* ================================================================== *)

Module BlackfireResponse.

Definition TIMESPAN_KEY : string := "Blackfire-Timespan".
Definition FN_ARGS_KEY : string := "Blackfire-Fn-Args".
Definition CONSTANTS_KEY : string := "Blackfire-Const".

(** [status_val_dict] is an attribute that [from_bytes] creates. *)
Record t : Type := mk {
  status_code : StatusCode;
  status_val : option string;
  raw_data : option string;
  args : dict (list string);
  status_val_dict : option (dict string)
}.

(** [__init__] *)
Definition init : t := mk OK None None [] None.

(** The [for line in lines[1:]] loop. *)
Fixpoint body_loop (args : dict (list string)) (lines : list string)
    : result (dict (list string)) :=
  match lines with
  | [] => Ok args
  | line :: rest =>
      p <- unpack2 (Py.split_n line ":" 1) ;;
      let resp_key := Py.strip (fst p) in
      let resp_val := Py.strip (snd p) in
      body_loop (Dict.append_item args resp_key resp_val) rest
  end.

Section FromBytes.
(** [parse_qsl] is imported from blackfire.utils. *)
Variable parse_qsl : string -> list (string * string).

Definition from_bytes (self : t) (data : string) : result t :=
  let raw_data := Py.strip data in
  let lines := Py.split raw_data LF in
  (* first line is the status line *)
  p <- unpack2 (Py.split (hd EmptyString lines) ":") ;;
  let resp_type := Py.strip (fst p) in
  let status_val := Py.strip (snd p) in
  let status_val_dict := Dict.of_pairs (parse_qsl status_val) in
  let status_code :=
    if String.eqb resp_type "Blackfire-Error" then ERR else OK in
  args <- body_loop (args self) (tl lines) ;;
  Ok (mk status_code (Some status_val) (Some raw_data) args
         (Some status_val_dict)).
End FromBytes.

(** The two [for] loops of [to_bytes] over [self.args.items()] and the
    values of each key. *)
Definition arg_lines (result : string) (args : dict (list string)) : string :=
  fold_left
    (fun result kvs =>
       let '(arg_key, arg_values) := kvs in
       fold_left
         (fun result arg_val => result ++ arg_key ++ ": " ++ arg_val ++ LF)
         arg_values result)
    args result.

(** [result += self.status_val] is a [TypeError] when it is [None]. *)
Definition to_bytes (self : t) : result string :=
  let result := "" in
  (* add the status line *)
  let result :=
    match status_code self with
    | ERR => result ++ "Blackfire-Error: "
    | OK => result ++ "Blackfire-Response: "
    end in
  v <- match status_val self with
       | Some v => Ok v
       | None => Raise TypeError
       end ;;
  let result := result ++ v in
  (* add .args *)
  let result :=
    if 0 <? List.length (args self) then result ++ LF else result in
  Ok (arg_lines result (args self)).

(** [self.args.update(other.args)] *)
Definition update_args (self other : t) : t :=
  mk (status_code self) (status_val self) (raw_data self)
     (Dict.update (args self) (args other)) (status_val_dict self).

Definition get_timespan_selectors (self : t) :=
  BlackfireResponseBase.get_timespan_selectors TIMESPAN_KEY (args self).
Definition get_constants (self : t) :=
  BlackfireResponseBase.get_constants CONSTANTS_KEY (args self).
Definition get_instrumented_funcs (self : t) :=
  BlackfireResponseBase.get_instrumented_funcs FN_ARGS_KEY (args self).

End BlackfireResponse.

(* ================================================================== *)
(** * The socket and the collaborators of the handshake *)
(* ================================================================== *)

(** The stream socket a [Connection] owns, seen from the probe. *)
Module Socket.

(** What one call of [recv(bufsize)] gives: bytes (none when the peer has
    closed), or a socket error such as a timeout, with its text. *)
Inductive event : Type :=
| Data (d : string)
| Fails (msg : string).

(** [inbound]: the outcomes of the next calls of [recv], in order; once
    they are used up the peer has stalled and a call does not return.
    [sent]: the chunks passed to [sendall] so far. [send_faults]: for the
    next calls of [sendall], the error each one raises, if any. *)
Record t : Type := mk {
  inbound : list event;
  sent : list string;
  send_faults : list (option string)
}.

(** Scripts in which no read gives more than [bufsize] bytes, as [recv]
    guarantees. *)
Definition well_chunked (bufsize : nat) (s : t) : Prop :=
  Forall (fun ev => match ev with
                    | Data d => String.length d <= bufsize
                    | Fails _ => True
                    end) (inbound s).

(** [sendall(chunk)]: the error text, or the socket afterwards. *)
Definition sendall (chunk : string) (s : t) : string + t :=
  match send_faults s with
  | Some msg :: rest => inl msg
  | None :: rest => inr (mk (inbound s) (sent s ++ [chunk])%list rest)
  | [] => inr (mk (inbound s) (sent s ++ [chunk])%list [])
  end.
End Socket.

(** The session configuration handed to [connect]. *)
Record Config : Type := mk_config {
  config_args : dict string;          (* config.args *)
  challenge_raw : string;
  signature : string;
  args_raw : string;
  is_blackfireyml_asked : bool
}.

(** What [_write_prolog] reads from its surroundings. *)
Record Env : Type := mk_env {
  hexversion : Z;                               (* sys.hexversion *)
  read_blackfireyml_content : option string;    (* None: no file *)
  BLACKFIRE_SERVER_ID : option string;          (* os.environ.get(...) *)
  BLACKFIRE_SERVER_TOKEN : option string
}.

(** A method call on an object of state [S]: it returns, raises, or never
    comes back from the socket. *)
Inductive outcome (S A : Type) : Type :=
| Return (a : A) (s : S)
| Raises (e : exn) (s : S)
| Blocks.
Arguments Return {S A} a s.
Arguments Raises {S A} e s.
Arguments Blocks {S A}.

(* ================================================================== *)
(** * class Connection *)
(* ================================================================== *)

Module Connection.

(** The fields that the embedded methods read and write. The response kept
    in [agent_response] is the object that the second round updates in
    place: the connection holds its only reference. *)
Record t : Type := mk {
  _socket : Socket.t;
  _closed : bool;
  agent_response : option BlackfireResponse.t
}.

Definition M (A : Type) : Type := t -> outcome t A.

Definition ret {A : Type} (a : A) : M A := fun self => Return a self.

Definition raise {A : Type} (e : exn) : M A := fun self => Raises e self.

Definition bindM {A B : Type} (m : M A) (k : A -> M B) : M B :=
  fun self =>
    match m self with
    | Return a self' => k a self'
    | Raises e self' => Raises e self'
    | Blocks => Blocks
    end.

Definition lift {A : Type} (r : result A) : M A :=
  match r with
  | Ok a => ret a
  | Raise e => raise e
  end.

Definition with_socket (self : t) (s : Socket.t) : t :=
  mk s (_closed self) (agent_response self).

Definition set_agent_response (r : BlackfireResponse.t) : M unit :=
  fun self => Return tt (mk (_socket self) (_closed self) (Some r)).

Definition BFYAML_HDR : string := "blackfire_yml=true".

Definition _contains_blackfireyaml_header (recv_wnd : string) : bool :=
  Py.contains BFYAML_HDR recv_wnd.

(** [close] *)
Definition close : M unit :=
  fun self =>
    if _closed self then Return tt self
    else Return tt (mk (_socket self) true (agent_response self)).

(** The [while (data)] loop of [send]; [fuel] bounds the iterations and
    the length of [data] is always enough. *)
Fixpoint send_loop (fuel : nat) (data : string) (s : Socket.t)
    : outcome Socket.t unit :=
  if String.length data =? 0 then Return tt s
  else
    match fuel with
    | O => Blocks
    | S fuel' =>
        match Socket.sendall
                (Py.slice_to data (Z.of_nat Protocol.MAX_SEND_SIZE)) s with
        | inl msg =>
            Raises (BlackfireApiException (AgentSendFailed msg data)) s
        | inr s' =>
            send_loop fuel'
                      (Py.slice_from data (Z.of_nat Protocol.MAX_SEND_SIZE))
                      s'
        end
    end.

Definition send (data : string) : M unit :=
  fun self =>
    match send_loop (String.length data) data (_socket self) with
    | Return a s => Return a (with_socket self s)
    | Raises e s => Raises e (with_socket self s)
    | Blocks => Blocks
    end.

(** The [while (True)] loop of [recv]: [result] is the buffer so far and
    [inbound] what the coming calls of
    [self._socket.recv(Protocol.MAX_RECV_SIZE)] give. *)
Fixpoint recv_loop (result : string) (inbound : list Socket.event)
    : outcome (list Socket.event) string :=
  match inbound with
  | [] => Blocks
  | Socket.Fails msg :: rest =>
      Raises (BlackfireApiException (AgentRecvFailed msg)) rest
  | Socket.Data data :: rest =>
      if String.length data =? 0 then
        (* other side indicated no more data will be sent *)
        Raises (BlackfireApiException
                  (AgentRecvFailed "Agent closed the connection.")) rest
      else
        let result := result ++ data in
        if _contains_blackfireyaml_header result
           && Py.endswith result Protocol.HEADER_MARKER
        then Return result rest
        else if Py.endswith result Protocol.MARKER
        then Return result rest
        else recv_loop result rest
  end.

Definition with_inbound (self : t) (inbound : list Socket.event) : t :=
  with_socket self
    (Socket.mk inbound (Socket.sent (_socket self))
               (Socket.send_faults (_socket self))).

Definition recv : M string :=
  fun self =>
    match recv_loop "" (Socket.inbound (_socket self)) with
    | Return result rest => Return result (with_inbound self rest)
    | Raises e rest => Raises e (with_inbound self rest)
    | Blocks => Blocks
    end.

(** [bool(int(config.args.get(name, default)))] *)
Definition flag (config : Config) (name default : string) : result bool :=
  n <- PyInt.int (Dict.get_default (config_args config) name default) ;;
  Ok (negb (n =? 0)%Z).

(** Truth value of an optional string. *)
Definition truthy (o : option string) : bool :=
  match o with
  | Some s => 0 <? String.length s
  | None => false
  end.

Declare Scope conn_scope.
Delimit Scope conn_scope with conn.
Notation "x <~ e ;; k" := (bindM e (fun x => k))
  (at level 61, e at next level, right associativity) : conn_scope.
Open Scope conn_scope.

Section WriteProlog.
(** [parse_qsl] is imported from blackfire.utils. *)
Variable parse_qsl : string -> list (string * string).

(** The hello request: the first part of [_write_prolog], up to
    [hello_req = BlackfireRequest(headers=headers)]. It also gives the
    payload read for the second round. *)
Definition hello_request (config : Config) (env : Env)
    : result (BlackfireRequest.t * option string) :=
  blackfire_yml <- flag config "flag_yml" "1" ;;
  let blackfire_yml_content :=
    if blackfire_yml : bool then read_blackfireyml_content env
    else None in
  let bf_probe_header :=
    "python-" ++ Py.str_of_int (hexversion env) ++ ", config" in
  recv_timespan <- flag config "flag_timespan" "0" ;;
  let bf_probe_header :=
    if recv_timespan : bool then bf_probe_header ++ ", timespan"
    else bf_probe_header in
  let bf_probe_header :=
    if truthy blackfire_yml_content
    then bf_probe_header ++ ", blackfire_yml" else bf_probe_header in
  let bf_probe_header :=
    if is_blackfireyml_asked config then bf_probe_header ++ ", noop"
    else bf_probe_header in
  no_pruning <- flag config "no_pruning" "0" ;;
  let bf_probe_header :=
    if no_pruning : bool then bf_probe_header ++ ", no_pruning"
    else bf_probe_header in
  no_anon <- flag config "no_anon" "0" ;;
  let bf_probe_header :=
    if no_anon : bool then bf_probe_header ++ ", no_anon"
    else bf_probe_header in
  let headers : dict pyval :=
    [("Blackfire-Query",
      PStr (challenge_raw config ++ "&signature=" ++ signature config
            ++ "&" ++ args_raw config));
     ("Blackfire-Probe", PStr bf_probe_header)] in
  let headers :=
    match BLACKFIRE_SERVER_ID env, BLACKFIRE_SERVER_TOKEN env with
    | Some bf_server_id, Some bf_server_token =>
        if truthy (Some bf_server_id) && truthy (Some bf_server_token)
        then Dict.set headers "Blackfire-Auth"
                      (PStr (bf_server_id ++ ":" ++ bf_server_token))
        else headers
    | _, _ => headers
    end in
  Ok (BlackfireRequest.init headers None, blackfire_yml_content).

(** The second round of [_write_prolog]: the body of
    [if self.agent_response.status_val_dict.get('blackfire_yml') == 'true'].
    [len(None)] is a [TypeError]. *)
Definition blackfire_yml_round (agent_response : BlackfireResponse.t)
    (blackfire_yml_content : option string) : M unit :=
  size <~ lift (match blackfire_yml_content with
                | Some c => Ok (Z.of_nat (Py.len c))
                | None => Raise TypeError
                end) ;;
  let blackfire_yml_req :=
    BlackfireRequest.init [("Blackfire-Yaml-Size", PInt size)]
                          blackfire_yml_content in
  _ <~ send (BlackfireRequest.to_bytes blackfire_yml_req) ;;
  response_raw <~ recv ;;
  blackfire_yml_response <~
    lift (BlackfireResponse.from_bytes parse_qsl BlackfireResponse.init
                                       response_raw) ;;
  match BlackfireResponse.status_code blackfire_yml_response with
  | OK =>
      set_agent_response
        (BlackfireResponse.update_args agent_response
                                       blackfire_yml_response)
  | ERR =>
      raise (BlackfireApiException
               (InvalidYmlResponse
                  (BlackfireResponse.status_code blackfire_yml_response)
                  (BlackfireResponse.args blackfire_yml_response)
                  (BlackfireResponse.status_val blackfire_yml_response)))
  end.

(** Whether the first response asks for the blackfire.yml payload. *)
Definition asks_blackfire_yml (r : BlackfireResponse.t) : bool :=
  match BlackfireResponse.status_val_dict r with
  | Some d =>
      match Dict.get d "blackfire_yml" with
      | Some v => String.eqb v "true"
      | None => false
      end
  | None => false
  end.

Definition _write_prolog (config : Config) (env : Env) : M unit :=
  p <~ lift (hello_request config env) ;;
  let hello_req := fst p in
  let blackfire_yml_content := snd p in
  _ <~ send (BlackfireRequest.to_bytes hello_req) ;;
  response_raw <~ recv ;;
  agent_response <~
    lift (BlackfireResponse.from_bytes parse_qsl BlackfireResponse.init
                                       response_raw) ;;
  _ <~ set_agent_response agent_response ;;
  match BlackfireResponse.status_code agent_response with
  | ERR =>
      raise (BlackfireApiException
               (InvalidResponse
                  (BlackfireResponse.status_code agent_response)
                  (BlackfireResponse.args agent_response)
                  (BlackfireResponse.status_val agent_response)))
  | OK =>
      if asks_blackfire_yml agent_response
      then blackfire_yml_round agent_response blackfire_yml_content
      else ret tt
  end.
End WriteProlog.

End Connection.

(* ================================================================== *)
(** * Connection.__init__: the address of the agent *)
(* ================================================================== *)

Module ConnectionInit.

(** What [urlparse(self.agent_socket)] gives, as far as [__init__] reads
    it. *)
Record ParseResult : Type := mk_parsed {
  scheme : string;
  netloc : string;
  path : string
}.

Inductive family : Type :=
| AF_UNIX
| AF_INET
| AF_INET6.

(** [self._sock_addr]: a path, or the pair of a host and a port. *)
Inductive sock_addr : Type :=
| UnixPath (path : string)
| HostPort (host : string) (port : Z).

(** How the first part of [__init__] ends: with the family the socket is
    made with and [self._sock_addr]; with
    [BlackfireApiException("Unsupported socket type. [%s]" % scheme)]; or
    with an exception of the interpreter. *)
Inductive sock_params_result : Type :=
| Resolved (fam : family) (addr : sock_addr)
| UnsupportedSocketType (scheme : string)
| InitRaises (e : exn).

(** [host[1:-1]] *)
Definition inner (host : string) : string :=
  substring 1 (String.length host - 2) host.

(** [__init__] from [sock_parsed = urlparse(self.agent_socket)] to the
    creation of the socket. *)
Definition sock_params (sock_parsed : ParseResult) : sock_params_result :=
  if String.eqb (scheme sock_parsed) "unix" then
    Resolved AF_UNIX (UnixPath (path sock_parsed))
  else if String.eqb (scheme sock_parsed) "tcp" then
    match unpack2 (Py.rsplit_n (netloc sock_parsed) ":" 1) with
    | Raise e => InitRaises e
    | Ok (host, port) =>
        (* is this a IPv6 address? *)
        let '(host, fam) :=
          if Py.startswith host "[" then (inner host, AF_INET6)
          else (host, AF_INET) in
        match PyInt.int port with
        | Raise e => InitRaises e
        | Ok n => Resolved fam (HostPort host n)
        end
    end
  else UnsupportedSocketType (scheme sock_parsed).

End ConnectionInit.

(* ================================================================== *)
(** * blackfire.utils *)
(* ================================================================== *)

Module Utils.

Fixpoint plus_to_space (s : string) : string :=
  match s with
  | EmptyString => EmptyString
  | String c s' =>
      String (if Ascii.eqb c "+"%char then " "%char else c)
             (plus_to_space s')
  end.

Definition parse_pair (name_value : string) : list (string * string) :=
  match Py.split_n name_value "=" 1 with
  | [name; value] =>
      if 0 <? String.length value
      then [(plus_to_space name, plus_to_space value)]
      else []
  | _ => []
  end.

(** Modelled from the spec: [parse_qsl] is imported from blackfire.utils,
    which is not among the sources. The specification calls its argument a
    [key=value&key=value] query string and shows [bad+signature] read as
    [bad signature]: the text is cut at every [&], each piece at its first
    [=], a [+] stands for a space, and a piece without a value is left
    out. Percent escapes are left as they are. *)
Definition parse_qsl (qs : string) : list (string * string) :=
  flat_map parse_pair (Py.split qs "&").

End Utils.

(* ================================================================== *)
(** * Notions used to state the properties *)
(* ================================================================== *)

Module Text.

(** [s.count(c)] for a character. *)
Fixpoint count (c : ascii) (s : string) : nat :=
  match s with
  | EmptyString => 0
  | String a s' => (if Ascii.eqb a c then 1 else 0) + count c s'
  end.

(** The text before the first [c] and the text after it. *)
Fixpoint partition (c : ascii) (s : string) : option (string * string) :=
  match s with
  | EmptyString => None
  | String a s' =>
      if Ascii.eqb a c then Some (EmptyString, s')
      else match partition c s' with
           | Some (l, r) => Some (String a l, r)
           | None => None
           end
  end.

(** [c not in s] *)
Definition lacks (c : ascii) (s : string) : bool :=
  Py.forallb (fun a => negb (Ascii.eqb a c)) s.

(** The concatenation of chunks. *)
Definition join (chunks : list string) : string := String.concat "" chunks.

(** Every way of cutting [s] in two. *)
Fixpoint splits (s : string) : list (string * string) :=
  (EmptyString, s) ::
  match s with
  | EmptyString => []
  | String c s' => map (fun pq => (String c (fst pq), snd pq)) (splits s')
  end.

(** [s[k:]] *)
Fixpoint drop (k : nat) (s : string) : string :=
  match k, s with
  | O, _ => s
  | S _, EmptyString => EmptyString
  | S k', String _ s' => drop k' s'
  end.

End Text.

Module RecvSpec.

(** The two conditions under which the loop of [recv] breaks. *)
Definition header_only (result : string) : bool :=
  Connection._contains_blackfireyaml_header result
  && Py.endswith result Protocol.HEADER_MARKER.

Definition full_frame (result : string) : bool :=
  Py.endswith result Protocol.MARKER.

Definition stops (result : string) : bool :=
  header_only result || full_frame result.

(** Reads that leave the loop running: each gives at least one byte and
    the buffer meets neither condition after it. *)
Fixpoint keeps_reading (result : string) (chunks : list string) : bool :=
  match chunks with
  | [] => true
  | d :: rest =>
      negb (String.length d =? 0)
      && negb (stops (result ++ d))
      && keeps_reading (result ++ d) rest
  end.

End RecvSpec.

Module FnArgsSpec.

(** A fn-args directive given by its two parts: [name ++ " " ++ ids]. *)
Definition directive (d : string * string) : string :=
  fst d ++ " " ++ snd d.

Definition fn_name (d : string * string) : string := Py.strip (fst d).

(** A token of the list: a number when it is all digits. *)
Definition arg_id_of (tok : string) : arg_id :=
  if Py.isdigit tok then ArgInt (Py.digits_value 0 tok) else ArgStr tok.

Definition arg_ids (d : string * string) : list arg_id :=
  map arg_id_of (Py.split (Py.strip (snd d)) ",").

(** A value in the range for which the accessor is embedded: ASCII text,
    of at most as many characters as [int] takes digits. *)
Definition plain (v : string) : bool :=
  Py.isascii v && (String.length v <=? PyInt.MAX_STR_DIGITS).

(** The first directive that names [f]. *)
Definition first_for (f : string) (ds : list (string * string))
  : option (string * string) :=
  List.find (fun d => String.eqb (fn_name d) f) ds.

(** The warnings for the directives whose function was named before. *)
Fixpoint repeated (seen : list string) (ds : list (string * string))
  : list warning :=
  match ds with
  | [] => []
  | d :: rest =>
      if existsb (String.eqb (fn_name d)) seen
      then AlreadyInstrumented (fn_name d) (directive d) :: repeated seen rest
      else repeated (seen ++ [fn_name d])%list rest
  end.

(** The split as the specification words it, at the last run of
    whitespace: the last token without whitespace, and what stands before
    the whitespace in front of it. *)
Fixpoint take_token (s : string) : string :=
  match s with
  | EmptyString => EmptyString
  | String c s' => if Py.isspace c then EmptyString
                   else String c (take_token s')
  end.

Fixpoint drop_token (s : string) : string :=
  match s with
  | EmptyString => EmptyString
  | String c s' => if Py.isspace c then s else drop_token s'
  end.

Definition split_last_whitespace (v : string) : option (string * string) :=
  let r := Py.rev v in
  match drop_token r with
  | EmptyString => None
  | before => Some (Py.rstrip (Py.rev before), Py.rev (take_token r))
  end.

End FnArgsSpec.

Module HandshakeSpec.

(** One round of the handshake: a request is sent, the answer is received
    and read as a [BlackfireResponse]. *)
Definition exchange (parse_qsl : string -> list (string * string))
    (request : BlackfireRequest.t) : Connection.M BlackfireResponse.t :=
  Connection.bindM (Connection.send (BlackfireRequest.to_bytes request))
    (fun _ =>
       Connection.bindM Connection.recv
         (fun response_raw =>
            Connection.lift
              (BlackfireResponse.from_bytes parse_qsl BlackfireResponse.init
                                            response_raw))).

(** The request of the second round, which carries the payload. *)
Definition blackfire_yml_request (content : string) : BlackfireRequest.t :=
  BlackfireRequest.init
    [("Blackfire-Yaml-Size", PInt (Z.of_nat (Py.len content)))]
    (Some content).

(** The connection once [self.agent_response] is assigned. *)
Definition with_agent_response (self : Connection.t)
    (r : BlackfireResponse.t) : Connection.t :=
  Connection.mk (Connection._socket self) (Connection._closed self) (Some r).

(** [d.update(other)] read key by key: the entry of [other] when it has
    one, the entry of [d] otherwise. *)
Definition merged_entry {V : Type} (d other : dict V) (k : string)
  : option V :=
  match Dict.get other k with
  | Some v => Some v
  | None => Dict.get d k
  end.

End HandshakeSpec.

Module HelloSpec.

(** The value of the [Blackfire-Probe] header: the interpreter, [config],
    and one token for each feature that is on, in this order. *)
Definition probe_header (hexversion : Z)
    (timespan blackfire_yml noop no_pruning no_anon : bool) : string :=
  "python-" ++ Py.str_of_int hexversion ++ ", config"
  ++ (if timespan then ", timespan" else "")
  ++ (if blackfire_yml then ", blackfire_yml" else "")
  ++ (if noop then ", noop" else "")
  ++ (if no_pruning then ", no_pruning" else "")
  ++ (if no_anon then ", no_anon" else "").

(** The line of the [Blackfire-Auth] header, sent when the environment has
    both a server id and a server token that are not empty. *)
Definition auth_line (env : Env) : string :=
  match BLACKFIRE_SERVER_ID env, BLACKFIRE_SERVER_TOKEN env with
  | Some id, Some token =>
      if (0 <? String.length id) && (0 <? String.length token)
      then "blackfire-auth: " ++ id ++ ":" ++ token ++ LF
      else ""
  | _, _ => ""
  end.

End HelloSpec.

Module TimespanSpec.

(** A selector that starts with neither ['^'] nor ['=']. *)
Definition invalid (ts_sel : string) : bool :=
  match ts_sel with
  | EmptyString => false
  | String c _ => negb (Ascii.eqb c "^"%char) && negb (Ascii.eqb c "="%char)
  end.

End TimespanSpec.

Module RequestSpec.

(** The name under which [__init__] stores a header. *)
Definition stored_name (k : string) : string :=
  if BlackfireRequest.mem_list k ["Blackfire-Query"; "Blackfire-Probe"]
  then k else Py.lower k.

(** The header that [from_bytes] reads from a line: none without a colon,
    else the text before the first colon and the text after it, both
    stripped. *)
Definition header_of_line (line : string) : list (string * string) :=
  match Text.partition ":" line with
  | Some (name, value) => [(Py.strip name, Py.strip value)]
  | None => []
  end.

(** The last pair of [pairs] whose first part is [k]. *)
Definition last_for {V : Type} (k : string) (pairs : list (string * V))
  : option (string * V) :=
  List.find (fun kv => String.eqb (fst kv) k) (List.rev pairs).

(** The headers [new] are the headers [old] and then the lines of the ASCII
    text [h] read in order: a lookup finds the value of the last line with
    the name, and else what [old] had. *)
Definition headers_read (old : dict pyval) (h : string) (new : dict pyval)
  : Prop :=
  Py.isascii h = true ->
  forall k,
    Dict.get new k
    = match last_for k (flat_map header_of_line (Py.split h LF)) with
      | Some kv => Some (PStr (snd kv))
      | None => Dict.get old k
      end.

(** A text without ['\n\n']. *)
Definition marker_free (s : string) : bool :=
  negb (Py.contains Protocol.MARKER s).

(** A text that has no ['\n\n'] and does not end with ['\n']. *)
Definition marker_free_to_end (s : string) : bool :=
  negb (Py.contains Protocol.MARKER (s ++ LF)).

(** The order in which [to_bytes] writes the headers. *)
Definition emit_order (hdrs : dict pyval) : dict pyval :=
  (match Dict.get hdrs "file-format" with
   | Some v => [("file-format", v)]
   | None => []
   end
   ++ match Dict.get hdrs "Blackfire-Query" with
      | Some v => [("Blackfire-Query", v)]
      | None => []
      end
   ++ filter (fun kv =>
                negb (BlackfireRequest.mem_list
                        (fst kv) ["Blackfire-Query"; "file-format"]))
             hdrs)%list.

(** A header that a line can carry: no colon in the name, no end of line
    in the name or the value, no whitespace around them. The name and the
    value are ASCII text, and the value is written with at most 4300
    characters, which is as far as a number is turned into text. *)
Definition clean_header (kv : string * pyval) : bool :=
  Text.lacks ":" (fst kv) && Text.lacks "010" (fst kv)
  && String.eqb (Py.strip (fst kv)) (fst kv)
  && Text.lacks "010" (str (snd kv))
  && String.eqb (Py.strip (str (snd kv))) (str (snd kv))
  && Py.isascii (fst kv) && Py.isascii (str (snd kv))
  && (String.length (str (snd kv)) <=? PyInt.MAX_STR_DIGITS).

(** The body that [to_bytes] writes. *)
Definition body_text (data : option string) : string :=
  match data with
  | Some d => d
  | None => ""
  end.

End RequestSpec.

Module ResponseSpec.

(** The argument that a line of a response stands for: the text before its
    first colon and the text after it, both stripped; none without a
    colon. *)
Definition argument_of_line (line : string) : list (string * string) :=
  match Text.partition ":" line with
  | Some (key, value) => [(Py.strip key, Py.strip value)]
  | None => []
  end.

(** The values that [pairs] give for the key [k], in order. *)
Definition values_for (k : string) (pairs : list (string * string))
  : list string :=
  map snd (filter (fun kv => String.eqb (fst kv) k) pairs).

(** The keys of [pairs] by first occurrence that are not in [seen]. *)
Fixpoint new_keys (seen : list string) (pairs : list (string * string))
  : list string :=
  match pairs with
  | [] => []
  | (k, _) :: rest =>
      if existsb (String.eqb k) seen then new_keys seen rest
      else k :: new_keys (seen ++ [k]) rest
  end.

End ResponseSpec.

Module ResponseBytesSpec.

(** The status line that [to_bytes] writes for a status code. *)
Definition status_name (code : StatusCode) : string :=
  match code with
  | ERR => "Blackfire-Error"
  | OK => "Blackfire-Response"
  end.

(** The arguments one by one, as [to_bytes] goes through them. *)
Definition flatten (args : dict (list string)) : list (string * string) :=
  flat_map (fun kvs => map (pair (fst kvs)) (snd kvs)) args.

Definition line (kv : string * string) : string :=
  fst kv ++ ": " ++ snd kv.

(** A value that a line can carry: no end of line, no whitespace around
    it. *)
Definition clean_value (v : string) : bool :=
  Text.lacks "010" v && String.eqb (Py.strip v) v.

(** A key that a line can carry: also no colon. *)
Definition clean_key (k : string) : bool :=
  Text.lacks ":" k && clean_value k.

Definition clean_args (args : dict (list string)) : bool :=
  forallb (fun kvs => clean_key (fst kvs) && forallb clean_value (snd kvs))
          args.

(** Keys and values that are ASCII text. *)
Definition ascii_args (args : dict (list string)) : bool :=
  forallb (fun kvs => Py.isascii (fst kvs) && forallb Py.isascii (snd kvs))
          args.

(** The keys that have a value. *)
Definition with_values (args : dict (list string)) : dict (list string) :=
  filter (fun kvs => 0 <? List.length (snd kvs)) args.

End ResponseBytesSpec.

Module APMSpec.

(** The text of a status line before its first colon. *)
Definition status_type (line : string) : string :=
  match Text.partition ":" line with
  | Some (t, _) => t
  | None => line
  end.

(** The text of a status line between its first colon and the second one,
    or the end of the line. *)
Definition status_value (line : string) : option string :=
  match Text.partition ":" line with
  | Some (_, tail) =>
      Some (match Text.partition ":" tail with
            | Some (v, _) => v
            | None => tail
            end)
  | None => None
  end.

(** The lines of the body by what the loop of [from_bytes] takes them
    for. *)
Definition opens (line : string) : bool :=
  Py.startswith (Py.strip line) "key-page(".

Definition closes (line : string) : bool :=
  negb (opens line) && Py.startswith (Py.strip line) ")".

Definition is_entry (line : string) : bool :=
  negb (opens line) && negb (closes line)
  && Py.contains ":" (Py.strip line).

Definition entry (line : string) : list (string * string) :=
  ResponseSpec.argument_of_line (Py.strip line).

(** A body in blocks: a line of its own, a key page with its opening line,
    its entries and its closing line, or a closing line that closes
    nothing. *)
Inductive block : Type :=
| Line (line : string)
| Page (opening : string) (entries : list string) (closing : string)
| Stray (closing : string).

Definition lines_of (b : block) : list string :=
  match b with
  | Line line => [line]
  | Page opening entries closing => (opening :: entries ++ [closing])%list
  | Stray closing => [closing]
  end.

Definition well_formed (b : block) : bool :=
  match b with
  | Line line => is_entry line
  | Page opening entries closing =>
      opens opening && forallb is_entry entries && closes closing
  | Stray closing => closes closing
  end.

(** What may follow the last block: nothing, or a key page that is opened
    and not closed. *)
Definition unclosed (lines : list string) : bool :=
  match lines with
  | [] => true
  | opening :: entries => opens opening && forallb is_entry entries
  end.

(** The entries of the lines that are outside the key pages. *)
Definition arguments (blocks : list block) : list (string * string) :=
  flat_map (fun b => match b with
                     | Line line => entry line
                     | _ => []
                     end) blocks.

(** The key pages: a dictionary for each page, [None] for a closing line
    that closes nothing. *)
Definition pages (blocks : list block) : list (option (dict string)) :=
  flat_map (fun b => match b with
                     | Line _ => []
                     | Page _ entries _ =>
                         [Some (Dict.of_pairs (flat_map entry entries))]
                     | Stray _ => [None]
                     end) blocks.

End APMSpec.

(* ================================================================== *)
(** * Facts about the primitives *)
(* ================================================================== *)

Section StringFacts.

Lemma append_nil_r (s : string) : s ++ "" = s.
Proof. induction s as [|c s IH]; simpl; [reflexivity | now rewrite IH]. Qed.

Lemma append_assoc (a b c : string) : (a ++ b) ++ c = a ++ b ++ c.
Proof. induction a as [|x a IH]; simpl; [reflexivity | now rewrite IH]. Qed.

Lemma length_append (a b : string) :
  String.length (a ++ b) = String.length a + String.length b.
Proof. induction a as [|x a IH]; simpl; [reflexivity | now rewrite IH]. Qed.

Lemma rev_append (a b : string) : Py.rev (a ++ b) = Py.rev b ++ Py.rev a.
Proof.
  induction a as [|x a IH]; simpl.
  - now rewrite append_nil_r.
  - now rewrite IH, append_assoc.
Qed.

Lemma rev_involutive (s : string) : Py.rev (Py.rev s) = s.
Proof.
  induction s as [|c s IH]; simpl; [reflexivity|].
  now rewrite rev_append, IH.
Qed.

Lemma prefix_append (p s : string) : prefix p (p ++ s) = true.
Proof.
  induction p as [|c p IH]; simpl.
  - now destruct s.
  - destruct (ascii_dec c c) as [_|n]; [exact IH | now elim n].
Qed.

Lemma prefix_nil (s : string) : prefix "" s = true.
Proof. now destruct s. Qed.

Lemma prefix_cons (c a : ascii) (p s : string) :
  prefix (String c p) (String a s) = Ascii.eqb c a && prefix p s.
Proof.
  simpl. destruct (ascii_dec c a) as [->|n].
  - now rewrite Ascii.eqb_refl.
  - apply Ascii.eqb_neq in n. now rewrite n.
Qed.

Lemma length_zero (s : string) : String.length s = 0 -> s = "".
Proof. now destruct s. Qed.

End StringFacts.

Section SplitFacts.

Variable c : ascii.
Let sep : string := String c EmptyString.

Lemma cons_head_not_nil (a : ascii) (l : list string) : Py.cons_head a l <> [].
Proof. destruct l; discriminate. Qed.

Lemma split_go_never_nil (sp : string) (m : option nat) (k : nat) (s : string) :
  Py.split_go sp m k s <> [].
Proof.
  revert m k. induction s as [|a s IH]; intros m k; [discriminate|].
  cbn [Py.split_go]. destruct k; [|apply IH].
  destruct m as [[|n]|]; [discriminate| |];
    (destruct (prefix sp (String a s));
     [discriminate | apply cons_head_not_nil]).
Qed.

Lemma split_go_zero (s : string) : Py.split_go sep (Some 0) 0 s = [s].
Proof. now destruct s. Qed.

(** Cutting at a one-character separator, one step. *)
Lemma split_go_char (m : option nat) (a : ascii) (s : string) :
  m <> Some 0 ->
  Py.split_go sep m 0 (String a s) =
    if Ascii.eqb a c
    then EmptyString :: Py.split_go sep (option_map Nat.pred m) 0 s
    else Py.cons_head a (Py.split_go sep m 0 s).
Proof.
  intros Hm. unfold sep. cbn [Py.split_go].
  rewrite prefix_cons, prefix_nil, andb_true_r, (Ascii.eqb_sym c a).
  destruct m as [[|n]|]; [congruence| |]; cbn [String.length Nat.sub];
    reflexivity.
Qed.

(** The number of pieces is one more than the number of separators. *)
Lemma split_length (s : string) :
  List.length (Py.split s sep) = S (Text.count c s).
Proof.
  unfold Py.split. induction s as [|a s IH]; [reflexivity|].
  rewrite split_go_char by discriminate. cbn [Text.count option_map].
  destruct (Ascii.eqb a c); cbn [List.length Nat.add]; [now rewrite IH|].
  rewrite <- IH.
  destruct (Py.split_go sep None 0 s) eqn:E; [|reflexivity].
  now apply split_go_never_nil in E.
Qed.

Lemma lacks_count (s : string) :
  Text.lacks c s = true <-> Text.count c s = 0.
Proof.
  unfold Text.lacks. induction s as [|a s IH]; simpl; [tauto|].
  destruct (Ascii.eqb a c); simpl; [split; discriminate | exact IH].
Qed.

Lemma contains_char (s : string) :
  Py.contains sep s = negb (Text.lacks c s).
Proof.
  unfold Text.lacks, sep. induction s as [|a s IH]; [reflexivity|].
  cbn [Py.contains Py.forallb]. rewrite prefix_cons, prefix_nil, andb_true_r.
  rewrite IH, (Ascii.eqb_sym c a). now destruct (Ascii.eqb a c).
Qed.

Lemma partition_none (s : string) :
  Text.partition c s = None <-> Text.lacks c s = true.
Proof.
  unfold Text.lacks. induction s as [|a s IH]; simpl; [tauto|].
  destruct (Ascii.eqb a c); simpl; [split; discriminate|].
  destruct (Text.partition c s) as [[l r]|]; [|tauto].
  split; [discriminate|]. intros H. apply IH in H. discriminate.
Qed.

Lemma partition_spec (s l r : string) :
  Text.partition c s = Some (l, r) ->
  s = l ++ sep ++ r /\ Text.lacks c l = true.
Proof.
  unfold Text.lacks. revert l. induction s as [|a s IH]; intros l; simpl;
    [discriminate|].
  destruct (Ascii.eqb a c) eqn:E.
  - intros [= <- <-]. apply Ascii.eqb_eq in E. now subst a.
  - destruct (Text.partition c s) as [[l' r']|]; [|discriminate].
    intros [= <- <-]. destruct (IH l' eq_refl) as [-> H].
    simpl. now rewrite E.
Qed.

(** A string without the separator is one piece. *)
Lemma split_go_lacks (m : option nat) (s : string) :
  Text.lacks c s = true -> Py.split_go sep m 0 s = [s].
Proof.
  unfold Text.lacks. induction s as [|a s IH]; [reflexivity|].
  cbn [Py.forallb]. intros H. apply andb_true_iff in H as [Ha Hs].
  assert (Hm : m = Some 0 \/ m <> Some 0)
    by (destruct m as [[|n]|]; [now left | right; discriminate ..]).
  destruct Hm as [->|Hm]; [apply split_go_zero|].
  rewrite split_go_char by assumption.
  apply negb_true_iff in Ha. rewrite Ha, (IH Hs). reflexivity.
Qed.

(** [s.split(sep, 1)] cuts at the first separator. *)
Lemma split_n_partition (s : string) :
  Py.split_n s sep 1 =
    match Text.partition c s with
    | Some (l, r) => [l; r]
    | None => [s]
    end.
Proof.
  unfold Py.split_n. induction s as [|a s IH]; [reflexivity|].
  rewrite split_go_char by discriminate.
  cbn [Text.partition option_map Nat.pred].
  destruct (Ascii.eqb a c).
  - now rewrite split_go_zero.
  - rewrite IH. now destruct (Text.partition c s) as [[l r]|].
Qed.

(** With exactly one separator, [s.split(sep)] is that cut too. *)
Lemma split_single (s : string) :
  Text.count c s = 1 ->
  exists l r, Text.partition c s = Some (l, r) /\ Py.split s sep = [l; r].
Proof.
  unfold Py.split. induction s as [|a s IH]; [discriminate|].
  rewrite split_go_char by discriminate.
  cbn [Text.count Text.partition option_map].
  destruct (Ascii.eqb a c); cbn [Nat.add].
  - intros [= H]. apply lacks_count in H.
    exists EmptyString, s. now rewrite split_go_lacks.
  - intros H. destruct (IH H) as (l & r & -> & ->).
    now exists (String a l), r.
Qed.

End SplitFacts.

Section SplitJoinFacts.

Variable sep : string.
Hypothesis sep_not_empty : sep <> EmptyString.

Lemma prefix_drop (s : string) :
  prefix sep s = true -> s = sep ++ Text.drop (String.length sep) s.
Proof.
  clear sep_not_empty. revert s.
  induction sep as [|c p IH]; intros s; [reflexivity|].
  destruct s as [|a s]; [discriminate|]. rewrite prefix_cons.
  intros H. apply andb_true_iff in H as [Hc Hp].
  apply Ascii.eqb_eq in Hc. subst a. simpl. f_equal. now apply IH.
Qed.

Lemma concat_cons_head (a : ascii) (l : list string) :
  l <> [] ->
  String.concat sep (Py.cons_head a l) = String a (String.concat sep l).
Proof.
  destruct l as [|h [|h' t]]; [congruence | reflexivity | reflexivity].
Qed.

Lemma concat_cons (h : string) (l : list string) :
  l <> [] -> String.concat sep (h :: l) = h ++ sep ++ String.concat sep l.
Proof. destruct l as [|h' t]; [congruence | reflexivity]. Qed.

Lemma drop_nil (k : nat) : Text.drop k "" = "".
Proof. now destruct k. Qed.

(** The pieces of a split, put together again with the separator between
    them, are the text that was split. *)
Lemma split_go_join (s : string) :
  forall k, String.concat sep (Py.split_go sep None k s) = Text.drop k s.
Proof.
  induction s as [|a s IH]; intros k; [now rewrite drop_nil|].
  cbn [Py.split_go]. destruct k as [|k]; [|apply IH].
  destruct (prefix sep (String a s)) eqn:E.
  - rewrite concat_cons by apply split_go_never_nil.
    rewrite IH. cbn [append]. symmetry.
    etransitivity; [apply (prefix_drop _ E)|]. f_equal.
    destruct sep as [|c p]; [now elim sep_not_empty|].
    cbn [String.length Nat.sub Text.drop]. now rewrite Nat.sub_0_r.
  - rewrite concat_cons_head by apply split_go_never_nil.
    now rewrite IH.
Qed.

Lemma split_join (s : string) : String.concat sep (Py.split s sep) = s.
Proof. unfold Py.split. now rewrite split_go_join. Qed.

End SplitJoinFacts.

Section SendFacts.

Lemma length_substring_le (s : string) :
  forall n m, String.length (substring n m s) <= m.
Proof.
  induction s as [|c s IH]; intros [|n] [|m]; simpl; try lia.
  - specialize (IH 0 m). lia.
  - apply (IH n 0).
  - apply (IH n (S m)).
Qed.

(** The length of the data is fuel enough: [send] returns or raises. *)
Lemma send_loop_total (fuel : nat) :
  forall (data : string) (s : Socket.t),
    String.length data <= fuel ->
    Connection.send_loop fuel data s <> Blocks.
Proof.
  induction fuel as [|fuel IH]; intros data s Hlen.
  - destruct data; [discriminate | simpl in Hlen; lia].
  - cbn [Connection.send_loop].
    destruct (String.length data =? 0) eqn:E; [discriminate|].
    apply Nat.eqb_neq in E.
    destruct (Socket.sendall _ s) as [msg|s']; [discriminate|].
    apply IH. unfold Py.slice_from.
    pose proof (length_substring_le data
                  (Z.to_nat (Z.of_nat Protocol.MAX_SEND_SIZE))
                  (String.length data
                   - Z.to_nat (Z.of_nat Protocol.MAX_SEND_SIZE))) as Hs.
    rewrite Nat2Z.id in *. unfold Protocol.MAX_SEND_SIZE in *. lia.
Qed.

Lemma send_never_blocks (data : string) (self : Connection.t) :
  Connection.send data self <> Blocks.
Proof.
  unfold Connection.send.
  pose proof (send_loop_total (String.length data) data
                (Connection._socket self) (Nat.le_refl _)) as H.
  destruct (Connection.send_loop _ _ _); [discriminate | discriminate|].
  now elim H.
Qed.

End SendFacts.

(* ================================================================== *)
(** * Parsing the responses *)
(* ================================================================== *)

Section ResponseFacts.

Lemma unpack2_raises_value_error (l : list string) (e : exn) :
unpack2 l = Raise e -> e = ValueError.
Proof.
destruct l as [|a [|b [|c l]]]; simpl; intros H; inversion H; reflexivity.
Qed.

Lemma unpack2_wrong_length (l : list string) :
List.length l <> 2 -> unpack2 l = Raise ValueError.
Proof.
destruct l as [|a [|b [|c l]]]; simpl; intros H; try reflexivity.
now elim H.
Qed.

(** A body line is unpacked exactly when it has a colon. *)
Lemma unpack2_body_line (line : string) :
unpack2 (Py.split_n line ":" 1) =
  match Text.partition ":" line with
  | Some p => Ok p
  | None => Raise ValueError
  end.
Proof.
rewrite split_n_partition.
now destruct (Text.partition ":" line) as [[l r]|].
Qed.

Lemma no_colon_no_partition (line : string) :
Py.contains ":" line = false -> Text.partition ":" line = None.
Proof.
intros H. apply partition_none.
rewrite contains_char in H. now apply negb_false_iff in H.
Qed.

Lemma colon_partition (line : string) :
Py.contains ":" line = true ->
exists p, Text.partition ":" line = Some p.
Proof.
intros H. destruct (Text.partition ":" line) as [p|] eqn:E; [now exists p|].
apply partition_none in E. rewrite contains_char, E in H. discriminate.
Qed.

Lemma simple_body_loop_no_colon (lines : list string) (line : string) :
In line lines -> Py.contains ":" line = false ->
forall args, BlackfireResponse.body_loop args lines = Raise ValueError.
Proof.
intros Hin Hno. induction lines as [|l lines IH]; [contradiction|].
intros args. cbn [BlackfireResponse.body_loop]. rewrite unpack2_body_line.
destruct Hin as [->|Hin].
- now rewrite (no_colon_no_partition _ Hno).
- destruct (Text.partition ":" l); [apply (IH Hin) | reflexivity].
Qed.

Lemma simple_body_loop_total (lines : list string) :
Forall (fun l => Py.contains ":" l = true) lines ->
forall args, exists args', BlackfireResponse.body_loop args lines = Ok args'.
Proof.
induction 1 as [|l lines Hl _ IH]; intros args; [now exists args|].
cbn [BlackfireResponse.body_loop]. rewrite unpack2_body_line.
destruct (colon_partition _ Hl) as [p ->]. apply IH.
Qed.

End ResponseFacts.

(** C10, as the code has it. [BlackfireResponse.from_bytes] strips the
    text before it cuts it into lines. On ASCII text, when one of the lines
    of the stripped text that follow the status line has no colon, be it
    empty or not, the call raises [ValueError], the failure of the two-way
    unpacking: the line is neither skipped nor stored, since no response
    is returned at all. *)
Theorem simple_response_line_without_colon_raises :
  forall (parse_qsl : string -> list (string * string))
         (self : BlackfireResponse.t) (data line : string),
    Py.isascii data = true ->
    In line (tl (Py.split (Py.strip data) LF)) ->
    Py.contains ":" line = false ->
    BlackfireResponse.from_bytes parse_qsl self data = Raise ValueError.
Proof.
  intros parse_qsl self data line _ Hin Hno.
  unfold BlackfireResponse.from_bytes.
  destruct (unpack2 (Py.split (hd "" (Py.split (Py.strip data) LF)) ":"))
    as [p|e] eqn:E; cbn [bind].
  - now rewrite (simple_body_loop_no_colon _ _ Hin Hno).
  - now rewrite (unpack2_raises_value_error _ _ E).
Qed.

Lemma simple_response_line_without_colon_raises_witness :
  BlackfireResponse.from_bytes Utils.parse_qsl BlackfireResponse.init
    ("Blackfire-Response: success=true" ++ LF ++ "Blackfire-Const: A" ++ LF
     ++ "no colon here" ++ LF)
  = Raise ValueError.
Proof.
  apply (simple_response_line_without_colon_raises _ _ _ "no colon here").
  - reflexivity.
  - vm_compute. right. left. reflexivity.
  - reflexivity.
Defined.

(** C10, as the claim has it, fails: a line made of whitespace at the end
    of the input is a line of the input that is not empty and has no colon,
    and it is removed by the strip before the lines are read; the call
    returns a response. The input below ends with ['\n\n'], as a frame
    that [recv] returns does. *)
Lemma simple_response_trailing_blank_line :
  let data := "Blackfire-Response: ok" ++ LF ++ " " ++ LF ++ LF in
  Py.split data LF = ["Blackfire-Response: ok"; " "; ""; ""]
  /\ Py.contains ":" " " = false
  /\ BlackfireResponse.from_bytes Utils.parse_qsl BlackfireResponse.init data
     = Ok (BlackfireResponse.mk OK (Some "ok") (Some "Blackfire-Response: ok")
             [] (Some [])).
Proof. repeat split. Qed.

(** C6 on a status value that itself contains a colon. The claim cuts the
    status line ['Blackfire-Response: a:b'] at its first colon, into the
    type token ['Blackfire-Response'] and the value ['a:b']; the code cuts
    it at every colon and unpacks the three pieces into two names, so the
    call raises [ValueError]. With one colon in the status line, as in the
    bytes ['Blackfire-Error: timeout\n'], the code does what the claim
    says. *)
Lemma simple_response_status_value_with_colon :
  Text.partition ":" "Blackfire-Response: a:b"
  = Some ("Blackfire-Response", " a:b")
  /\ Py.split "Blackfire-Response: a:b" ":"
     = ["Blackfire-Response"; " a"; "b"]
  /\ BlackfireResponse.from_bytes Utils.parse_qsl BlackfireResponse.init
       ("Blackfire-Response: a:b" ++ LF)
     = Raise ValueError
  /\ BlackfireResponse.from_bytes Utils.parse_qsl BlackfireResponse.init
       ("Blackfire-Error: timeout" ++ LF)
     = Ok (BlackfireResponse.mk ERR (Some "timeout")
             (Some "Blackfire-Error: timeout") [] (Some [])).
Proof. split; [|split; [|split]]; reflexivity. Qed.


Lemma index_nth_error {A : Type} (l : list A) (i : nat) (a : A) :
  nth_error l i = Some a -> index l i = Ok a.
Proof. unfold index. now intros ->. Qed.

(** C5. [BlackfireAPMResponse.from_bytes] takes the type token and the
    status value from the status line, the first line of the stripped text:
    they are the first two pieces of the line cut at its colons, the value
    stripped. The specification comes to the status value after the test
    for the error marker ("Otherwise parse the value ..."): on ASCII text,
    when the type token is not [Blackfire-Error] and the dictionary read
    from the status value has a [success] entry that contains [false], the
    call raises [BlackfireAPMStatusFalseException] with the [error] entry
    of the dictionary, or with the fixed text when there is none; it does
    not return. With a [parse_qsl] that reads
    ['success=false&error=bad+signature'] as the query string it is, a body
    whose status line is
    ['Blackfire-Response: success=false&error=bad+signature'] raises it with
    ['bad signature']. *)
Theorem apm_response_status_false :
  forall (parse_qsl : string -> list (string * string))
         (self : BlackfireAPMResponse.t) (data : string),
    Py.isascii data = true ->
    let status_line := hd EmptyString (Py.split (Py.strip data) LF) in
    (forall resp_type resp_val success,
       nth_error (Py.split status_line ":") 0 = Some resp_type ->
       nth_error (Py.split status_line ":") 1 = Some resp_val ->
       resp_type <> "Blackfire-Error" ->
       let status_val_dict := Dict.of_pairs (parse_qsl (Py.strip resp_val)) in
       Dict.get status_val_dict "success" = Some success ->
       Py.contains "false" success = true ->
       BlackfireAPMResponse.from_bytes parse_qsl self data
       = Raise (BlackfireAPMStatusFalseException
                  match Dict.get status_val_dict "error" with
                  | Some error => error
                  | None => "status=False and no error received from Agent."
                  end))
    /\ (status_line = "Blackfire-Response: success=false&error=bad+signature" ->
        parse_qsl "success=false&error=bad+signature"
        = [("success", "false"); ("error", "bad signature")] ->
        BlackfireAPMResponse.from_bytes parse_qsl self data
        = Raise (BlackfireAPMStatusFalseException "bad signature")).
Proof.
  intros parse_qsl self data _ status_line.
  assert (General : forall resp_type resp_val success,
    nth_error (Py.split status_line ":") 0 = Some resp_type ->
    nth_error (Py.split status_line ":") 1 = Some resp_val ->
    resp_type <> "Blackfire-Error" ->
    Dict.get (Dict.of_pairs (parse_qsl (Py.strip resp_val))) "success"
    = Some success ->
    Py.contains "false" success = true ->
    BlackfireAPMResponse.from_bytes parse_qsl self data
    = Raise (BlackfireAPMStatusFalseException
               match Dict.get (Dict.of_pairs (parse_qsl (Py.strip resp_val)))
                              "error" with
               | Some error => error
               | None => "status=False and no error received from Agent."
               end)).
  { intros resp_type resp_val success H0 H1 Hty Hs Hf.
    unfold BlackfireAPMResponse.from_bytes. fold status_line.
    rewrite (index_nth_error _ _ _ H0), (index_nth_error _ _ _ H1).
    cbn [bind]. apply String.eqb_neq in Hty. rewrite Hty, Hs.
    cbn [bind]. rewrite Hf. reflexivity. }
  split; [exact General|].
  intros Hline Hqs.
  rewrite (General "Blackfire-Response" " success=false&error=bad+signature"
                   "false").
  - change (Py.strip " success=false&error=bad+signature")
      with "success=false&error=bad+signature".
    rewrite Hqs. reflexivity.
  - rewrite Hline. reflexivity.
  - rewrite Hline. reflexivity.
  - discriminate.
  - change (Py.strip " success=false&error=bad+signature")
      with "success=false&error=bad+signature".
    rewrite Hqs. reflexivity.
  - reflexivity.
Qed.

Lemma apm_response_status_false_witness :
  BlackfireAPMResponse.from_bytes Utils.parse_qsl BlackfireAPMResponse.init
    ("Blackfire-Response: success=false&error=bad+signature" ++ LF
     ++ "fn-args: foo 1" ++ LF)
  = Raise (BlackfireAPMStatusFalseException "bad signature")
  /\ BlackfireAPMResponse.from_bytes Utils.parse_qsl BlackfireAPMResponse.init
       ("Blackfire-Response: success=false" ++ LF)
     = Raise (BlackfireAPMStatusFalseException
                "status=False and no error received from Agent.").
Proof.
  split.
  - apply (proj2 (apm_response_status_false
                    Utils.parse_qsl BlackfireAPMResponse.init
                    ("Blackfire-Response: success=false&error=bad+signature"
                     ++ LF ++ "fn-args: foo 1" ++ LF)
                    eq_refl));
      reflexivity.
  - apply (proj1 (apm_response_status_false Utils.parse_qsl
                    BlackfireAPMResponse.init
                    ("Blackfire-Response: success=false" ++ LF) eq_refl)
             "Blackfire-Response" " success=false" "false");
      try reflexivity.
    discriminate.
Defined.

(* ================================================================== *)
(** * Requests *)
(* ================================================================== *)

Section RequestFacts.

Lemma dict_get_set_same {V : Type} (d : dict V) (k : string) (v : V) :
  Dict.get (Dict.set d k v) k = Some v.
Proof.
  induction d as [|[k' v'] d IH]; simpl.
  - now rewrite String.eqb_refl.
  - destruct (String.eqb k' k) eqn:E; simpl; rewrite E;
      [reflexivity | exact IH].
Qed.

Lemma dict_get_set_other {V : Type} (d : dict V) (k k' : string) (v : V) :
  k <> k' -> Dict.get (Dict.set d k v) k' = Dict.get d k'.
Proof.
  intros Hne. induction d as [|[k0 v0] d IH]; simpl.
  - apply String.eqb_neq in Hne. now rewrite Hne.
  - destruct (String.eqb k0 k) eqn:E; simpl.
    + apply String.eqb_eq in E. subst k0.
      apply String.eqb_neq in Hne. now rewrite Hne.
    + now rewrite IH.
Qed.

Lemma dict_get_in {V : Type} (d : dict V) (k : string) (v : V) :
  Dict.get d k = Some v -> In (k, v) d.
Proof.
  induction d as [|[k' v'] d IH]; simpl; [discriminate|].
  destruct (String.eqb k' k) eqn:E.
  - apply String.eqb_eq in E. intros [= ->]. left. now subst.
  - intros H. right. now apply IH.
Qed.

(** In a dictionary, whose keys are distinct, a stored pair is the one a
    lookup finds. *)
Lemma dict_in_get {V : Type} (d : dict V) (k : string) (v : V) :
  NoDup (Dict.keys d) -> In (k, v) d -> Dict.get d k = Some v.
Proof.
  induction d as [|[k' v'] d IH]; simpl; [contradiction|].
  intros Hnd [Heq|Hin].
  - injection Heq as -> ->. now rewrite String.eqb_refl.
  - inversion Hnd as [|? ? Hk Hd]; subst.
    destruct (String.eqb k' k) eqn:E; [|now apply IH].
    apply String.eqb_eq in E. subst k'. elim Hk.
    change k with (fst (k, v)). now apply in_map.
Qed.

Lemma other_headers_spec (hdrs : dict pyval) (result : string) :
  BlackfireRequest.other_headers result hdrs =
    result ++
    Text.join
      (map (fun kv => BlackfireRequest.header_line (fst kv) (snd kv))
           (filter (fun kv => negb (BlackfireRequest.mem_list
                                      (fst kv)
                                      ["Blackfire-Query"; "file-format"]))
                   hdrs)).
Proof.
  unfold BlackfireRequest.other_headers, Text.join.
  revert result. induction hdrs as [|[k v] hdrs IH]; intros result.
  - simpl. now rewrite append_nil_r.
  - cbn [fold_left filter fst snd]. rewrite IH.
    destruct (BlackfireRequest.mem_list k ["Blackfire-Query"; "file-format"]);
      cbn [negb map String.concat]; [reflexivity|].
    rewrite append_assoc. f_equal.
    cbn [fst snd].
    destruct (map _ (filter _ hdrs)); simpl;
      [now rewrite append_nil_r | reflexivity].
Qed.

End RequestFacts.

(** C4. When the headers of a request hold both [file-format] and
    [Blackfire-Query], [to_bytes] gives the line of [file-format], then the
    line of [Blackfire-Query], then one line for each other header in the
    order in which the headers are stored, then the blank line and the body.
    The two leading lines are the same for any other order of the same
    headers. *)
Theorem request_to_bytes_leading_headers :
  forall (self : BlackfireRequest.t) (x q : pyval),
    Dict.get (BlackfireRequest.headers self) "file-format" = Some x ->
    Dict.get (BlackfireRequest.headers self) "Blackfire-Query" = Some q ->
    BlackfireRequest.to_bytes self =
      ("file-format: " ++ str x ++ LF)
      ++ ("Blackfire-Query: " ++ str q ++ LF)
      ++ Text.join
           (map (fun kv => fst kv ++ ": " ++ str (snd kv) ++ LF)
                (filter (fun kv =>
                           negb (String.eqb (fst kv) "Blackfire-Query")
                           && negb (String.eqb (fst kv) "file-format"))
                        (BlackfireRequest.headers self)))
      ++ LF
      ++ match BlackfireRequest.data self with
         | Some d => d
         | None => ""
         end
    /\ forall other : BlackfireRequest.t,
         NoDup (Dict.keys (BlackfireRequest.headers self)) ->
         Permutation (BlackfireRequest.headers self)
                     (BlackfireRequest.headers other) ->
         Py.startswith (BlackfireRequest.to_bytes other)
           (("file-format: " ++ str x ++ LF)
            ++ ("Blackfire-Query: " ++ str q ++ LF)) = true.
Proof.
  assert (Shape : forall (self : BlackfireRequest.t) (x q : pyval),
    Dict.get (BlackfireRequest.headers self) "file-format" = Some x ->
    Dict.get (BlackfireRequest.headers self) "Blackfire-Query" = Some q ->
    BlackfireRequest.to_bytes self =
      ("file-format: " ++ str x ++ LF)
      ++ ("Blackfire-Query: " ++ str q ++ LF)
      ++ Text.join
           (map (fun kv => fst kv ++ ": " ++ str (snd kv) ++ LF)
                (filter (fun kv =>
                           negb (String.eqb (fst kv) "Blackfire-Query")
                           && negb (String.eqb (fst kv) "file-format"))
                        (BlackfireRequest.headers self)))
      ++ LF
      ++ match BlackfireRequest.data self with
         | Some d => d
         | None => ""
         end).
  { intros self x q Hx Hq. unfold BlackfireRequest.to_bytes.
    rewrite Hx, Hq, other_headers_spec.
    assert (Hlen : (0 <? List.length (BlackfireRequest.headers self)) = true).
    { destruct (BlackfireRequest.headers self); [discriminate | reflexivity]. }
    rewrite Hlen.
    assert (Hfilter :
      filter (fun kv => negb (BlackfireRequest.mem_list
                                (fst kv) ["Blackfire-Query"; "file-format"]))
             (BlackfireRequest.headers self)
      = filter (fun kv => negb (String.eqb (fst kv) "Blackfire-Query")
                          && negb (String.eqb (fst kv) "file-format"))
               (BlackfireRequest.headers self)).
    { apply filter_ext. intros [k v]. unfold BlackfireRequest.mem_list.
      cbn [existsb fst]. rewrite orb_false_r, negb_orb. reflexivity. }
    rewrite Hfilter. unfold BlackfireRequest.header_line.
    set (others := Text.join _).
    assert (Hbody : forall r : string,
      match BlackfireRequest.data self with
      | Some d => if 0 <? String.length d then r ++ d else r
      | None => r
      end = r ++ match BlackfireRequest.data self with
                 | Some d => d
                 | None => ""
                 end).
    { intros r. destruct (BlackfireRequest.data self) as [[|c d]|]; simpl.
      - rewrite append_nil_r. reflexivity.
      - reflexivity.
      - rewrite append_nil_r. reflexivity. }
    rewrite Hbody. repeat (progress (rewrite ?append_assoc; cbn [append])).
    reflexivity. }
  intros self x q Hx Hq. split; [now apply Shape|].
  intros other Hnd Hperm.
  assert (Hnd' : NoDup (Dict.keys (BlackfireRequest.headers other))).
  { unfold Dict.keys. eapply Permutation_NoDup; [|exact Hnd].
    now apply Permutation_map. }
  assert (Hx' : Dict.get (BlackfireRequest.headers other) "file-format"
                = Some x).
  { apply dict_in_get; [assumption|].
    eapply Permutation_in; [exact Hperm | now apply dict_get_in]. }
  assert (Hq' : Dict.get (BlackfireRequest.headers other) "Blackfire-Query"
                = Some q).
  { apply dict_in_get; [assumption|].
    eapply Permutation_in; [exact Hperm | now apply dict_get_in]. }
  rewrite (Shape other x q Hx' Hq'). unfold Py.startswith.
  match goal with
  | |- prefix _ (?a ++ ?b ++ ?r) = true => rewrite <- (append_assoc a b r)
  end.
  apply prefix_append.
Qed.

Lemma request_to_bytes_leading_headers_witness :
  BlackfireRequest.to_bytes
    (BlackfireRequest.init
       [("A", PStr "b"); ("Blackfire-Query", PStr "q");
        ("Blackfire-Probe", PStr "p"); ("file-format", PStr "x")]
       (Some "body"))
  = "file-format: x" ++ LF ++ "Blackfire-Query: q" ++ LF
    ++ "a: b" ++ LF ++ "Blackfire-Probe: p" ++ LF ++ LF ++ "body".
Proof.
  rewrite (proj1 (request_to_bytes_leading_headers
                    (BlackfireRequest.init
                       [("A", PStr "b"); ("Blackfire-Query", PStr "q");
                        ("Blackfire-Probe", PStr "p");
                        ("file-format", PStr "x")]
                       (Some "body"))
                    (PStr "x") (PStr "q") eq_refl eq_refl)).
  reflexivity.
Defined.

(** C9. A request made with the headers [file-format: x],
    [Blackfire-Query: q] and [A: b] and no body is serialized with [A]
    lower-cased, and reading these bytes back into a new request gives the
    three headers, [a] for [A], and an empty body. *)
Theorem request_round_trip :
  let request :=
    BlackfireRequest.init
      [("file-format", PStr "x"); ("Blackfire-Query", PStr "q");
       ("A", PStr "b")] None in
  BlackfireRequest.to_bytes request
  = "file-format: x" ++ LF ++ "Blackfire-Query: q" ++ LF ++ "a: b" ++ LF ++ LF
  /\ BlackfireRequest.from_bytes (BlackfireRequest.init [] None)
       (BlackfireRequest.to_bytes request)
     = Ok (BlackfireRequest.mk
             [("file-format", PStr "x"); ("Blackfire-Query", PStr "q");
              ("a", PStr "b")]
             (Some "")).
Proof. split; reflexivity. Qed.

(* ================================================================== *)
(** * Connection.recv *)
(* ================================================================== *)

Section RecvFacts.

Lemma join_cons (d : string) (chunks : list string) :
  Text.join (d :: chunks) = d ++ Text.join chunks.
Proof.
  unfold Text.join. destruct chunks; simpl; [now rewrite append_nil_r|].
  reflexivity.
Qed.

(** One turn of the loop on a read that gives bytes. *)
Lemma recv_loop_data (result d : string) (rest : list Socket.event) :
  d <> "" ->
  Connection.recv_loop result (Socket.Data d :: rest) =
    if RecvSpec.stops (result ++ d) then Return (result ++ d) rest
    else Connection.recv_loop (result ++ d) rest.
Proof.
  intros Hd. cbn [Connection.recv_loop].
  destruct d as [|c d]; [now elim Hd|]. cbn [String.length Nat.eqb].
  unfold RecvSpec.stops, RecvSpec.header_only, RecvSpec.full_frame.
  destruct (Connection._contains_blackfireyaml_header _ && _);
    [reflexivity|].
  cbn [orb]. now destruct (Py.endswith _ Protocol.MARKER).
Qed.

(** Reads that keep the loop running are added to the buffer. *)
Lemma recv_loop_keeps_reading (chunks : list string) :
  forall (result : string) (rest : list Socket.event),
    RecvSpec.keeps_reading result chunks = true ->
    Connection.recv_loop result (map Socket.Data chunks ++ rest)%list =
    Connection.recv_loop (result ++ Text.join chunks) rest.
Proof.
  induction chunks as [|d chunks IH]; intros result rest H.
  - simpl. now rewrite append_nil_r.
  - cbn [RecvSpec.keeps_reading] in H.
    apply andb_true_iff in H as [H Hk]. apply andb_true_iff in H as [Hd Hs].
    apply negb_true_iff in Hd, Hs.
    cbn [map app]. rewrite recv_loop_data, Hs.
    + rewrite (IH _ _ Hk), join_cons. now rewrite append_assoc.
    + intros ->. discriminate.
Qed.

(** What the loop returns meets a condition under which it breaks. *)
Lemma recv_loop_returns (inbound : list Socket.event) :
  forall (result buf : string) (rest : list Socket.event),
    Connection.recv_loop result inbound = Return buf rest ->
    RecvSpec.stops buf = true.
Proof.
  induction inbound as [|[d|msg] inbound IH]; intros result buf rest;
    [discriminate | | discriminate].
  destruct d as [|c d]; [discriminate|].
  rewrite recv_loop_data by discriminate.
  destruct (RecvSpec.stops (result ++ String c d)) eqn:E.
  - now intros [= <- <-].
  - apply IH.
Qed.

Lemma endswith_marker_header (s : string) :
  Py.endswith s Protocol.MARKER = true ->
  Py.endswith s Protocol.HEADER_MARKER = true.
Proof.
  unfold Py.endswith. change (Py.rev Protocol.MARKER) with (LF ++ LF).
  change (Py.rev LF) with LF.
  destruct (Py.rev s) as [|a r]; [discriminate|].
  unfold Protocol.HEADER_MARKER. cbn [append]. rewrite !prefix_cons, prefix_nil.
  destruct (Ascii.eqb "010" a); [reflexivity | discriminate].
Qed.

Lemma stops_ends_with_header_marker (s : string) :
  RecvSpec.stops s = true -> Py.endswith s Protocol.HEADER_MARKER = true.
Proof.
  unfold RecvSpec.stops, RecvSpec.header_only, RecvSpec.full_frame.
  intros H. apply orb_true_iff in H as [H|H].
  - now apply andb_true_iff in H.
  - now apply endswith_marker_header.
Qed.

Lemma splits_complete (p q : string) :
  In (p, q) (Text.splits (p ++ q)).
Proof.
  induction p as [|c p IH]; cbn [append].
  - destruct q; apply in_eq.
  - cbn [Text.splits]. apply in_cons.
    apply (in_map (fun pq => (String c (fst pq), snd pq)) _ (p, q) IH).
Qed.

(** No part of ['blackfire_yml=true\n'] that stops short of its end makes
    the loop break. *)
Lemma header_only_reply_prefix (p q : string) :
  p ++ q = "blackfire_yml=true" ++ LF -> q <> "" ->
  RecvSpec.stops p = false.
Proof.
  intros Hpq Hq. pose proof (splits_complete p q) as Hin. rewrite Hpq in Hin.
  vm_compute in Hin.
  repeat (destruct Hin as [Hin|Hin];
          [injection Hin as <- <-; (reflexivity || now elim Hq)|]).
  contradiction.
Qed.

Lemma join_nonempty (d : string) (chunks : list string) :
  d <> "" -> Text.join (d :: chunks) <> "".
Proof.
  rewrite join_cons. destruct d; [congruence | discriminate].
Qed.

(** The bytes ['blackfire_yml=true\n'], however the reads cut them. *)
Lemma recv_loop_header_only_reply (chunks : list string) :
  forall (result : string) (rest : list Socket.event),
    Forall (fun d => d <> "") chunks ->
    chunks <> [] ->
    result ++ Text.join chunks = "blackfire_yml=true" ++ LF ->
    Connection.recv_loop result (map Socket.Data chunks ++ rest)%list
    = Return ("blackfire_yml=true" ++ LF) rest.
Proof.
  induction chunks as [|d chunks IH]; intros result rest Hne Hnil Hjoin;
    [congruence|].
  inversion Hne as [|? ? Hd Hne']; subst.
  cbn [map app]. rewrite recv_loop_data by assumption.
  rewrite join_cons, <- append_assoc in Hjoin.
  destruct chunks as [|d' chunks].
  - change (Text.join []) with "" in Hjoin. rewrite append_nil_r in Hjoin.
    rewrite Hjoin. reflexivity.
  - rewrite (header_only_reply_prefix _ _ Hjoin).
    + apply IH; [assumption | discriminate | assumption].
    + inversion Hne'; subst. now apply join_nonempty.
Qed.

End RecvFacts.

(** C2. Whatever was read before without ending the loop, when a read
    brings the buffer to contain [blackfire_yml=true] and to end with
    ['\n'], [recv] returns the buffer as it is then, and leaves to the
    socket what has not been read; the buffer need not end with ['\n\n'].
    On a stream that gives the bytes ['blackfire_yml=true\n'], in one read
    or in several, [recv] returns these bytes, whatever the stream does
    afterwards, and also when it gives nothing more. *)
Theorem recv_header_only_frame :
  (forall (self : Connection.t) (chunks : list string) (d : string)
          (rest : list Socket.event),
      Socket.inbound (Connection._socket self)
      = (map Socket.Data chunks ++ Socket.Data d :: rest)%list ->
      RecvSpec.keeps_reading "" chunks = true ->
      d <> "" ->
      let result := Text.join chunks ++ d in
      Py.contains "blackfire_yml=true" result = true ->
      Py.endswith result LF = true ->
      Connection.recv self = Return result (Connection.with_inbound self rest))
  /\ (forall (self : Connection.t) (chunks : list string)
             (rest : list Socket.event),
        Socket.inbound (Connection._socket self)
        = (map Socket.Data chunks ++ rest)%list ->
        Forall (fun d => d <> "") chunks ->
        Text.join chunks = "blackfire_yml=true" ++ LF ->
        Connection.recv self
        = Return ("blackfire_yml=true" ++ LF)
                 (Connection.with_inbound self rest))
  /\ Py.endswith ("blackfire_yml=true" ++ LF) Protocol.MARKER = false.
Proof.
  split; [|split; [|reflexivity]].
  - intros self chunks d rest Hin Hk Hd result Hc He.
    unfold Connection.recv. rewrite Hin, (recv_loop_keeps_reading _ _ _ Hk).
    rewrite recv_loop_data by assumption. cbn [append]. fold result.
    unfold RecvSpec.stops, RecvSpec.header_only,
      Connection._contains_blackfireyaml_header, Connection.BFYAML_HDR.
    now rewrite Hc, He.
  - intros self chunks rest Hin Hne Hjoin. unfold Connection.recv.
    rewrite Hin, (recv_loop_header_only_reply chunks "" rest Hne);
      [reflexivity | | exact Hjoin].
    intros ->. discriminate.
Qed.

Lemma recv_header_only_frame_witness :
  let self :=
    Connection.mk
      (Socket.mk [Socket.Data "Blackfire-Response: foo=1&";
                  Socket.Data ("blackfire_yml=true" ++ LF);
                  Socket.Data ("Blackfire-Const: A" ++ LF ++ LF)] [] [])
      false None in
  Connection.recv self
  = Return ("Blackfire-Response: foo=1&blackfire_yml=true" ++ LF)
           (Connection.with_inbound
              self [Socket.Data ("Blackfire-Const: A" ++ LF ++ LF)])
  /\ Connection.recv
       (Connection.mk
          (Socket.mk [Socket.Data "blackfire_"; Socket.Data ("yml=true" ++ LF)]
                     [] [])
          false None)
     = Return ("blackfire_yml=true" ++ LF)
              (Connection.mk (Socket.mk [] [] []) false None).
Proof.
  intros self. split.
  - apply (proj1 recv_header_only_frame self
                 ["Blackfire-Response: foo=1&"] ("blackfire_yml=true" ++ LF)
                 [Socket.Data ("Blackfire-Const: A" ++ LF ++ LF)]);
      try reflexivity.
    discriminate.
  - apply (proj1 (proj2 recv_header_only_frame)
                 (Connection.mk
                    (Socket.mk [Socket.Data "blackfire_";
                                Socket.Data ("yml=true" ++ LF)] [] [])
                    false None)
                 ["blackfire_"; "yml=true" ++ LF] []).
    + reflexivity.
    + repeat constructor; discriminate.
    + reflexivity.
Defined.

(** C3. When a read gives no bytes before the loop of [recv] has met one of
    its two conditions, [recv] raises [BlackfireApiException] for a failed
    receive, whatever was read before. And a buffer that [recv] returns
    always meets one of the two conditions: it ends with ['\n\n'], or it
    contains [blackfire_yml=true] and ends with ['\n']; so it is never empty
    and always ends with ['\n']. *)
Theorem recv_zero_length_read_raises :
  (forall (self : Connection.t) (chunks : list string)
          (rest : list Socket.event),
      Socket.inbound (Connection._socket self)
      = (map Socket.Data chunks ++ Socket.Data "" :: rest)%list ->
      RecvSpec.keeps_reading "" chunks = true ->
      Connection.recv self
      = Raises (BlackfireApiException
                  (AgentRecvFailed "Agent closed the connection."))
               (Connection.with_inbound self rest))
  /\ (forall (self self' : Connection.t) (buf : string),
        Connection.recv self = Return buf self' ->
        (Py.endswith buf Protocol.MARKER = true
         \/ (Py.contains "blackfire_yml=true" buf = true
             /\ Py.endswith buf Protocol.HEADER_MARKER = true))
        /\ Py.endswith buf Protocol.HEADER_MARKER = true
        /\ buf <> "").
Proof.
  split.
  - intros self chunks rest Hin Hk. unfold Connection.recv.
    now rewrite Hin, (recv_loop_keeps_reading _ _ _ Hk).
  - intros self self' buf. unfold Connection.recv.
    destruct (Connection.recv_loop "" _) as [b rest|e rest|] eqn:E;
      [|discriminate ..].
    intros [= <- _]. apply recv_loop_returns in E.
    pose proof (stops_ends_with_header_marker _ E) as Hh.
    split; [|split; [exact Hh|]].
    + unfold RecvSpec.stops, RecvSpec.header_only, RecvSpec.full_frame in E.
      apply orb_true_iff in E as [E|E]; [right | now left].
      now apply andb_true_iff in E.
    + intros ->. discriminate.
Qed.

Lemma recv_zero_length_read_raises_witness :
  let self :=
    Connection.mk
      (Socket.mk [Socket.Data "Blackfire-Response: foo=1"; Socket.Data ""]
                 [] [])
      false None in
  Connection.recv self
  = Raises (BlackfireApiException
              (AgentRecvFailed "Agent closed the connection."))
           (Connection.with_inbound self [])
  /\ Py.endswith ("Blackfire-Response: ok" ++ LF ++ LF) LF = true.
Proof.
  intros self. split.
  - apply (proj1 recv_zero_length_read_raises self
                 ["Blackfire-Response: foo=1"] []); reflexivity.
  - apply (proj2 recv_zero_length_read_raises
                 (Connection.mk
                    (Socket.mk
                       [Socket.Data ("Blackfire-Response: ok" ++ LF ++ LF)]
                       [] [])
                    false None)
                 (Connection.mk (Socket.mk [] [] []) false None)
                 ("Blackfire-Response: ok" ++ LF ++ LF)).
    reflexivity.
Defined.

(* ================================================================== *)
(** * The accessors of the responses *)
(* ================================================================== *)

Section AccessorFacts.

Lemma forallb_append (p : ascii -> bool) (a b : string) :
  Py.forallb p (a ++ b) = Py.forallb p a && Py.forallb p b.
Proof.
  induction a as [|x a IH]; simpl; [reflexivity|].
  now rewrite IH, andb_assoc.
Qed.

Lemma forallb_rev (p : ascii -> bool) (s : string) :
  Py.forallb p (Py.rev s) = Py.forallb p s.
Proof.
  induction s as [|x s IH]; simpl; [reflexivity|].
  rewrite forallb_append, IH. simpl. rewrite andb_true_r. apply andb_comm.
Qed.

Lemma forallb_impl (p q : ascii -> bool) (s : string) :
  (forall a, p a = true -> q a = true) ->
  Py.forallb p s = true -> Py.forallb q s = true.
Proof.
  intros Hpq. induction s as [|x s IH]; simpl; [reflexivity|].
  intros H. apply andb_true_iff in H as [Hx Hs].
  now rewrite (Hpq _ Hx), (IH Hs).
Qed.

Lemma digit_not_space (a : ascii) :
  Py.isdigit_char a = true -> Py.isspace a = false.
Proof.
  unfold Py.isdigit_char, Py.isspace. intros H.
  apply andb_true_iff in H as [H1 H2].
  apply Nat.leb_le in H1, H2.
  apply orb_false_iff. split; apply andb_false_iff.
  - right. apply Nat.leb_gt. lia.
  - right. apply Nat.leb_gt. lia.
Qed.

Lemma digit_not_char (a c : ascii) :
  Py.isdigit_char a = true -> Py.isdigit_char c = false ->
  Ascii.eqb a c = false.
Proof.
  intros Ha Hc. apply Ascii.eqb_neq. intros ->. congruence.
Qed.

(** Stripping leaves a text without whitespace as it is. *)
Lemma rstrip_no_space (s : string) :
  Py.forallb (fun a => negb (Py.isspace a)) s = true -> Py.rstrip s = s.
Proof.
  induction s as [|x s IH]; simpl; [reflexivity|].
  intros H. apply andb_true_iff in H as [Hx Hs]. rewrite (IH Hs).
  apply negb_true_iff in Hx. rewrite Hx. now destruct s.
Qed.

Lemma strip_no_space (s : string) :
  Py.forallb (fun a => negb (Py.isspace a)) s = true -> Py.strip s = s.
Proof.
  intros H. unfold Py.strip.
  assert (Hl : Py.lstrip s = s).
  { destruct s as [|x s]; [reflexivity|]. simpl in *.
    apply andb_true_iff in H as [Hx _]. apply negb_true_iff in Hx.
    now rewrite Hx. }
  rewrite Hl. now apply rstrip_no_space.
Qed.

Lemma valid_body_digits (s : string) (prev : bool) :
  Py.forallb Py.isdigit_char s = true ->
  PyInt.valid_body prev s = match s with
                            | EmptyString => prev
                            | String _ _ => true
                            end.
Proof.
  revert prev. induction s as [|x s IH]; intros prev; simpl; [reflexivity|].
  intros H. apply andb_true_iff in H as [Hx Hs]. rewrite Hx, (IH _ Hs).
  now destruct s.
Qed.

Lemma drop_underscores_digits (s : string) :
  Py.forallb Py.isdigit_char s = true -> PyInt.drop_underscores s = s.
Proof.
  induction s as [|x s IH]; simpl; [reflexivity|].
  intros H. apply andb_true_iff in H as [Hx Hs]. rewrite (IH Hs).
  unfold PyInt.is_underscore. now rewrite (digit_not_char x "_" Hx).
Qed.

Lemma digit_not_int_space (a : ascii) :
  Py.isdigit_char a = true -> PyInt.isspace a = false.
Proof.
  unfold Py.isdigit_char, PyInt.isspace. intros H.
  apply andb_true_iff in H as [H1 H2].
  apply Nat.leb_le in H1, H2.
  apply orb_false_iff. split.
  - apply andb_false_iff. right. apply Nat.leb_gt. lia.
  - apply Nat.eqb_neq. lia.
Qed.

Lemma int_strip_no_space (s : string) :
  Py.forallb (fun a => negb (PyInt.isspace a)) s = true -> PyInt.strip s = s.
Proof.
  intros H. unfold PyInt.strip.
  assert (Hl : PyInt.lstrip s = s).
  { destruct s as [|x s]; [reflexivity|]. simpl in *.
    apply andb_true_iff in H as [Hx _]. apply negb_true_iff in Hx.
    now rewrite Hx. }
  rewrite Hl. clear Hl.
  induction s as [|x s IH]; simpl; [reflexivity|].
  simpl in H. apply andb_true_iff in H as [Hx Hs]. rewrite (IH Hs).
  apply negb_true_iff in Hx. rewrite Hx. now destruct s.
Qed.

(** On a text for which [isdigit] holds and that is not too long, [int]
    does not raise. *)
Lemma int_of_digits (tok : string) :
  Py.isdigit tok = true -> String.length tok <= PyInt.MAX_STR_DIGITS ->
  PyInt.int tok = Ok (Py.digits_value 0 tok).
Proof.
  destruct tok as [|x s]; [discriminate|]. unfold Py.isdigit. intros H Hlen.
  unfold PyInt.int. rewrite int_strip_no_space.
  - pose proof H as H'. cbn [Py.forallb] in H'.
    apply andb_true_iff in H' as [Hx _].
    rewrite (digit_not_char x "-" Hx), (digit_not_char x "+" Hx)
      by reflexivity.
    unfold PyInt.unsigned.
    rewrite (valid_body_digits _ _ H), (drop_underscores_digits _ H).
    apply Nat.leb_le in Hlen. now rewrite Hlen.
  - revert H. apply forallb_impl. intros a Ha.
    now rewrite (digit_not_int_space _ Ha).
Qed.

(** [int] of a string raises nothing but [ValueError]. *)
Lemma int_raises_value_error (s : string) (e : exn) :
  PyInt.int s = Raise e -> e = ValueError.
Proof.
  assert (Hu : forall b e', PyInt.unsigned b = Raise e' -> e' = ValueError).
  { intros b e'. unfold PyInt.unsigned.
    destruct (PyInt.valid_body false b); [|congruence].
    cbv zeta. destruct (_ <=? _); congruence. }
  unfold PyInt.int.
  destruct (PyInt.strip s) as [|c body]; [apply Hu|].
  destruct (Ascii.eqb c "-"); [|destruct (Ascii.eqb c "+"); apply Hu].
  destruct (PyInt.unsigned body) as [n|e'] eqn:E; cbn [bind]; [discriminate|].
  intros [= <-]. now apply (Hu body).
Qed.

Lemma parse_arg_id_total (tok : string) :
  String.length tok <= PyInt.MAX_STR_DIGITS ->
  BlackfireResponseBase.parse_arg_id tok = Ok (FnArgsSpec.arg_id_of tok).
Proof.
  intros Hlen.
  unfold BlackfireResponseBase.parse_arg_id, FnArgsSpec.arg_id_of.
  destruct (Py.isdigit tok) eqn:E; [|reflexivity].
  now rewrite (int_of_digits _ E Hlen).
Qed.

Lemma parse_arg_ids_total (toks : list string) :
  Forall (fun tok => String.length tok <= PyInt.MAX_STR_DIGITS) toks ->
  BlackfireResponseBase.parse_arg_ids toks
  = Ok (map FnArgsSpec.arg_id_of toks).
Proof.
  induction 1 as [|tok toks Htok _ IH]; [reflexivity|].
  cbn [BlackfireResponseBase.parse_arg_ids map].
  now rewrite (parse_arg_id_total _ Htok), IH.
Qed.

Lemma parse_arg_ids_raises (toks : list string) (e : exn) :
  BlackfireResponseBase.parse_arg_ids toks = Raise e -> e = ValueError.
Proof.
  revert e. induction toks as [|tok toks IH]; intros e; [discriminate|].
  cbn [BlackfireResponseBase.parse_arg_ids].
  unfold BlackfireResponseBase.parse_arg_id at 1.
  destruct (Py.isdigit tok).
  - destruct (PyInt.int tok) as [n|e'] eqn:E; cbn [bind].
    + destruct (BlackfireResponseBase.parse_arg_ids toks) as [l|e'] eqn:El;
        cbn [bind]; [discriminate|].
      intros [= <-]. now apply IH.
    + intros [= <-]. now apply int_raises_value_error in E.
  - cbn [bind].
    destruct (BlackfireResponseBase.parse_arg_ids toks) as [l|e'] eqn:El;
      cbn [bind]; [discriminate|].
    intros [= <-]. now apply IH.
Qed.

(** ** Lengths: the tokens of a value are not longer than the value *)

Lemma lstrip_length (s : string) :
  String.length (Py.lstrip s) <= String.length s.
Proof.
  induction s as [|c s IH]; [reflexivity|]. cbn [Py.lstrip].
  destruct (Py.isspace c); cbn [String.length]; lia.
Qed.

Lemma rstrip_length (s : string) :
  String.length (Py.rstrip s) <= String.length s.
Proof.
  induction s as [|c s IH]; [reflexivity|]. cbn [Py.rstrip].
  destruct (Py.rstrip s); [destruct (Py.isspace c)|];
    cbn [String.length] in *; lia.
Qed.

Lemma strip_length (s : string) :
  String.length (Py.strip s) <= String.length s.
Proof.
  unfold Py.strip. etransitivity; [apply rstrip_length | apply lstrip_length].
Qed.

Lemma concat_length_in (sp p : string) (l : list string) :
  In p l -> String.length p <= String.length (String.concat sp l).
Proof.
  induction l as [|h l IH]; [contradiction|]. intros [->|Hin].
  - destruct l; cbn [String.concat]; rewrite ?length_append; lia.
  - destruct l as [|h' l]; [contradiction|].
    change (String.concat sp (h :: h' :: l))
      with (h ++ sp ++ String.concat sp (h' :: l)).
    rewrite !length_append. specialize (IH Hin). lia.
Qed.

Lemma split_piece_length (s sp p : string) :
  sp <> "" -> In p (Py.split s sp) -> String.length p <= String.length s.
Proof.
  intros Hsp Hin. apply (concat_length_in sp) in Hin.
  now rewrite (split_join sp Hsp s) in Hin.
Qed.

Lemma tokens_short (ids : string) (n : nat) :
  String.length ids <= n ->
  Forall (fun tok => String.length tok <= n) (Py.split (Py.strip ids) ",").
Proof.
  intros H. apply Forall_forall. intros tok Hin.
  apply split_piece_length in Hin; [|discriminate].
  pose proof (strip_length ids). lia.
Qed.

Lemma partition_append (c : ascii) (l r : string) :
  Text.lacks c l = true ->
  Text.partition c (l ++ String c r) = Some (l, r).
Proof.
  unfold Text.lacks. induction l as [|x l IH]; simpl.
  - now rewrite Ascii.eqb_refl.
  - intros H. apply andb_true_iff in H as [Hx Hl].
    apply negb_true_iff in Hx. now rewrite Hx, (IH Hl).
Qed.

(** [rsplit(" ", 1)] cuts at the last space. *)
Lemma rsplit_last_space (name ids : string) :
  Text.lacks " " ids = true ->
  Py.rsplit_n (name ++ " " ++ ids) " " 1 = [name; ids].
Proof.
  intros H. unfold Py.rsplit_n. rewrite !rev_append.
  change (Py.rev " ") with " ". rewrite append_assoc.
  change (Py.split_go " " (Some 1) 0 (Py.rev ids ++ " " ++ Py.rev name))
    with (Py.split_n (Py.rev ids ++ String " " (Py.rev name)) " " 1).
  rewrite split_n_partition, partition_append.
  - simpl. now rewrite !rev_involutive.
  - unfold Text.lacks. now rewrite forallb_rev.
Qed.

Lemma rsplit_no_space (v : string) :
  Text.lacks " " v = true -> Py.rsplit_n v " " 1 = [v].
Proof.
  intros H. unfold Py.rsplit_n. change (Py.rev " ") with " ".
  rewrite split_go_lacks.
  - simpl. now rewrite rev_involutive.
  - unfold Text.lacks. now rewrite forallb_rev.
Qed.

(** A value with a space is a directive whose second part has none. *)
Lemma last_space_decomposition (v : string) :
  Py.contains " " v = true ->
  exists d, v = FnArgsSpec.directive d /\ Text.lacks " " (snd d) = true.
Proof.
  intros H. rewrite contains_char in H. apply negb_true_iff in H.
  destruct (Text.partition " " (Py.rev v)) as [[l r]|] eqn:E.
  - apply partition_spec in E as [Hv Hl].
    exists (Py.rev r, Py.rev l). split.
    + unfold FnArgsSpec.directive. cbn [fst snd].
      rewrite <- (rev_involutive v), Hv, !rev_append, append_assoc.
      reflexivity.
    + cbn [snd]. unfold Text.lacks. now rewrite forallb_rev.
  - apply partition_none in E. unfold Text.lacks in *.
    rewrite forallb_rev in E. congruence.
Qed.

Lemma dict_mem_keys {V : Type} (d : dict V) (k : string) :
  existsb (String.eqb k) (Dict.keys d) = Dict.mem d k.
Proof.
  unfold Dict.mem. induction d as [|[k' v'] d IH]; simpl; [reflexivity|].
  rewrite (String.eqb_sym k k'). destruct (String.eqb k' k); simpl;
    [reflexivity | exact IH].
Qed.

Lemma dict_keys_set_new {V : Type} (d : dict V) (k : string) (v : V) :
  Dict.mem d k = false ->
  Dict.keys (Dict.set d k v) = (Dict.keys d ++ [k])%list.
Proof.
  unfold Dict.mem. induction d as [|[k' v'] d IH]; simpl; [reflexivity|].
  destruct (String.eqb k' k); [discriminate|]. intros H. simpl.
  now rewrite (IH H).
Qed.

(** The loop of [get_instrumented_funcs] on directives cut at their last
    space: a function already in [res] keeps its list, a new one gets the
    list of the first directive that names it. *)
Lemma instrumented_loop_spec (ds : list (string * string)) :
  Forall (fun d => Text.lacks " " (snd d) = true
                   /\ String.length (snd d) <= PyInt.MAX_STR_DIGITS) ds ->
  forall (res : dict (list arg_id)) (log : list warning),
  exists funcs,
    BlackfireResponseBase.instrumented_loop res log
      (map FnArgsSpec.directive ds)
    = Ok (funcs, (log ++ FnArgsSpec.repeated (Dict.keys res) ds)%list)
    /\ forall f,
         Dict.get funcs f =
           match Dict.get res f with
           | Some ids => Some ids
           | None => option_map FnArgsSpec.arg_ids (FnArgsSpec.first_for f ds)
           end.
Proof.
  induction 1 as [|d ds [Hd Hlen] _ IH]; intros res log.
  - exists res. split.
    + simpl. now rewrite app_nil_r.
    + intros f. now destruct (Dict.get res f).
  - cbn [map BlackfireResponseBase.instrumented_loop].
    unfold FnArgsSpec.directive at 1. rewrite (rsplit_last_space _ _ Hd).
    cbn [unpack2 bind fst snd FnArgsSpec.repeated].
    fold (FnArgsSpec.fn_name d). rewrite dict_mem_keys.
    destruct (Dict.mem res (FnArgsSpec.fn_name d)) eqn:Hmem.
    + destruct (IH res (log ++ [AlreadyInstrumented (FnArgsSpec.fn_name d)
                                   (FnArgsSpec.directive d)])%list)
        as (funcs & Hloop & Hget).
      exists funcs. split.
      * rewrite Hloop, <- app_assoc. reflexivity.
      * intros f. rewrite Hget. destruct (Dict.get res f) eqn:Hf;
          [reflexivity|].
        unfold FnArgsSpec.first_for. cbn [List.find].
        destruct (String.eqb (FnArgsSpec.fn_name d) f) eqn:Hn; [|reflexivity].
        apply String.eqb_eq in Hn. subst f.
        unfold Dict.mem in Hmem. now rewrite Hf in Hmem.
    + rewrite (parse_arg_ids_total _ (tokens_short _ _ Hlen)). cbn [bind].
      fold (FnArgsSpec.arg_ids d).
      destruct (IH (Dict.set res (FnArgsSpec.fn_name d) (FnArgsSpec.arg_ids d))
                   log) as (funcs & Hloop & Hget).
      exists funcs. split.
      * rewrite Hloop, dict_keys_set_new by assumption. reflexivity.
      * intros f. rewrite Hget.
        unfold FnArgsSpec.first_for. cbn [List.find].
        destruct (String.eqb (FnArgsSpec.fn_name d) f) eqn:Hn.
        -- apply String.eqb_eq in Hn. subst f. rewrite dict_get_set_same.
           unfold Dict.mem in Hmem.
           now destruct (Dict.get res (FnArgsSpec.fn_name d)).
        -- apply String.eqb_neq in Hn.
           now rewrite dict_get_set_other by assumption.
Qed.

(** A value without a space makes the loop raise. *)
Lemma instrumented_loop_no_space (values : list string) (v : string) :
  In v values -> Text.lacks " " v = true ->
  forall res log,
    BlackfireResponseBase.instrumented_loop res log values = Raise ValueError.
Proof.
  intros Hin Hv. induction values as [|w values IH]; [contradiction|].
  intros res log. cbn [BlackfireResponseBase.instrumented_loop].
  destruct (unpack2 (Py.rsplit_n w " " 1)) as [p|e] eqn:E.
  - cbn [bind]. destruct Hin as [->|Hin].
    + rewrite (rsplit_no_space _ Hv) in E. discriminate.
    + destruct (Dict.mem res (Py.strip (fst p))); [now apply IH|].
      destruct (BlackfireResponseBase.parse_arg_ids _) as [ids|e'] eqn:Ei;
        cbn [bind]; [now apply IH|].
      now rewrite (parse_arg_ids_raises _ _ Ei).
  - cbn [bind]. now rewrite (unpack2_raises_value_error _ _ E).
Qed.

(** The second part of a plain directive is short enough for [int]. *)
Lemma plain_directives (ds : list (string * string)) :
  Forall (fun d => Text.lacks " " (snd d) = true) ds ->
  Forall (fun d => FnArgsSpec.plain (FnArgsSpec.directive d) = true) ds ->
  Forall (fun d => Text.lacks " " (snd d) = true
                   /\ String.length (snd d) <= PyInt.MAX_STR_DIGITS) ds.
Proof.
  intros Hs Hp. rewrite Forall_forall in *. intros d Hin.
  split; [now apply Hs|]. specialize (Hp d Hin).
  unfold FnArgsSpec.plain, FnArgsSpec.directive in Hp.
  apply andb_true_iff in Hp as [_ Hlen]. apply Nat.leb_le in Hlen.
  rewrite !length_append in Hlen. lia.
Qed.

End AccessorFacts.

(** C8, as the code has it. [get_instrumented_funcs] cuts each value
    stored under the fn-args key at its last space character, [name] before
    it and [ids] after it. When every value has a space, and is ASCII text
    of at most 4300 characters, the call returns: a function is mapped to
    the list read from the first value that names it, each token between
    commas being a number when it is all digits and the token itself
    otherwise; a later value that names the same function is left out and a
    warning is logged for it. The values ['foo 0,1'] and ['foo 2'] give
    [{'foo': [0, 1]}]. A value without a space character makes the call
    raise [ValueError]. *)
Theorem instrumented_funcs_first_directive_wins :
  forall (FN_ARGS_KEY : string) (args : dict (list string)),
    (forall ds : list (string * string),
       Dict.get args FN_ARGS_KEY = Some (map FnArgsSpec.directive ds) ->
       Forall (fun d => Text.lacks " " (snd d) = true) ds ->
       Forall (fun d => FnArgsSpec.plain (FnArgsSpec.directive d) = true)
              ds ->
       exists funcs,
         BlackfireResponseBase.get_instrumented_funcs FN_ARGS_KEY args
         = Ok (funcs, FnArgsSpec.repeated [] ds)
         /\ forall f,
              Dict.get funcs f
              = option_map FnArgsSpec.arg_ids (FnArgsSpec.first_for f ds))
    /\ (forall values v,
          Dict.get args FN_ARGS_KEY = Some values ->
          In v values -> Py.contains " " v = false ->
          BlackfireResponseBase.get_instrumented_funcs FN_ARGS_KEY args
          = Raise ValueError)
    /\ BlackfireResponseBase.get_instrumented_funcs FN_ARGS_KEY
         [(FN_ARGS_KEY, ["foo 0,1"; "foo 2"])]
       = Ok ([("foo", [ArgInt 0; ArgInt 1])],
             [AlreadyInstrumented "foo" "foo 2"]).
Proof.
  intros FN_ARGS_KEY args. split; [|split].
  - intros ds Hget Hds Hplain.
    unfold BlackfireResponseBase.get_instrumented_funcs, Dict.get_default.
    rewrite Hget.
    destruct (instrumented_loop_spec ds (plain_directives ds Hds Hplain)
                                     [] [])
      as (funcs & Hloop & Hf).
    exists funcs. split; [exact Hloop | exact Hf].
  - intros values v Hget Hin Hv.
    unfold BlackfireResponseBase.get_instrumented_funcs, Dict.get_default.
    rewrite Hget. apply (instrumented_loop_no_space values v Hin).
    rewrite contains_char in Hv. now apply negb_false_iff in Hv.
  - unfold BlackfireResponseBase.get_instrumented_funcs, Dict.get_default.
    cbn [Dict.get]. rewrite String.eqb_refl. reflexivity.
Qed.

Lemma instrumented_funcs_first_directive_wins_witness :
  exists funcs,
    BlackfireResponse.get_instrumented_funcs
      (BlackfireResponse.mk OK (Some "success=true") None
         [("Blackfire-Fn-Args",
           ["PDO::query 1"; "file_get_contents 1,name"; "PDO::query 2"])]
         None)
    = Ok (funcs,
          [AlreadyInstrumented "PDO::query" "PDO::query 2"])
    /\ Dict.get funcs "PDO::query" = Some [ArgInt 1]
    /\ Dict.get funcs "file_get_contents" = Some [ArgInt 1; ArgStr "name"].
Proof.
  destruct (proj1 (instrumented_funcs_first_directive_wins
                     "Blackfire-Fn-Args"
                     [("Blackfire-Fn-Args",
                       ["PDO::query 1"; "file_get_contents 1,name";
                        "PDO::query 2"])])
                  [("PDO::query", "1"); ("file_get_contents", "1,name");
                   ("PDO::query", "2")])
    as (funcs & Hr & Hf).
  - reflexivity.
  - repeat constructor.
  - repeat constructor.
  - exists funcs. split; [exact Hr|]. split; rewrite Hf; reflexivity.
Defined.

(** C8, as the claim has it, fails: a value whose last whitespace is not a
    space character is not cut there. With a TAB between ['foo'] and ['1']
    the cut at the last whitespace gives the name ['foo'] and the list
    ['1'], and the call raises [ValueError]; with a TAB after the last
    space, the TAB stays inside the only token. *)
Lemma instrumented_funcs_tab_separator :
  let TAB := String "009"%char EmptyString in
  FnArgsSpec.split_last_whitespace ("foo" ++ TAB ++ "1") = Some ("foo", "1")
  /\ BlackfireResponseBase.get_instrumented_funcs "Blackfire-Fn-Args"
       [("Blackfire-Fn-Args", ["foo" ++ TAB ++ "1"])]
     = Raise ValueError
  /\ FnArgsSpec.split_last_whitespace ("foo 1" ++ TAB ++ "2")
     = Some ("foo 1", "2")
  /\ BlackfireResponseBase.get_instrumented_funcs "Blackfire-Fn-Args"
       [("Blackfire-Fn-Args", ["foo 1" ++ TAB ++ "2"])]
     = Ok ([("foo", [ArgStr ("1" ++ TAB ++ "2")])], []).
Proof. repeat split. Qed.

(* ================================================================== *)
(** * The handshake *)
(* ================================================================== *)

Section HandshakeFacts.

Lemma dict_get_not_key {V : Type} (d : dict V) (k : string) :
  ~ In k (Dict.keys d) -> Dict.get d k = None.
Proof.
  induction d as [|[k' v'] d IH]; simpl; [reflexivity|].
  intros H. destruct (String.eqb k' k) eqn:E.
  - apply String.eqb_eq in E. elim H. now left.
  - apply IH. intros Hin. apply H. now right.
Qed.

Lemma dict_keys_set {V : Type} (d : dict V) (k : string) (v : V) :
  Dict.keys (Dict.set d k v)
  = if Dict.mem d k then Dict.keys d else (Dict.keys d ++ [k])%list.
Proof.
  unfold Dict.mem. induction d as [|[k' v'] d IH]; simpl; [reflexivity|].
  destruct (String.eqb k' k); [reflexivity|]. simpl. rewrite IH.
  now destruct (Dict.get d k).
Qed.

Lemma dict_set_nodup {V : Type} (d : dict V) (k : string) (v : V) :
  NoDup (Dict.keys d) -> NoDup (Dict.keys (Dict.set d k v)).
Proof.
  intros H. rewrite dict_keys_set. destruct (Dict.mem d k) eqn:E; [exact H|].
  apply NoDup_app; [exact H | repeat constructor; intros [] |].
  intros x Hx [<-|[]]. unfold Dict.mem in E.
  destruct (Dict.get d k) eqn:G; [discriminate|].
  clear E. induction d as [|[k' v'] d IH]; [contradiction|].
  simpl in G, Hx. destruct (String.eqb k' k) eqn:Ek; [discriminate|].
  apply String.eqb_neq in Ek. destruct Hx as [Hx|Hx]; [contradiction|].
  inversion H; subst. now apply IH.
Qed.

(** [d.update(other)], key by key. *)
Lemma dict_get_update {V : Type} (other : dict V) :
  NoDup (Dict.keys other) ->
  forall (d : dict V) (k : string),
    Dict.get (Dict.update d other) k = HandshakeSpec.merged_entry d other k.
Proof.
  unfold Dict.update, HandshakeSpec.merged_entry.
  induction other as [|[k0 v0] other IH]; intros Hnd d k; [reflexivity|].
  inversion Hnd as [|? ? Hk Hother]; subst.
  cbn [fold_left fst snd Dict.get]. rewrite (IH Hother).
  destruct (String.eqb k0 k) eqn:E.
  - apply String.eqb_eq in E. subst k0.
    now rewrite (dict_get_not_key other k Hk), dict_get_set_same.
  - apply String.eqb_neq in E.
    now rewrite (dict_get_set_other d k0 k v0 E).
Qed.

(** The keys of [d] keep their places, new keys come after them. *)
Lemma dict_keys_update {V : Type} (other d : dict V) :
  exists added, Dict.keys (Dict.update d other) = (Dict.keys d ++ added)%list.
Proof.
  unfold Dict.update. revert d.
  induction other as [|[k0 v0] other IH]; intros d.
  - exists []. simpl. now rewrite app_nil_r.
  - cbn [fold_left fst snd]. destruct (IH (Dict.set d k0 v0)) as [added Ha].
    rewrite Ha, dict_keys_set. destruct (Dict.mem d k0).
    + now exists added.
    + exists ([k0] ++ added)%list. now rewrite app_assoc.
Qed.

Lemma simple_body_loop_nodup (lines : list string) :
  forall args args',
    NoDup (Dict.keys args) ->
    BlackfireResponse.body_loop args lines = Ok args' ->
    NoDup (Dict.keys args').
Proof.
  induction lines as [|l lines IH]; intros args args' Hnd.
  - now intros [= <-].
  - cbn [BlackfireResponse.body_loop].
    destruct (unpack2 (Py.split_n l ":" 1)) as [p|e]; [|discriminate].
    cbn [bind]. apply IH. now apply dict_set_nodup.
Qed.

(** The argument mapping of a response read into a new object is a
    dictionary: no key is stored twice. *)
Lemma simple_response_args_nodup
    (parse_qsl : string -> list (string * string)) (data : string)
    (r : BlackfireResponse.t) :
  BlackfireResponse.from_bytes parse_qsl BlackfireResponse.init data = Ok r ->
  NoDup (Dict.keys (BlackfireResponse.args r)).
Proof.
  unfold BlackfireResponse.from_bytes.
  destruct (unpack2 _) as [p|e]; [|discriminate]. cbn [bind].
  destruct (BlackfireResponse.body_loop _ _) as [args|e] eqn:E;
    [|discriminate].
  cbn [bind]. intros [= <-]. cbn [BlackfireResponse.args].
  refine (simple_body_loop_nodup _ _ _ _ E). constructor.
Qed.

Lemma exchange_parses
    (parse_qsl : string -> list (string * string))
    (request : BlackfireRequest.t) (self self' : Connection.t)
    (r : BlackfireResponse.t) :
  HandshakeSpec.exchange parse_qsl request self = Return r self' ->
  exists data,
    BlackfireResponse.from_bytes parse_qsl BlackfireResponse.init data = Ok r.
Proof.
  unfold HandshakeSpec.exchange, Connection.bindM.
  destruct (Connection.send _ self) as [[] s1|e s1|]; [|discriminate ..].
  destruct (Connection.recv s1) as [raw s2|e s2|]; [|discriminate ..].
  destruct (BlackfireResponse.from_bytes _ _ raw) as [r'|e] eqn:E;
    [|discriminate].
  cbn [Connection.lift Connection.ret]. intros [= <- _]. now exists raw.
Qed.

(** What a handshake that returns has gone through. *)
Lemma write_prolog_returns
    (parse_qsl : string -> list (string * string))
    (config : Config) (env : Env) (self self' : Connection.t) :
  Connection._write_prolog parse_qsl config env self = Return tt self' ->
  exists hello payload first s1,
    Connection.hello_request config env = Ok (hello, payload)
    /\ HandshakeSpec.exchange parse_qsl hello self = Return first s1
    /\ BlackfireResponse.status_code first = OK
    /\ if Connection.asks_blackfire_yml first
       then exists content second s2,
              payload = Some content
              /\ HandshakeSpec.exchange parse_qsl
                   (HandshakeSpec.blackfire_yml_request content)
                   (HandshakeSpec.with_agent_response s1 first)
                 = Return second s2
              /\ BlackfireResponse.status_code second = OK
              /\ self' = HandshakeSpec.with_agent_response s2
                           (BlackfireResponse.update_args first second)
       else self' = HandshakeSpec.with_agent_response s1 first.
Proof.
  unfold Connection._write_prolog.
  unfold Connection.bindM at 1.
  destruct (Connection.hello_request config env) as [[hello payload]|e];
    [|discriminate].
  cbn [Connection.lift Connection.ret fst snd].
  unfold Connection.bindM.
  destruct (Connection.send _ self) as [[] s1|e s1|] eqn:Hsend;
    [|discriminate ..].
  destruct (Connection.recv s1) as [raw s2|e s2|] eqn:Hrecv;
    [|discriminate ..].
  destruct (BlackfireResponse.from_bytes _ _ raw) as [first|e] eqn:Hparse;
    [|discriminate].
  cbn [Connection.lift Connection.ret Connection.set_agent_response].
  destruct (BlackfireResponse.status_code first) eqn:Hcode; [|discriminate].
  intros H. exists hello, payload, first, s2.
  split; [reflexivity|]. split.
  { unfold HandshakeSpec.exchange, Connection.bindM.
    now rewrite Hsend, Hrecv, Hparse. }
  split; [exact Hcode|].
  destruct (Connection.asks_blackfire_yml first).
  - unfold Connection.blackfire_yml_round, Connection.bindM in H.
    destruct payload as [content|]; [|discriminate].
    cbn [Connection.lift Connection.ret] in H. revert H.
    destruct (Connection.send
                (BlackfireRequest.to_bytes (BlackfireRequest.init _ _)) _)
      as [[] s3|e s3|] eqn:Hsend2; [|discriminate ..].
    destruct (Connection.recv s3) as [raw2 s4|e s4|] eqn:Hrecv2;
      [|discriminate ..].
    destruct (BlackfireResponse.from_bytes _ _ raw2) as [second|e] eqn:Hparse2;
      [|discriminate].
    cbn [Connection.lift Connection.ret].
    destruct (BlackfireResponse.status_code second) eqn:Hcode2;
      [|discriminate].
    intros H. exists content, second, s4. split; [reflexivity|]. split.
    { unfold HandshakeSpec.exchange, Connection.bindM,
        HandshakeSpec.blackfire_yml_request, HandshakeSpec.with_agent_response.
      now rewrite Hsend2, Hrecv2, Hparse2. }
    split; [exact Hcode2|].
    unfold Connection.set_agent_response in H. now injection H as <-.
  - unfold Connection.ret in H. now injection H as <-.
Qed.

End HandshakeFacts.

Lemma exchange_returns
    (parse_qsl : string -> list (string * string))
    (request : BlackfireRequest.t) (self self' : Connection.t)
    (r : BlackfireResponse.t) :
  HandshakeSpec.exchange parse_qsl request self = Return r self' ->
  exists s1 raw,
    Connection.send (BlackfireRequest.to_bytes request) self = Return tt s1
    /\ Connection.recv s1 = Return raw self'
    /\ BlackfireResponse.from_bytes parse_qsl BlackfireResponse.init raw
       = Ok r.
Proof.
  unfold HandshakeSpec.exchange, Connection.bindM.
  destruct (Connection.send _ self) as [[] s1|e s1|] eqn:Hsend;
    [|discriminate ..].
  destruct (Connection.recv s1) as [raw s2|e s2|] eqn:Hrecv;
    [|discriminate ..].
  destruct (BlackfireResponse.from_bytes _ _ raw) as [r'|e] eqn:E;
    [|discriminate].
  cbn [Connection.lift Connection.ret]. intros [= <- <-].
  now exists s1, raw.
Qed.

(** After [update], an accessor reads under its key what the second
    response has there, and what the first had when the second has
    nothing. *)
Lemma merged_values (first second : BlackfireResponse.t) (key : string) :
  NoDup (Dict.keys (BlackfireResponse.args second)) ->
  Dict.get_default
    (BlackfireResponse.args (BlackfireResponse.update_args first second))
    key []
  = if Dict.mem (BlackfireResponse.args second) key
    then Dict.get_default (BlackfireResponse.args second) key []
    else Dict.get_default (BlackfireResponse.args first) key [].
Proof.
  intros Hnd. unfold Dict.get_default, Dict.mem.
  cbn [BlackfireResponse.update_args BlackfireResponse.args].
  rewrite (dict_get_update _ Hnd). unfold HandshakeSpec.merged_entry.
  now destruct (Dict.get (BlackfireResponse.args second) key).
Qed.

(** C1. A handshake in which the hello request is answered by a response
    with status OK whose status values hold [blackfire_yml=true], and the
    request that carries the payload is answered by a second response with
    status OK, returns, and the response it leaves in
    [self.agent_response] is the first one with its argument mapping
    updated by the second: under each key the values of the second response
    when it has the key, those of the first otherwise, the keys of the
    first in their places and the new ones after them. So
    [get_constants], [get_instrumented_funcs] and
    [get_timespan_selectors] on it give what they give on the second
    response for a key that came in the second round. *)
Theorem handshake_merges_second_response :
  forall (parse_qsl : string -> list (string * string))
         (config : Config) (env : Env) (self s1 s2 : Connection.t)
         (hello : BlackfireRequest.t) (content : string)
         (first second : BlackfireResponse.t),
    Connection.hello_request config env = Ok (hello, Some content) ->
    HandshakeSpec.exchange parse_qsl hello self = Return first s1 ->
    BlackfireResponse.status_code first = OK ->
    Connection.asks_blackfire_yml first = true ->
    HandshakeSpec.exchange parse_qsl
      (HandshakeSpec.blackfire_yml_request content)
      (HandshakeSpec.with_agent_response s1 first)
    = Return second s2 ->
    BlackfireResponse.status_code second = OK ->
    let merged := BlackfireResponse.update_args first second in
    Connection._write_prolog parse_qsl config env self
    = Return tt (HandshakeSpec.with_agent_response s2 merged)
    /\ Connection.agent_response (HandshakeSpec.with_agent_response s2 merged)
       = Some merged
    /\ (forall k,
          Dict.get (BlackfireResponse.args merged) k
          = match Dict.get (BlackfireResponse.args second) k with
            | Some values => Some values
            | None => Dict.get (BlackfireResponse.args first) k
            end)
    /\ (exists added,
          Dict.keys (BlackfireResponse.args merged)
          = (Dict.keys (BlackfireResponse.args first) ++ added)%list)
    /\ BlackfireResponse.get_constants merged
       = (if Dict.mem (BlackfireResponse.args second)
                      BlackfireResponse.CONSTANTS_KEY
          then BlackfireResponse.get_constants second
          else BlackfireResponse.get_constants first)
    /\ BlackfireResponse.get_instrumented_funcs merged
       = (if Dict.mem (BlackfireResponse.args second)
                      BlackfireResponse.FN_ARGS_KEY
          then BlackfireResponse.get_instrumented_funcs second
          else BlackfireResponse.get_instrumented_funcs first)
    /\ BlackfireResponse.get_timespan_selectors merged
       = (if Dict.mem (BlackfireResponse.args second)
                      BlackfireResponse.TIMESPAN_KEY
          then BlackfireResponse.get_timespan_selectors second
          else BlackfireResponse.get_timespan_selectors first).
Proof.
  intros parse_qsl config env self s1 s2 hello content first second
         Hhello Hfirst Hcode Hasks Hsecond Hcode2 merged.
  assert (Hnd : NoDup (Dict.keys (BlackfireResponse.args second))).
  { destruct (exchange_parses _ _ _ _ _ Hsecond) as [data Hdata].
    exact (simple_response_args_nodup _ _ _ Hdata). }
  destruct (exchange_returns _ _ _ _ _ Hfirst) as (c1 & raw1 & Hs1 & Hr1 & Hp1).
  destruct (exchange_returns _ _ _ _ _ Hsecond)
    as (c2 & raw2 & Hs2 & Hr2 & Hp2).
  split; [|split; [reflexivity|split; [|split]]].
  - unfold Connection._write_prolog, Connection.bindM.
    rewrite Hhello. cbn [Connection.lift Connection.ret fst snd].
    rewrite Hs1, Hr1, Hp1.
    cbn [Connection.lift Connection.ret Connection.set_agent_response].
    rewrite Hcode, Hasks.
    unfold Connection.blackfire_yml_round, Connection.bindM.
    cbn [Connection.lift Connection.ret].
    unfold HandshakeSpec.blackfire_yml_request,
      HandshakeSpec.with_agent_response in Hs2.
    rewrite Hs2, Hr2, Hp2. cbn [Connection.lift Connection.ret].
    rewrite Hcode2. reflexivity.
  - intros k. unfold merged.
    cbn [BlackfireResponse.update_args BlackfireResponse.args].
    apply (dict_get_update _ Hnd).
  - unfold merged.
    cbn [BlackfireResponse.update_args BlackfireResponse.args].
    apply dict_keys_update.
  - unfold BlackfireResponse.get_constants,
      BlackfireResponse.get_instrumented_funcs,
      BlackfireResponse.get_timespan_selectors,
      BlackfireResponseBase.get_constants,
      BlackfireResponseBase.get_instrumented_funcs,
      BlackfireResponseBase.get_timespan_selectors, merged.
    rewrite !(merged_values first second _ Hnd).
    repeat split;
      match goal with
      | |- context [Dict.mem ?d ?k] => now destruct (Dict.mem d k)
      end.
Qed.

Lemma handshake_merges_second_response_witness :
  let config := mk_config [("flag_yml", "1")] "challenge" "sig" "a=1" false in
  let env := mk_env 50988528 (Some "metrics: {}") None None in
  let self :=
    Connection.mk
      (Socket.mk
         [Socket.Data ("Blackfire-Response: blackfire_yml=true&x=1" ++ LF
                       ++ "Blackfire-Const: A" ++ LF
                       ++ "Blackfire-Fn-Args: foo 1" ++ LF);
          Socket.Data ("Blackfire-Response: ok" ++ LF
                       ++ "Blackfire-Fn-Args: bar 1,2" ++ LF
                       ++ "Blackfire-Timespan: ^PDO::" ++ LF ++ LF)]
         [] [])
      false None in
  exists self' merged,
    Connection._write_prolog Utils.parse_qsl config env self
    = Return tt self'
    /\ Connection.agent_response self' = Some merged
    /\ BlackfireResponse.get_constants merged = ["A"]
    /\ BlackfireResponse.get_instrumented_funcs merged
       = Ok ([("bar", [ArgInt 1; ArgInt 2])], [])
    /\ BlackfireResponse.get_timespan_selectors merged
       = Ok (mk_selectors ["PDO::"] [], []).
Proof.
  intros config env self.
  edestruct (handshake_merges_second_response Utils.parse_qsl config env self)
    as (Hret & Hresp & _ & _ & Hc & Hf & Ht).
  - vm_compute. reflexivity.
  - vm_compute. reflexivity.
  - reflexivity.
  - reflexivity.
  - vm_compute. reflexivity.
  - reflexivity.
  - eexists. eexists. split; [exact Hret|]. split; [exact Hresp|].
    rewrite Hc, Hf, Ht. repeat split.
Defined.

(* ================================================================== *)
(** * More on Connection.recv and Connection.send *)
(* ================================================================== *)

Section RecvMoreFacts.

Lemma recv_loop_returns_reads (inbound : list Socket.event) :
  forall (result buf : string) (rest : list Socket.event),
    Connection.recv_loop result inbound = Return buf rest ->
    exists chunks d,
      inbound = (map Socket.Data chunks ++ Socket.Data d :: rest)%list
      /\ RecvSpec.keeps_reading result chunks = true
      /\ d <> ""
      /\ buf = result ++ Text.join chunks ++ d
      /\ RecvSpec.stops buf = true.
Proof.
  induction inbound as [|[d|msg] inbound IH]; intros result buf rest;
    [discriminate | | discriminate].
  destruct d as [|c d]; [discriminate|].
  rewrite recv_loop_data by discriminate.
  destruct (RecvSpec.stops (result ++ String c d)) eqn:E.
  - intros [= <- <-]. exists [], (String c d).
    repeat split; [discriminate | assumption].
  - intros H. destruct (IH _ _ _ H) as (chunks & d' & -> & Hk & Hd & -> & Hs).
    exists (String c d :: chunks), d'.
    split; [reflexivity|]. split.
    + cbn [RecvSpec.keeps_reading String.length Nat.eqb negb andb].
      now rewrite E.
    + split; [assumption|]. rewrite join_cons, !append_assoc in *.
      split; [reflexivity | assumption].
Qed.

(** As long as the reads do not take the buffer to the end of the frame,
    the loop goes on; at the read that does, it returns. *)
Lemma recv_loop_complete_frame (chunks : list string) :
  forall (result : string) (rest : list Socket.event),
    Forall (fun d => d <> "") chunks ->
    chunks <> [] ->
    Py.endswith (result ++ Text.join chunks) Protocol.MARKER = true ->
    exists n,
      0 < n <= List.length chunks
      /\ Connection.recv_loop result (map Socket.Data chunks ++ rest)%list
         = Return (result ++ Text.join (firstn n chunks))
                  (map Socket.Data (skipn n chunks) ++ rest)%list.
Proof.
  induction chunks as [|d chunks IH]; intros result rest Hne Hnil Hend;
    [congruence|].
  inversion Hne as [|? ? Hd Hne']; subst.
  cbn [map app]. rewrite recv_loop_data by assumption.
  destruct (RecvSpec.stops (result ++ d)) eqn:E.
  - exists 1. cbn [firstn skipn List.length]. split; [lia|].
    change (Text.join [d]) with d. reflexivity.
  - destruct chunks as [|d' chunks].
    + change (Text.join [d]) with d in Hend.
      unfold RecvSpec.stops, RecvSpec.full_frame in E.
      rewrite Hend, orb_true_r in E. discriminate.
    + rewrite join_cons, <- append_assoc in Hend.
      destruct (IH (result ++ d) rest Hne') as (n & Hn & Hr);
        [discriminate | assumption |].
      exists (S n). split; [cbn [List.length] in *; lia|].
      rewrite Hr. cbn [firstn skipn].
      now rewrite (join_cons d), append_assoc.
Qed.

End RecvMoreFacts.

(** X1. What [recv] returns is what it has read: the reads it used up all
    gave bytes, the buffer is these bytes in order, no read before the last
    had brought the buffer to a break condition, and the rest of the
    connection is as it was. *)
Theorem recv_returns_its_reads :
  forall (self self' : Connection.t) (buf : string),
    Connection.recv self = Return buf self' ->
    exists chunks d,
      Socket.inbound (Connection._socket self)
      = (map Socket.Data chunks
         ++ Socket.Data d :: Socket.inbound (Connection._socket self'))%list
      /\ RecvSpec.keeps_reading "" chunks = true
      /\ d <> ""
      /\ buf = Text.join chunks ++ d
      /\ self' = Connection.with_inbound
                   self (Socket.inbound (Connection._socket self')).
Proof.
  intros self self' buf. unfold Connection.recv.
  destruct (Connection.recv_loop "" _) as [b rest|e rest|] eqn:E;
    [|discriminate ..].
  intros [= <- <-].
  destruct (recv_loop_returns_reads _ _ _ _ E)
    as (chunks & d & Hin & Hk & Hd & Hb & _).
  exists chunks, d. cbn [append] in Hb. now repeat split.
Qed.

Lemma recv_returns_its_reads_witness :
  exists chunks d,
    [Socket.Data "Blackfire-Response: "; Socket.Data ("ok" ++ LF ++ LF);
     Socket.Data "more"]
    = (map Socket.Data chunks ++ [Socket.Data d; Socket.Data "more"])%list
    /\ "Blackfire-Response: ok" ++ LF ++ LF = Text.join chunks ++ d.
Proof.
  destruct (recv_returns_its_reads
              (Connection.mk
                 (Socket.mk [Socket.Data "Blackfire-Response: ";
                             Socket.Data ("ok" ++ LF ++ LF);
                             Socket.Data "more"] [] [])
                 false None)
              (Connection.mk (Socket.mk [Socket.Data "more"] [] []) false None)
              ("Blackfire-Response: ok" ++ LF ++ LF) eq_refl)
    as (chunks & d & Hin & _ & _ & Hb & _).
  exists chunks, d. split; [exact Hin | exact Hb].
Defined.

(** X2. Before the buffer has met a break condition, an error of the
    socket makes [recv] raise [BlackfireApiException] with the text of the
    error, and a stream that gives nothing more leaves [recv] waiting: it
    does not return the bytes read so far. *)
Theorem recv_error_or_stall :
  forall (self : Connection.t) (chunks : list string),
    RecvSpec.keeps_reading "" chunks = true ->
    (forall msg rest,
       Socket.inbound (Connection._socket self)
       = (map Socket.Data chunks ++ Socket.Fails msg :: rest)%list ->
       Connection.recv self
       = Raises (BlackfireApiException (AgentRecvFailed msg))
                (Connection.with_inbound self rest))
    /\ (Socket.inbound (Connection._socket self) = map Socket.Data chunks ->
        Connection.recv self = Blocks).
Proof.
  intros self chunks Hk. split.
  - intros msg rest Hin. unfold Connection.recv.
    now rewrite Hin, (recv_loop_keeps_reading _ _ _ Hk).
  - intros Hin. unfold Connection.recv.
    rewrite Hin, <- (app_nil_r (map Socket.Data chunks)).
    now rewrite (recv_loop_keeps_reading _ _ _ Hk).
Qed.

Lemma recv_error_or_stall_witness :
  Connection.recv
    (Connection.mk
       (Socket.mk [Socket.Data ("Blackfire-Response: ok" ++ LF);
                   Socket.Fails "timed out"] [] [])
       false None)
  = Raises (BlackfireApiException (AgentRecvFailed "timed out"))
           (Connection.mk (Socket.mk [] [] []) false None)
  /\ Connection.recv
       (Connection.mk
          (Socket.mk [Socket.Data ("Blackfire-Response: ok" ++ LF)] [] [])
          false None)
     = Blocks.
Proof.
  split.
  - apply (proj1 (recv_error_or_stall
                    (Connection.mk
                       (Socket.mk
                          [Socket.Data ("Blackfire-Response: ok" ++ LF);
                           Socket.Fails "timed out"] [] [])
                       false None)
                    ["Blackfire-Response: ok" ++ LF] eq_refl)
                 "timed out" []).
    reflexivity.
  - apply (proj2 (recv_error_or_stall
                    (Connection.mk
                       (Socket.mk
                          [Socket.Data ("Blackfire-Response: ok" ++ LF)] [] [])
                       false None)
                    ["Blackfire-Response: ok" ++ LF] eq_refl)).
    reflexivity.
Defined.

(** X3. A frame that ends with ['\n\n'] is always received, however the
    reads cut it: when the reads give bytes each and together end with
    ['\n\n'], [recv] returns, at the latest with the last of them, the bytes
    of the first reads, and leaves the other reads to the socket. *)
Theorem recv_complete_frame_returns :
  forall (self : Connection.t) (chunks : list string)
         (rest : list Socket.event),
    Socket.inbound (Connection._socket self)
    = (map Socket.Data chunks ++ rest)%list ->
    Forall (fun d => d <> "") chunks ->
    Py.endswith (Text.join chunks) Protocol.MARKER = true ->
    exists n,
      0 < n <= List.length chunks
      /\ Connection.recv self
         = Return (Text.join (firstn n chunks))
                  (Connection.with_inbound
                     self (map Socket.Data (skipn n chunks) ++ rest)%list).
Proof.
  intros self chunks rest Hin Hne Hend.
  assert (Hnil : chunks <> []) by (intros ->; discriminate).
  destruct (recv_loop_complete_frame chunks "" rest Hne Hnil Hend)
    as (n & Hn & Hr).
  exists n. split; [exact Hn|]. unfold Connection.recv.
  now rewrite Hin, Hr.
Qed.

Lemma recv_complete_frame_returns_witness :
  exists n,
    Connection.recv
      (Connection.mk
         (Socket.mk [Socket.Data "Blackfire-Response: ok";
                     Socket.Data LF; Socket.Data LF] [] [])
         false None)
    = Return (Text.join (firstn n ["Blackfire-Response: ok"; LF; LF]))
             (Connection.mk
                (Socket.mk
                   (map Socket.Data
                        (skipn n ["Blackfire-Response: ok"; LF; LF]))
                   [] [])
                false None).
Proof.
  destruct (recv_complete_frame_returns
              (Connection.mk
                 (Socket.mk [Socket.Data "Blackfire-Response: ok";
                             Socket.Data LF; Socket.Data LF] [] [])
                 false None)
              ["Blackfire-Response: ok"; LF; LF] [])
    as (n & _ & Hr).
  - reflexivity.
  - repeat constructor; discriminate.
  - reflexivity.
  - exists n. rewrite Hr. unfold Connection.with_inbound.
    now rewrite app_nil_r.
Defined.

Section SendMoreFacts.

Lemma substring_full (s : string) : substring 0 (String.length s) s = s.
Proof. induction s as [|c s IH]; simpl; [reflexivity | now rewrite IH]. Qed.

Lemma substring_from_drop (s : string) :
  forall n, substring n (String.length s - n) s = Text.drop n s.
Proof.
  induction s as [|c s IH]; intros [|n]; try reflexivity.
  - cbn [String.length Nat.sub substring Text.drop].
    now rewrite substring_full.
  - cbn [String.length Nat.sub substring Text.drop]. apply IH.
Qed.

Lemma take_drop (s : string) :
  forall n, substring 0 n s ++ Text.drop n s = s.
Proof.
  induction s as [|c s IH]; intros [|n]; try reflexivity.
  cbn [substring Text.drop append]. now rewrite IH.
Qed.

Lemma length_take (s : string) :
  forall n, String.length (substring 0 n s) = Nat.min n (String.length s).
Proof.
  induction s as [|c s IH]; intros [|n]; try reflexivity.
  cbn [substring String.length Nat.min]. now rewrite IH.
Qed.

Lemma length_drop (s : string) :
  forall n, String.length (Text.drop n s) = String.length s - n.
Proof.
  induction s as [|c s IH]; intros [|n]; try reflexivity.
  cbn [Text.drop String.length Nat.sub]. apply IH.
Qed.

Lemma drop_drop (s : string) :
  forall a b, Text.drop a (Text.drop b s) = Text.drop (b + a) s.
Proof.
  induction s as [|c s IH]; intros a [|b]; try reflexivity.
  - cbn [Text.drop]. now destruct a.
  - cbn [Text.drop Nat.add]. apply IH.
Qed.

Lemma slice_to_max (data : string) :
  Py.slice_to data (Z.of_nat Protocol.MAX_SEND_SIZE)
  = substring 0 Protocol.MAX_SEND_SIZE data.
Proof. unfold Py.slice_to. now rewrite Nat2Z.id. Qed.

Lemma slice_from_max (data : string) :
  Py.slice_from data (Z.of_nat Protocol.MAX_SEND_SIZE)
  = Text.drop Protocol.MAX_SEND_SIZE data.
Proof. unfold Py.slice_from. rewrite Nat2Z.id. apply substring_from_drop. Qed.

Lemma skipn_skipn_one {A : Type} (n : nat) (l : list A) :
  skipn n (skipn 1 l) = skipn (S n) l.
Proof. destruct l; [now destruct n | reflexivity]. Qed.

Lemma sendall_without_fault (chunk : string) (s : Socket.t) :
  Forall (fun f => f = None) (Socket.send_faults s) ->
  Socket.sendall chunk s
  = inr (Socket.mk (Socket.inbound s) (Socket.sent s ++ [chunk])%list
                   (skipn 1 (Socket.send_faults s))).
Proof.
  unfold Socket.sendall. intros H.
  destruct (Socket.send_faults s) as [|[msg|] rest]; try reflexivity.
  inversion H; subst. discriminate.
Qed.

Lemma send_loop_without_fault (fuel : nat) :
  forall (data : string) (s : Socket.t),
    String.length data <= fuel ->
    Forall (fun f => f = None) (Socket.send_faults s) ->
    exists chunks,
      Connection.send_loop fuel data s
      = Return tt (Socket.mk (Socket.inbound s)
                             (Socket.sent s ++ chunks)%list
                             (skipn (List.length chunks)
                                    (Socket.send_faults s)))
      /\ Text.join chunks = data
      /\ Forall (fun c => 1 <= String.length c <= Protocol.MAX_SEND_SIZE)
                chunks
      /\ forall c, In c (removelast chunks) ->
                   String.length c = Protocol.MAX_SEND_SIZE.
Proof.
  induction fuel as [|fuel IH]; intros data s Hlen Hfaults.
  - destruct data; [|simpl in Hlen; lia]. exists [].
    destruct s. cbn. rewrite app_nil_r. repeat split; [constructor|].
    intros c [].
  - cbn [Connection.send_loop].
    destruct (String.length data =? 0) eqn:E.
    + apply Nat.eqb_eq in E. apply length_zero in E. subst data. exists [].
      destruct s. cbn. rewrite app_nil_r. repeat split; [constructor|].
      intros c [].
    + apply Nat.eqb_neq in E.
      rewrite slice_to_max, slice_from_max, sendall_without_fault
        by assumption.
      set (chunk := substring 0 Protocol.MAX_SEND_SIZE data).
      set (s' := Socket.mk _ _ _).
      assert (Hchunk : String.length chunk
                       = Nat.min Protocol.MAX_SEND_SIZE (String.length data))
        by apply length_take.
      destruct (IH (Text.drop Protocol.MAX_SEND_SIZE data) s')
        as (chunks & Hr & Hj & Hb & Hfull).
      * rewrite length_drop. unfold Protocol.MAX_SEND_SIZE. lia.
      * unfold s'. cbn [Socket.send_faults].
        destruct (Socket.send_faults s) as [|f rest]; [constructor|].
        now inversion Hfaults.
      * exists (chunk :: chunks). split; [|split; [|split]].
        -- rewrite Hr. unfold s'.
           cbn [Socket.inbound Socket.sent Socket.send_faults List.length].
           now rewrite <- app_assoc, skipn_skipn_one.
        -- rewrite join_cons, Hj. apply take_drop.
        -- constructor; [|assumption]. rewrite Hchunk.
           unfold Protocol.MAX_SEND_SIZE. lia.
        -- intros c Hc. destruct chunks as [|c' chunks]; [contradiction|].
           change (removelast (chunk :: c' :: chunks))
             with (chunk :: removelast (c' :: chunks)) in Hc.
           destruct Hc as [<-|Hc]; [|now apply Hfull].
           rewrite Hchunk.
           assert (String.length (Text.drop Protocol.MAX_SEND_SIZE data) <> 0).
           { rewrite <- Hj, join_cons, length_append.
             inversion Hb; subst. lia. }
           rewrite length_drop in H. lia.
Qed.

Lemma send_loop_fault (k : nat) :
  forall (fuel : nat) (data : string) (s : Socket.t) (msg : string)
         (more : list (option string)),
    String.length data <= fuel ->
    Socket.send_faults s = (repeat None k ++ Some msg :: more)%list ->
    k * Protocol.MAX_SEND_SIZE < String.length data ->
    exists chunks,
      Connection.send_loop fuel data s
      = Raises (BlackfireApiException
                  (AgentSendFailed
                     msg (Text.drop (k * Protocol.MAX_SEND_SIZE) data)))
               (Socket.mk (Socket.inbound s) (Socket.sent s ++ chunks)%list
                          (Some msg :: more))
      /\ List.length chunks = k
      /\ Text.join chunks = substring 0 (k * Protocol.MAX_SEND_SIZE) data.
Proof.
  induction k as [|k IH]; intros fuel data s msg more Hlen Hfaults Hk.
  - destruct fuel as [|fuel]; [lia|]. cbn [Connection.send_loop].
    destruct (String.length data =? 0) eqn:E;
      [apply Nat.eqb_eq in E; lia|].
    unfold Socket.sendall. rewrite Hfaults. cbn [repeat app].
    exists []. destruct s. cbn in *. rewrite app_nil_r, Hfaults.
    repeat split. now destruct data.
  - destruct fuel as [|fuel]; [lia|]. cbn [Connection.send_loop].
    destruct (String.length data =? 0) eqn:E;
      [apply Nat.eqb_eq in E; lia|].
    rewrite slice_to_max, slice_from_max.
    unfold Socket.sendall. rewrite Hfaults. cbn [repeat app].
    set (chunk := substring 0 Protocol.MAX_SEND_SIZE data).
    set (s' := Socket.mk _ _ _).
    destruct (IH fuel (Text.drop Protocol.MAX_SEND_SIZE data) s' msg more)
      as (chunks & Hr & Hn & Hj).
    + rewrite length_drop. unfold Protocol.MAX_SEND_SIZE. lia.
    + reflexivity.
    + rewrite length_drop. cbn [Nat.mul] in Hk. lia.
    + exists (chunk :: chunks). split; [|split].
      * rewrite Hr, drop_drop. unfold s'.
        cbn [Socket.inbound Socket.sent Nat.mul].
        now rewrite <- app_assoc.
      * cbn [List.length]. now rewrite Hn.
      * rewrite join_cons, Hj. unfold chunk. cbn [Nat.mul].
        clear. generalize (k * Protocol.MAX_SEND_SIZE).
        generalize Protocol.MAX_SEND_SIZE. intros a b. revert a.
        induction data as [|c data IHd]; intros [|a]; cbn;
          try reflexivity.
        -- now destruct b.
        -- now rewrite IHd.
Qed.

End SendMoreFacts.

(** X4. On a socket that raises nothing, [send] returns after it has
    passed all of [data] to [sendall]: the chunks, in order, make up
    [data], none is empty, none is longer than [MAX_SEND_SIZE] and all but
    the last have that length; nothing is read. *)
Theorem send_transmits_data :
  forall (self : Connection.t) (data : string),
    Forall (fun f => f = None)
           (Socket.send_faults (Connection._socket self)) ->
    exists chunks,
      Connection.send data self
      = Return tt
          (Connection.with_socket self
             (Socket.mk (Socket.inbound (Connection._socket self))
                        (Socket.sent (Connection._socket self) ++ chunks)%list
                        (skipn (List.length chunks)
                               (Socket.send_faults
                                  (Connection._socket self)))))
      /\ Text.join chunks = data
      /\ Forall (fun c => 1 <= String.length c <= Protocol.MAX_SEND_SIZE)
                chunks
      /\ forall c, In c (removelast chunks) ->
                   String.length c = Protocol.MAX_SEND_SIZE.
Proof.
  intros self data Hfaults. unfold Connection.send.
  destruct (send_loop_without_fault (String.length data) data
              (Connection._socket self) (Nat.le_refl _) Hfaults)
    as (chunks & Hr & Hrest).
  exists chunks. now rewrite Hr.
Qed.

Lemma send_transmits_data_witness :
  exists chunks,
    Connection.send ("Blackfire-Query: q" ++ LF ++ LF)
      (Connection.mk (Socket.mk [] [] [None; None]) false None)
    = Return tt
        (Connection.mk (Socket.mk [] chunks (skipn (List.length chunks)
                                                   [None; None]))
                       false None)
    /\ Text.join chunks = "Blackfire-Query: q" ++ LF ++ LF.
Proof.
  destruct (send_transmits_data
              (Connection.mk (Socket.mk [] [] [None; None]) false None)
              ("Blackfire-Query: q" ++ LF ++ LF))
    as (chunks & Hr & Hj & _).
  - repeat constructor.
  - exists chunks. split; [exact Hr | exact Hj].
Defined.

(** X5. When the socket raises at the call of [sendall] that follows [k]
    good ones, and [data] has more than [k] chunks, [send] raises
    [BlackfireApiException] with the text of the error and the part of
    [data] that had not been sent; the [k] chunks sent before it are the
    first [k * MAX_SEND_SIZE] bytes of [data]. *)
Theorem send_failure_reports_unsent_data :
  forall (self : Connection.t) (data msg : string) (k : nat)
         (more : list (option string)),
    Socket.send_faults (Connection._socket self)
    = (repeat None k ++ Some msg :: more)%list ->
    k * Protocol.MAX_SEND_SIZE < String.length data ->
    exists chunks,
      Connection.send data self
      = Raises (BlackfireApiException
                  (AgentSendFailed
                     msg (Text.drop (k * Protocol.MAX_SEND_SIZE) data)))
               (Connection.with_socket self
                  (Socket.mk (Socket.inbound (Connection._socket self))
                             (Socket.sent (Connection._socket self)
                              ++ chunks)%list
                             (Some msg :: more)))
      /\ List.length chunks = k
      /\ Text.join chunks = substring 0 (k * Protocol.MAX_SEND_SIZE) data.
Proof.
  intros self data msg k more Hfaults Hk. unfold Connection.send.
  destruct (send_loop_fault k (String.length data) data
              (Connection._socket self) msg more (Nat.le_refl _) Hfaults Hk)
    as (chunks & Hr & Hrest).
  exists chunks. now rewrite Hr.
Qed.

Lemma send_failure_reports_unsent_data_witness :
  Connection.send "payload"
    (Connection.mk (Socket.mk [] [] [Some "Broken pipe"]) false None)
  = Raises (BlackfireApiException (AgentSendFailed "Broken pipe" "payload"))
           (Connection.mk (Socket.mk [] [] [Some "Broken pipe"]) false None).
Proof.
  destruct (send_failure_reports_unsent_data
              (Connection.mk (Socket.mk [] [] [Some "Broken pipe"]) false None)
              "payload" "Broken pipe" 0 [] eq_refl)
    as (chunks & Hr & Hn & _).
  - cbn. lia.
  - destruct chunks; [|discriminate]. exact Hr.
Defined.

(* ================================================================== *)
(** * More on the handshake *)
(* ================================================================== *)

Section HandshakeMoreFacts.

Variable parse_qsl : string -> list (string * string).

(** The first round of [_write_prolog], up to the test of the status. *)
Lemma write_prolog_first_round (config : Config) (env : Env)
    (self s1 : Connection.t) (hello : BlackfireRequest.t)
    (payload : option string) (first : BlackfireResponse.t) :
  Connection.hello_request config env = Ok (hello, payload) ->
  HandshakeSpec.exchange parse_qsl hello self = Return first s1 ->
  Connection._write_prolog parse_qsl config env self
  = match BlackfireResponse.status_code first with
    | ERR =>
        Raises (BlackfireApiException
                  (InvalidResponse ERR (BlackfireResponse.args first)
                                   (BlackfireResponse.status_val first)))
               (HandshakeSpec.with_agent_response s1 first)
    | OK =>
        if Connection.asks_blackfire_yml first
        then Connection.blackfire_yml_round
               parse_qsl first payload
               (HandshakeSpec.with_agent_response s1 first)
        else Return tt (HandshakeSpec.with_agent_response s1 first)
    end.
Proof.
  intros Hhello Hfirst.
  destruct (exchange_returns _ _ _ _ _ Hfirst) as (c1 & raw1 & Hs & Hr & Hp).
  unfold Connection._write_prolog, Connection.bindM.
  rewrite Hhello. cbn [Connection.lift Connection.ret fst snd].
  rewrite Hs, Hr, Hp.
  cbn [Connection.lift Connection.ret Connection.set_agent_response].
  destruct (BlackfireResponse.status_code first) eqn:Hcode.
  - destruct (Connection.asks_blackfire_yml first); reflexivity.
  - reflexivity.
Qed.

(** Sending and receiving leave [agent_response] as it is. *)
Lemma exchange_keeps_agent_response (request : BlackfireRequest.t)
    (self self' : Connection.t) (r : BlackfireResponse.t) :
  HandshakeSpec.exchange parse_qsl request self = Return r self' ->
  Connection.agent_response self' = Connection.agent_response self.
Proof.
  unfold HandshakeSpec.exchange, Connection.bindM, Connection.send,
    Connection.recv.
  destruct (Connection.send_loop _ _ _) as [[] s|e s|]; [|discriminate ..].
  destruct (Connection.recv_loop _ _) as [raw rest|e rest|];
    [|discriminate ..].
  destruct (BlackfireResponse.from_bytes _ _ raw) as [r'|e]; [|discriminate].
  cbn [Connection.lift Connection.ret]. now intros [= _ <-].
Qed.

(** The payload of the second round is [None] when the [flag_yml] argument
    is zero and when there is no blackfire.yml file. *)
Lemma hello_request_payload (config : Config) (env : Env)
    (hello : BlackfireRequest.t) (payload : option string) :
  Connection.hello_request config env = Ok (hello, payload) ->
  exists blackfire_yml,
    Connection.flag config "flag_yml" "1" = Ok blackfire_yml
    /\ payload = if blackfire_yml : bool
                 then read_blackfireyml_content env else None.
Proof.
  unfold Connection.hello_request.
  destruct (Connection.flag config "flag_yml" "1") as [yml|e];
    [|discriminate].
  cbn [bind].
  destruct (Connection.flag config "flag_timespan" "0") as [ts|e];
    [|discriminate].
  cbn [bind].
  destruct (Connection.flag config "no_pruning" "0") as [np|e];
    [|discriminate].
  cbn [bind].
  destruct (Connection.flag config "no_anon" "0") as [na|e];
    [|discriminate].
  cbn [bind]. intros [= _ <-]. now exists yml.
Qed.

Lemma hello_bytes_without_auth (q probe : string) :
  BlackfireRequest.to_bytes
    (BlackfireRequest.init
       [("Blackfire-Query", PStr q); ("Blackfire-Probe", PStr probe)] None)
  = "Blackfire-Query: " ++ q ++ LF ++ "Blackfire-Probe: " ++ probe ++ LF
    ++ "" ++ LF.
Proof.
  cbv -[append]. repeat (progress (rewrite ?append_assoc; cbn [append])).
  reflexivity.
Qed.

Lemma hello_bytes_with_auth (q probe id token : string) :
  BlackfireRequest.to_bytes
    (BlackfireRequest.init
       (Dict.set [("Blackfire-Query", PStr q); ("Blackfire-Probe", PStr probe)]
                 "Blackfire-Auth" (PStr (id ++ ":" ++ token)))
       None)
  = "Blackfire-Query: " ++ q ++ LF ++ "Blackfire-Probe: " ++ probe ++ LF
    ++ ("blackfire-auth: " ++ id ++ ":" ++ token ++ LF) ++ LF.
Proof.
  cbv -[append]. repeat (progress (rewrite ?append_assoc; cbn [append])).
  reflexivity.
Qed.

End HandshakeMoreFacts.

(** X6. When the first response has status OK and its status values do not
    hold [blackfire_yml=true], the handshake is over after one round: it
    returns and [self.agent_response] is the first response as it was
    read. *)
Theorem handshake_single_round :
  forall (parse_qsl : string -> list (string * string))
         (config : Config) (env : Env) (self s1 : Connection.t)
         (hello : BlackfireRequest.t) (payload : option string)
         (first : BlackfireResponse.t),
    Connection.hello_request config env = Ok (hello, payload) ->
    HandshakeSpec.exchange parse_qsl hello self = Return first s1 ->
    BlackfireResponse.status_code first = OK ->
    Connection.asks_blackfire_yml first = false ->
    Connection._write_prolog parse_qsl config env self
    = Return tt (HandshakeSpec.with_agent_response s1 first)
    /\ Connection._socket (HandshakeSpec.with_agent_response s1 first)
       = Connection._socket s1.
Proof.
  intros parse_qsl config env self s1 hello payload first Hh Hf Hc Ha.
  rewrite (write_prolog_first_round parse_qsl _ _ _ _ _ _ _ Hh Hf), Hc, Ha.
  split; reflexivity.
Qed.

Lemma handshake_single_round_witness :
  let self :=
    Connection.mk
      (Socket.mk [Socket.Data ("Blackfire-Response: x=1" ++ LF
                               ++ "Blackfire-Const: A" ++ LF ++ LF)] [] [])
      false None in
  exists self' r,
    Connection._write_prolog Utils.parse_qsl
      (mk_config [] "challenge" "sig" "a=1" false)
      (mk_env 50988528 None None None) self
    = Return tt self'
    /\ Connection.agent_response self' = Some r
    /\ BlackfireResponse.args r = [("Blackfire-Const", ["A"])].
Proof.
  intros self.
  edestruct (handshake_single_round Utils.parse_qsl
               (mk_config [] "challenge" "sig" "a=1" false)
               (mk_env 50988528 None None None) self) as [Hret _].
  - vm_compute. reflexivity.
  - vm_compute. reflexivity.
  - reflexivity.
  - reflexivity.
  - eexists. eexists. split; [exact Hret|]. split; reflexivity.
Defined.

(** X7. A response with status ERR makes the handshake raise
    [BlackfireApiException] with that response. In the first round, the
    response is in [self.agent_response] when the exception is raised. In
    the second round, nothing is merged: [self.agent_response] is still the
    first response. *)
Theorem handshake_rejects_error_status :
  forall (parse_qsl : string -> list (string * string))
         (config : Config) (env : Env) (self s1 : Connection.t)
         (hello : BlackfireRequest.t) (payload : option string)
         (first : BlackfireResponse.t),
    Connection.hello_request config env = Ok (hello, payload) ->
    HandshakeSpec.exchange parse_qsl hello self = Return first s1 ->
    (BlackfireResponse.status_code first = ERR ->
     Connection._write_prolog parse_qsl config env self
     = Raises (BlackfireApiException
                 (InvalidResponse ERR (BlackfireResponse.args first)
                                  (BlackfireResponse.status_val first)))
              (HandshakeSpec.with_agent_response s1 first))
    /\ (forall (content : string) (second : BlackfireResponse.t)
               (s2 : Connection.t),
          BlackfireResponse.status_code first = OK ->
          Connection.asks_blackfire_yml first = true ->
          payload = Some content ->
          HandshakeSpec.exchange parse_qsl
            (HandshakeSpec.blackfire_yml_request content)
            (HandshakeSpec.with_agent_response s1 first)
          = Return second s2 ->
          BlackfireResponse.status_code second = ERR ->
          Connection._write_prolog parse_qsl config env self
          = Raises (BlackfireApiException
                      (InvalidYmlResponse
                         ERR (BlackfireResponse.args second)
                         (BlackfireResponse.status_val second)))
                   s2
          /\ Connection.agent_response s2 = Some first).
Proof.
  intros parse_qsl config env self s1 hello payload first Hh Hf.
  rewrite (write_prolog_first_round parse_qsl _ _ _ _ _ _ _ Hh Hf).
  split.
  - now intros ->.
  - intros content second s2 Hc Ha -> Hs Hc2. rewrite Hc, Ha. split.
    + destruct (exchange_returns _ _ _ _ _ Hs) as (c & raw & Hsend & Hr & Hp).
      unfold Connection.blackfire_yml_round, Connection.bindM.
      cbn [Connection.lift Connection.ret].
      unfold HandshakeSpec.blackfire_yml_request in Hsend.
      rewrite Hsend, Hr, Hp. cbn [Connection.lift Connection.ret].
      rewrite Hc2. reflexivity.
    + now rewrite (exchange_keeps_agent_response _ _ _ _ _ Hs).
Qed.

Lemma handshake_rejects_error_status_witness :
  let self :=
    Connection.mk
      (Socket.mk [Socket.Data ("Blackfire-Error: 101 bad" ++ LF ++ LF)] [] [])
      false None in
  exists self',
    Connection._write_prolog Utils.parse_qsl
      (mk_config [] "challenge" "sig" "a=1" false)
      (mk_env 50988528 None None None) self
    = Raises (BlackfireApiException (InvalidResponse ERR [] (Some "101 bad")))
             self'.
Proof.
  intros self.
  edestruct (handshake_rejects_error_status Utils.parse_qsl
               (mk_config [] "challenge" "sig" "a=1" false)
               (mk_env 50988528 None None None) self) as [Hret _].
  - vm_compute. reflexivity.
  - vm_compute. reflexivity.
  - eexists. apply Hret. reflexivity.
Defined.

(** X8. When the first response asks for the payload and there is none,
    because the [flag_yml] argument is zero or because no blackfire.yml
    file was found, the handshake raises [TypeError], from [len(None)]; the
    first response is in [self.agent_response] and nothing more has been
    sent. *)
Theorem handshake_payload_missing :
  forall (parse_qsl : string -> list (string * string))
         (config : Config) (env : Env) (self s1 : Connection.t)
         (hello : BlackfireRequest.t) (payload : option string)
         (first : BlackfireResponse.t),
    Connection.hello_request config env = Ok (hello, payload) ->
    Connection.flag config "flag_yml" "1" = Ok false
    \/ read_blackfireyml_content env = None ->
    HandshakeSpec.exchange parse_qsl hello self = Return first s1 ->
    BlackfireResponse.status_code first = OK ->
    Connection.asks_blackfire_yml first = true ->
    Connection._write_prolog parse_qsl config env self
    = Raises TypeError (HandshakeSpec.with_agent_response s1 first)
    /\ Connection._socket (HandshakeSpec.with_agent_response s1 first)
       = Connection._socket s1.
Proof.
  intros parse_qsl config env self s1 hello payload first Hh Hnone Hf Hc Ha.
  rewrite (write_prolog_first_round parse_qsl _ _ _ _ _ _ _ Hh Hf), Hc, Ha.
  assert (Hp : payload = None).
  { destruct (hello_request_payload _ _ _ _ Hh) as (yml & Hy & ->).
    destruct Hnone as [Hz|Hz]; [|now destruct yml].
    rewrite Hy in Hz. now injection Hz as ->. }
  subst payload. split; reflexivity.
Qed.

Lemma handshake_payload_missing_witness :
  let self :=
    Connection.mk
      (Socket.mk [Socket.Data ("Blackfire-Response: blackfire_yml=true" ++ LF)]
                 [] [])
      false None in
  exists self',
    Connection._write_prolog Utils.parse_qsl
      (mk_config [("flag_yml", "0")] "challenge" "sig" "a=1" false)
      (mk_env 50988528 (Some "metrics: {}") None None) self
    = Raises TypeError self'.
Proof.
  intros self.
  edestruct (handshake_payload_missing Utils.parse_qsl
               (mk_config [("flag_yml", "0")] "challenge" "sig" "a=1" false)
               (mk_env 50988528 (Some "metrics: {}") None None) self)
    as [Hret _].
  - vm_compute. reflexivity.
  - left. reflexivity.
  - vm_compute. reflexivity.
  - reflexivity.
  - reflexivity.
  - eexists. exact Hret.
Defined.

(** X9. The hello request on the wire. When the four flags of the
    configuration read as numbers, the request is made and its bytes are
    the [Blackfire-Query] line, the [Blackfire-Probe] line with its tokens
    in their fixed order, the [blackfire-auth] line, whose name is sent in
    lower case, when the environment has an id and a token, and the blank
    line; the payload kept for the second round is the file when
    [flag_yml] is on. *)
Theorem hello_request_bytes :
  forall (config : Config) (env : Env)
         (blackfire_yml recv_timespan no_pruning no_anon : bool),
    Connection.flag config "flag_yml" "1" = Ok blackfire_yml ->
    Connection.flag config "flag_timespan" "0" = Ok recv_timespan ->
    Connection.flag config "no_pruning" "0" = Ok no_pruning ->
    Connection.flag config "no_anon" "0" = Ok no_anon ->
    let content :=
      if blackfire_yml then read_blackfireyml_content env else None in
    exists hello,
      Connection.hello_request config env = Ok (hello, content)
      /\ BlackfireRequest.to_bytes hello
         = "Blackfire-Query: " ++ challenge_raw config ++ "&signature="
           ++ signature config ++ "&" ++ args_raw config ++ LF
           ++ "Blackfire-Probe: "
           ++ HelloSpec.probe_header
                (hexversion env) recv_timespan (Connection.truthy content)
                (is_blackfireyml_asked config) no_pruning no_anon
           ++ LF
           ++ HelloSpec.auth_line env
           ++ LF.
Proof.
  intros config env yml ts np na Hy Ht Hp Ha content.
  unfold Connection.hello_request. rewrite Hy, Ht, Hp, Ha. cbn [bind].
  fold content. eexists. split; [reflexivity|].
  set (q := challenge_raw config ++ _).
  assert (Hprobe :
    (let h := "python-" ++ Py.str_of_int (hexversion env) ++ ", config" in
     let h := if ts then h ++ ", timespan" else h in
     let h := if Connection.truthy content then h ++ ", blackfire_yml"
              else h in
     let h := if is_blackfireyml_asked config then h ++ ", noop" else h in
     let h := if np then h ++ ", no_pruning" else h in
     if na then h ++ ", no_anon" else h)
    = HelloSpec.probe_header (hexversion env) ts (Connection.truthy content)
        (is_blackfireyml_asked config) np na).
  { unfold HelloSpec.probe_header. cbv zeta.
    destruct ts, (Connection.truthy content), (is_blackfireyml_asked config),
      np, na; rewrite ?append_assoc, ?append_nil_r; reflexivity. }
  cbv zeta in Hprobe. rewrite Hprobe.
  set (probe := HelloSpec.probe_header _ _ _ _ _ _).
  unfold HelloSpec.auth_line, Connection.truthy.
  destruct (BLACKFIRE_SERVER_ID env) as [id|],
    (BLACKFIRE_SERVER_TOKEN env) as [token|];
    [ destruct ((0 <? String.length id) && (0 <? String.length token));
      [rewrite hello_bytes_with_auth | rewrite hello_bytes_without_auth]
    | rewrite hello_bytes_without_auth ..];
    unfold q, Protocol.HEADER_MARKER;
    repeat (progress (rewrite ?append_assoc; cbn [append])); reflexivity.
Qed.

Lemma hello_request_bytes_witness :
  exists hello,
    Connection.hello_request
      (mk_config [("flag_timespan", "1")] "challenge" "sig" "a=1" true)
      (mk_env 50988528 (Some "metrics: {}") (Some "id") (Some "token"))
    = Ok (hello, Some "metrics: {}")
    /\ BlackfireRequest.to_bytes hello
       = "Blackfire-Query: challenge&signature=sig&a=1" ++ LF
         ++ "Blackfire-Probe: python-50988528, config, timespan, "
         ++ "blackfire_yml, noop" ++ LF
         ++ "blackfire-auth: id:token" ++ LF ++ LF.
Proof.
  destruct (hello_request_bytes
              (mk_config [("flag_timespan", "1")] "challenge" "sig" "a=1" true)
              (mk_env 50988528 (Some "metrics: {}") (Some "id") (Some "token"))
              true true false false eq_refl eq_refl eq_refl eq_refl)
    as (hello & Hh & Hb).
  exists hello. split; [exact Hh | exact Hb].
Defined.

(* ================================================================== *)
(** * More on the accessors *)
(* ================================================================== *)

Section AccessorMoreFacts.

Lemma existsb_eqb_in (x : string) (s : list string) :
  existsb (String.eqb x) s = true <-> In x s.
Proof.
  rewrite existsb_exists. split.
  - intros (y & Hy & E). apply String.eqb_eq in E. now subst.
  - intros H. exists x. split; [assumption | apply String.eqb_refl].
Qed.

Lemma set_add_in (x y : string) (s : list string) :
  In x (BlackfireResponseBase.set_add y s) <-> x = y \/ In x s.
Proof.
  unfold BlackfireResponseBase.set_add.
  destruct (existsb (String.eqb y) s) eqn:E.
  - apply existsb_eqb_in in E. split; [now right|].
    intros [->|H]; assumption.
  - rewrite in_app_iff. simpl. intuition congruence.
Qed.

Lemma set_add_nodup (y : string) (s : list string) :
  NoDup s -> NoDup (BlackfireResponseBase.set_add y s).
Proof.
  intros H. unfold BlackfireResponseBase.set_add.
  destruct (existsb (String.eqb y) s) eqn:E; [assumption|].
  apply NoDup_app; [assumption | repeat constructor; intros [] |].
  intros x Hx [<-|[]]. apply existsb_eqb_in in Hx. congruence.
Qed.

Lemma timespan_loop_spec (values : list string) :
  Forall (fun v => v <> "") values ->
  forall (res : selectors) (log : list warning),
  exists res',
    BlackfireResponseBase.timespan_loop res log values
    = Ok (res',
          (log ++ map InvalidTimespanSelector
                      (filter TimespanSpec.invalid values))%list)
    /\ (forall x, In x (sel_prefix res')
                  <-> In x (sel_prefix res) \/ In (String "^" x) values)
    /\ (forall x, In x (sel_exact res')
                  <-> In x (sel_exact res) \/ In (String "=" x) values)
    /\ (NoDup (sel_prefix res) -> NoDup (sel_prefix res'))
    /\ (NoDup (sel_exact res) -> NoDup (sel_exact res')).
Proof.
  induction 1 as [|v values Hv _ IH]; intros res log.
  - exists res. cbn. rewrite app_nil_r. intuition.
  - destruct v as [|c tail]; [congruence|].
    cbn [BlackfireResponseBase.timespan_loop filter TimespanSpec.invalid].
    destruct (Ascii.eqb c "^") eqn:Ec; [|destruct (Ascii.eqb c "=") eqn:Ee].
    + apply Ascii.eqb_eq in Ec. subst c. cbn [negb andb].
      destruct (IH (mk_selectors
                      (BlackfireResponseBase.set_add tail (sel_prefix res))
                      (sel_exact res)) log)
        as (res' & Hr & Hp & He & Hnp & Hne).
      exists res'. split; [exact Hr|]. cbn [sel_prefix sel_exact] in *.
      split; [|split; [|split]].
      * intros x. rewrite Hp, set_add_in. cbn [In].
        intuition (subst; auto; try congruence).
      * intros x. rewrite He. cbn [In]. intuition discriminate.
      * intros Hn. now apply Hnp, set_add_nodup.
      * exact Hne.
    + apply Ascii.eqb_eq in Ee. subst c. cbn [negb andb].
      destruct (IH (mk_selectors
                      (sel_prefix res)
                      (BlackfireResponseBase.set_add tail (sel_exact res)))
                   log)
        as (res' & Hr & Hp & He & Hnp & Hne).
      exists res'. split; [exact Hr|]. cbn [sel_prefix sel_exact] in *.
      split; [|split; [|split]].
      * intros x. rewrite Hp. cbn [In]. intuition discriminate.
      * intros x. rewrite He, set_add_in. cbn [In].
        intuition (subst; auto; try congruence).
      * exact Hnp.
      * intros Hn. now apply Hne, set_add_nodup.
    + cbn [negb andb map].
      destruct (IH res (log ++ [InvalidTimespanSelector (String c tail)])%list)
        as (res' & Hr & Hp & He & Hnp & Hne).
      exists res'. split; [now rewrite Hr, <- app_assoc|].
      apply Ascii.eqb_neq in Ec, Ee.
      split; [|split; [|split]]; try assumption.
      * intros x. rewrite Hp. cbn [In]. intuition congruence.
      * intros x. rewrite He. cbn [In]. intuition congruence.
Qed.

Lemma timespan_loop_empty_selector (values : list string) :
  In "" values ->
  forall res log,
    BlackfireResponseBase.timespan_loop res log values = Raise IndexError.
Proof.
  induction values as [|v values IH]; [contradiction|].
  intros Hin res log. destruct v as [|c tail]; [reflexivity|].
  destruct Hin as [Hin|Hin]; [discriminate|].
  cbn [BlackfireResponseBase.timespan_loop].
  destruct (Ascii.eqb c "^"); [now apply IH|].
  destruct (Ascii.eqb c "="); now apply IH.
Qed.

Lemma dict_set_length_new {V : Type} (d : dict V) (k : string) (v : V) :
  Dict.mem d k = false -> List.length (Dict.set d k v) = S (List.length d).
Proof.
  unfold Dict.mem. induction d as [|[k' v'] d IH]; simpl; [reflexivity|].
  destruct (String.eqb k' k); [discriminate|]. intros H. simpl.
  now rewrite (IH H).
Qed.

Lemma instrumented_loop_counts (ds : list (string * string)) :
  Forall (fun d => Text.lacks " " (snd d) = true) ds ->
  forall (res funcs : dict (list arg_id)) (log log' : list warning),
    BlackfireResponseBase.instrumented_loop res log
      (map FnArgsSpec.directive ds) = Ok (funcs, log') ->
    (NoDup (Dict.keys res) -> NoDup (Dict.keys funcs))
    /\ (List.length funcs + List.length log'
        = List.length res + List.length log + List.length ds)%nat.
Proof.
  induction 1 as [|d ds Hd _ IH]; intros res funcs log log'.
  - cbn. intros [= <- <-]. split; [auto | lia].
  - cbn [map BlackfireResponseBase.instrumented_loop].
    unfold FnArgsSpec.directive at 1. rewrite (rsplit_last_space _ _ Hd).
    cbn [unpack2 bind fst snd].
    destruct (Dict.mem res (Py.strip (fst d))) eqn:Hmem.
    + intros H. destruct (IH _ _ _ _ H) as [Hn Hl]. split; [exact Hn|].
      rewrite Hl, length_app. cbn [List.length]. lia.
    + destruct (BlackfireResponseBase.parse_arg_ids _) as [ids|e'];
        cbn [bind]; [|discriminate].
      intros H. destruct (IH _ _ _ _ H) as [Hn Hl]. split.
      * intros Hres. now apply Hn, dict_set_nodup.
      * rewrite Hl, dict_set_length_new by assumption.
        cbn [List.length]. lia.
Qed.

End AccessorMoreFacts.

(** X10. [get_timespan_selectors] on values none of which is empty
    returns: the set under ['^'] holds the rest of each value that starts
    with ['^'], the set under ['='] the rest of each value that starts with
    ['='], nothing else and nothing twice; a warning is logged, in order,
    for each value that starts with another character. With an empty value
    among them the call raises [IndexError]. *)
Theorem timespan_selectors_by_sigil :
  forall (TIMESPAN_KEY : string) (args : dict (list string)),
    let values := Dict.get_default args TIMESPAN_KEY [] in
    (Forall (fun v => v <> "") values ->
     exists sel,
       BlackfireResponseBase.get_timespan_selectors TIMESPAN_KEY args
       = Ok (sel, map InvalidTimespanSelector
                      (filter TimespanSpec.invalid values))
       /\ (forall x, In x (sel_prefix sel) <-> In (String "^" x) values)
       /\ (forall x, In x (sel_exact sel) <-> In (String "=" x) values)
       /\ NoDup (sel_prefix sel) /\ NoDup (sel_exact sel))
    /\ (In "" values ->
        BlackfireResponseBase.get_timespan_selectors TIMESPAN_KEY args
        = Raise IndexError).
Proof.
  intros KEY args values. split.
  - intros Hne.
    destruct (timespan_loop_spec values Hne (mk_selectors [] []) [])
      as (sel & Hr & Hp & He & Hnp & Hne').
    exists sel. cbn [sel_prefix sel_exact app] in *.
    split; [exact Hr|]. split; [|split; [|split]].
    + intros x. rewrite Hp. cbn [In]. tauto.
    + intros x. rewrite He. cbn [In]. tauto.
    + apply Hnp. constructor.
    + apply Hne'. constructor.
  - intros Hin. now apply timespan_loop_empty_selector.
Qed.

Lemma timespan_selectors_by_sigil_witness :
  BlackfireResponseBase.get_timespan_selectors "timespan"
    [("timespan", ["^PDO::"; "=mysql_connect"; "bogus"; "^PDO::"])]
  = Ok (mk_selectors ["PDO::"] ["mysql_connect"],
        [InvalidTimespanSelector "bogus"])
  /\ BlackfireResponseBase.get_timespan_selectors "timespan"
       [("timespan", ["^PDO::"; ""])]
     = Raise IndexError.
Proof.
  split.
  - destruct (proj1 (timespan_selectors_by_sigil "timespan"
                       [("timespan",
                         ["^PDO::"; "=mysql_connect"; "bogus"; "^PDO::"])]))
      as (sel & Hr & _).
    + repeat constructor; discriminate.
    + rewrite Hr. vm_compute in Hr. injection Hr as <-. reflexivity.
  - apply (proj2 (timespan_selectors_by_sigil "timespan"
                    [("timespan", ["^PDO::"; ""])])).
    right. left. reflexivity.
Defined.

(** X11. [get_instrumented_funcs] loses no directive without a word: when
    every value stored under the fn-args key has a space, and is ASCII text
    of at most 4300 characters, the call returns, the mapping it returns
    has no function twice, and its entries and the warnings together are
    as many as the values. *)
Theorem instrumented_funcs_accounts_for_directives :
  forall (FN_ARGS_KEY : string) (args : dict (list string))
         (values : list string),
    Dict.get args FN_ARGS_KEY = Some values ->
    Forall (fun v => Py.contains " " v = true) values ->
    Forall (fun v => FnArgsSpec.plain v = true) values ->
    exists funcs log,
      BlackfireResponseBase.get_instrumented_funcs FN_ARGS_KEY args
      = Ok (funcs, log)
      /\ NoDup (Dict.keys funcs)
      /\ (List.length funcs + List.length log = List.length values)%nat.
Proof.
  intros KEY args values Hget Hvalues Hplain.
  assert (Hds : exists ds,
             values = map FnArgsSpec.directive ds
             /\ Forall (fun d => Text.lacks " " (snd d) = true) ds).
  { clear Hget Hplain.
    induction Hvalues as [|v values Hv _ (ds & -> & Hds)].
    - exists []. split; [reflexivity | constructor].
    - destruct (last_space_decomposition v Hv) as (d & -> & Hd).
      exists (d :: ds). split; [reflexivity | now constructor]. }
  destruct Hds as (ds & -> & Hds).
  apply Forall_map in Hplain.
  unfold BlackfireResponseBase.get_instrumented_funcs, Dict.get_default.
  rewrite Hget.
  destruct (instrumented_loop_spec ds (plain_directives ds Hds Hplain) [] [])
    as (funcs & Hloop & _).
  exists funcs, (FnArgsSpec.repeated [] ds). cbn [app Dict.keys map] in Hloop.
  split; [exact Hloop|].
  destruct (instrumented_loop_counts ds Hds _ _ _ _ Hloop) as [Hn Hl].
  split; [apply Hn; constructor|].
  rewrite Hl, length_map. reflexivity.
Qed.

Lemma instrumented_funcs_accounts_for_directives_witness :
  exists funcs log,
    BlackfireResponseBase.get_instrumented_funcs "fn-args"
      [("fn-args", ["foo 0,1"; "bar baz 2"; "foo 2"])]
    = Ok (funcs, log)
    /\ (List.length funcs + List.length log = 3)%nat.
Proof.
  destruct (instrumented_funcs_accounts_for_directives "fn-args"
              [("fn-args", ["foo 0,1"; "bar baz 2"; "foo 2"])]
              ["foo 0,1"; "bar baz 2"; "foo 2"] eq_refl)
    as (funcs & log & Hr & _ & Hl).
  - repeat constructor.
  - repeat constructor.
  - exists funcs, log. split; [exact Hr | exact Hl].
Defined.

(* ================================================================== *)
(** * More on the requests *)
(* ================================================================== *)

Section RequestInitFacts.

Lemma lower_char_idempotent (c : ascii) :
  Py.lower_char (Py.lower_char c) = Py.lower_char c.
Proof.
  unfold Py.lower_char.
  destruct ((65 <=? nat_of_ascii c) && (nat_of_ascii c <=? 90)) eqn:E.
  - apply andb_true_iff in E as [H1 H2]. apply Nat.leb_le in H1, H2.
    rewrite nat_ascii_embedding by lia.
    assert (H : (nat_of_ascii c + 32 <=? 90) = false)
      by (apply Nat.leb_gt; lia).
    now rewrite H, andb_false_r.
  - now rewrite E.
Qed.

Lemma lower_idempotent (s : string) : Py.lower (Py.lower s) = Py.lower s.
Proof.
  induction s as [|c s IH]; simpl; [reflexivity|].
  now rewrite lower_char_idempotent, IH.
Qed.

Lemma find_app {A : Type} (f : A -> bool) (l1 l2 : list A) :
  List.find f (l1 ++ l2)
  = match List.find f l1 with
    | Some x => Some x
    | None => List.find f l2
    end.
Proof.
  induction l1 as [|x l1 IH]; simpl; [reflexivity|].
  now destruct (f x).
Qed.

(** Storing pairs one after the other: a lookup finds the last pair stored
    under the key, else what was there before. *)
Lemma dict_get_fold_set {V : Type} (pairs : list (string * V)) :
  forall (d : dict V) (k : string),
    Dict.get (fold_left (fun acc kv => Dict.set acc (fst kv) (snd kv))
                        pairs d) k
    = match RequestSpec.last_for k pairs with
      | Some kv => Some (snd kv)
      | None => Dict.get d k
      end.
Proof.
  unfold RequestSpec.last_for.
  induction pairs as [|[k0 v0] pairs IH]; intros d k; [reflexivity|].
  cbn [fold_left fst snd List.rev]. rewrite IH, find_app.
  destruct (List.find _ (List.rev pairs)); [reflexivity|].
  cbn [List.find fst snd]. destruct (String.eqb k0 k) eqn:E.
  - apply String.eqb_eq in E. subst. apply dict_get_set_same.
  - apply String.eqb_neq in E. now apply dict_get_set_other.
Qed.

Lemma dict_keys_fold_set {V : Type} (pairs : list (string * V)) :
  forall (d : dict V),
    (NoDup (Dict.keys d) ->
     NoDup (Dict.keys (fold_left
                         (fun acc kv => Dict.set acc (fst kv) (snd kv))
                         pairs d)))
    /\ forall k,
         In k (Dict.keys (fold_left
                            (fun acc kv => Dict.set acc (fst kv) (snd kv))
                            pairs d)) ->
         In k (Dict.keys d) \/ In k (map fst pairs).
Proof.
  induction pairs as [|[k0 v0] pairs IH]; intros d.
  - split; [auto | now left].
  - cbn [fold_left fst snd map]. destruct (IH (Dict.set d k0 v0)) as [Hn Hk].
    split.
    + intros H. now apply Hn, dict_set_nodup.
    + intros k Hin. destruct (Hk k Hin) as [H|H]; [|right; now right].
      rewrite dict_keys_set in H. destruct (Dict.mem d k0); [now left|].
      apply in_app_iff in H as [H|[<-|[]]]; [now left | right; now left].
Qed.

Lemma init_as_fold (hdrs : dict pyval) (d : option string) :
  BlackfireRequest.init hdrs d
  = BlackfireRequest.mk
      (fold_left (fun acc kv => Dict.set acc (fst kv) (snd kv))
                 (map (fun kv => (RequestSpec.stored_name (fst kv), snd kv))
                      hdrs)
                 [])
      d.
Proof.
  unfold BlackfireRequest.init. f_equal.
  generalize (@nil (string * pyval)).
  induction hdrs as [|[k v] hdrs IH]; intros acc; [reflexivity|].
  cbn [fold_left map fst snd]. rewrite <- IH. f_equal.
  unfold RequestSpec.stored_name.
  now destruct (BlackfireRequest.mem_list k _).
Qed.

End RequestInitFacts.

(** X12. The headers of a new request, for header names that are ASCII
    text. [__init__] stores a header under its name in lower case, but
    [Blackfire-Query] and [Blackfire-Probe] under their own name; so no name
    is stored twice, every stored name is one of these two or is in lower
    case, and a lookup finds the value of the last header given whose
    stored name is the one looked up. The body is kept as given. *)
Theorem request_init_headers :
  forall (hdrs : dict pyval) (d : option string),
    Forall (fun kv => Py.isascii (fst kv) = true) hdrs ->
    let self := BlackfireRequest.init hdrs d in
    NoDup (Dict.keys (BlackfireRequest.headers self))
    /\ (forall k,
          In k (Dict.keys (BlackfireRequest.headers self)) ->
          k = "Blackfire-Query" \/ k = "Blackfire-Probe" \/ Py.lower k = k)
    /\ (forall k,
          Dict.get (BlackfireRequest.headers self) k
          = option_map snd
              (List.find
                 (fun kv => String.eqb (RequestSpec.stored_name (fst kv)) k)
                 (List.rev hdrs)))
    /\ BlackfireRequest.data self = d.
Proof.
  intros hdrs d _ self. unfold self. rewrite init_as_fold.
  cbn [BlackfireRequest.headers BlackfireRequest.data].
  set (pairs := map _ hdrs).
  destruct (dict_keys_fold_set pairs []) as [Hn Hk].
  split; [apply Hn; constructor|]. split; [|split; [|reflexivity]].
  - intros k Hin. destruct (Hk k Hin) as [[]|H].
    unfold pairs in H. rewrite map_map in H. cbn [fst] in H.
    apply in_map_iff in H as ([k0 v0] & <- & _). cbn [fst].
    unfold RequestSpec.stored_name, BlackfireRequest.mem_list.
    cbn [existsb]. rewrite orb_false_r.
    destruct (String.eqb k0 "Blackfire-Query") eqn:E1;
      [apply String.eqb_eq in E1; now left|].
    destruct (String.eqb k0 "Blackfire-Probe") eqn:E2;
      [apply String.eqb_eq in E2; right; now left|].
    right. right. cbn [orb]. apply lower_idempotent.
  - intros k. rewrite dict_get_fold_set. unfold RequestSpec.last_for, pairs.
    cbn [Dict.get]. rewrite <- map_rev.
    induction (List.rev hdrs) as [|[k0 v0] l IH]; [reflexivity|].
    cbn [map List.find fst snd].
    destruct (String.eqb (RequestSpec.stored_name k0) k); [reflexivity|].
    exact IH.
Qed.

Lemma request_init_headers_witness :
  let self :=
    BlackfireRequest.init
      [("X-Name", PStr "1"); ("Blackfire-Probe", PStr "p");
       ("x-name", PStr "2")]
      (Some "body") in
  Dict.get (BlackfireRequest.headers self) "x-name" = Some (PStr "2")
  /\ Dict.get (BlackfireRequest.headers self) "X-Name" = None
  /\ Dict.get (BlackfireRequest.headers self) "Blackfire-Probe"
     = Some (PStr "p")
  /\ Dict.get (BlackfireRequest.headers self) "blackfire-probe" = None.
Proof.
  intros self. unfold self.
  pose proof (request_init_headers
                [("X-Name", PStr "1"); ("Blackfire-Probe", PStr "p");
                 ("x-name", PStr "2")]
                (Some "body")) as H.
  destruct H as (_ & _ & Hget & _); [repeat constructor|].
  split; [|split; [|split]]; rewrite Hget; reflexivity.
Defined.

Section RequestParseFacts.

Lemma find_from_partition (c : ascii) (s : string) :
  forall i : Z,
    Py.find_from c s i
    = match Text.partition c s with
      | Some (l, _) => (i + Z.of_nat (String.length l))%Z
      | None => (-1)%Z
      end.
Proof.
  induction s as [|a s IH]; intros i; cbn [Py.find_from Text.partition];
    [reflexivity|].
  destruct (Ascii.eqb a c); [cbn; lia|]. rewrite IH.
  destruct (Text.partition c s) as [[l r]|]; [|reflexivity].
  cbn [String.length]. lia.
Qed.

Lemma substring_prefix (l x : string) :
  substring 0 (String.length l) (l ++ x) = l.
Proof.
  induction l as [|a l IH]; cbn [String.length append substring].
  - now destruct x.
  - now rewrite IH.
Qed.

Lemma drop_append (l x : string) : Text.drop (String.length l) (l ++ x) = x.
Proof. induction l as [|a l IH]; [reflexivity | exact IH]. Qed.

(** What the loop of [from_bytes] does with one line. *)
Lemma parse_header_line (hdrs : dict pyval) (line : string) :
  BlackfireRequest.parse_header_lines hdrs [line]
  = fold_left (fun acc kv => Dict.set acc (fst kv) (snd kv))
              (map (fun kv => (fst kv, PStr (snd kv)))
                   (RequestSpec.header_of_line line))
              hdrs.
Proof.
  unfold BlackfireRequest.parse_header_lines, RequestSpec.header_of_line,
    Py.find.
  cbn [fold_left]. rewrite find_from_partition.
  destruct (Text.partition ":" line) as [[l r]|] eqn:E; [|reflexivity].
  apply partition_spec in E as [-> _].
  assert (Hpos : (-1 <? 0 + Z.of_nat (String.length l))%Z = true)
    by (apply Z.ltb_lt; lia).
  rewrite Hpos. cbn [map fold_left fst snd]. f_equal.
  - f_equal. unfold Py.slice_to.
    rewrite Z.add_0_l, Nat2Z.id. apply substring_prefix.
  - do 2 f_equal. unfold Py.slice_from.
    replace (Z.to_nat (0 + Z.of_nat (String.length l) + 1))
      with (String.length l + 1) by lia.
    rewrite substring_from_drop, <- drop_drop, drop_append. reflexivity.
Qed.

Lemma parse_header_lines_as_fold (lines : list string) :
  forall hdrs : dict pyval,
    BlackfireRequest.parse_header_lines hdrs lines
    = fold_left (fun acc kv => Dict.set acc (fst kv) (snd kv))
                (map (fun kv => (fst kv, PStr (snd kv)))
                     (flat_map RequestSpec.header_of_line lines))
                hdrs.
Proof.
  induction lines as [|line lines IH]; intros hdrs; [reflexivity|].
  cbn [flat_map]. rewrite map_app, fold_left_app, <- parse_header_line.
  rewrite <- IH. reflexivity.
Qed.

Lemma from_bytes_ok_headers (self r : BlackfireRequest.t) (data : string) :
  BlackfireRequest.from_bytes self data = Ok r ->
  BlackfireRequest.headers r
  = BlackfireRequest.parse_header_lines
      (BlackfireRequest.headers self)
      (Py.split (hd EmptyString (Py.split data Protocol.MARKER)) LF).
Proof.
  unfold BlackfireRequest.from_bytes.
  destruct (Py.split data Protocol.MARKER) as [|h [|b1 [|b2 [|b3 l]]]];
    cbn [bind fst snd hd]; try discriminate; now intros [= <-].
Qed.

End RequestParseFacts.

(** X13. The headers that [BlackfireRequest.from_bytes] reads from ASCII
    text. The lines
    of the text before the first ['\n\n'] are taken in order: a line
    without a colon is ignored, another one stores the text after its first
    colon under the text before it, both stripped, the name as it is
    written (not in lower case). So a lookup in the request that is
    returned finds the value of the last line that has the name, and for
    any other name what the request held before. *)
Theorem request_from_bytes_headers :
  forall (self r : BlackfireRequest.t) (data : string),
    Py.isascii data = true ->
    BlackfireRequest.from_bytes self data = Ok r ->
    let lines :=
      Py.split (hd EmptyString (Py.split data Protocol.MARKER)) LF in
    forall k,
      Dict.get (BlackfireRequest.headers r) k
      = match RequestSpec.last_for
                k (flat_map RequestSpec.header_of_line lines) with
        | Some kv => Some (PStr (snd kv))
        | None => Dict.get (BlackfireRequest.headers self) k
        end.
Proof.
  intros self r data _ Hr lines k.
  rewrite (from_bytes_ok_headers _ _ _ Hr). fold lines.
  rewrite parse_header_lines_as_fold, dict_get_fold_set.
  unfold RequestSpec.last_for. rewrite <- map_rev.
  induction (List.rev (flat_map RequestSpec.header_of_line lines))
    as [|[k0 v0] l IH]; [reflexivity|].
  cbn [map List.find fst snd]. destruct (String.eqb k0 k); [reflexivity|].
  exact IH.
Qed.

Lemma request_from_bytes_headers_witness :
  exists r,
    BlackfireRequest.from_bytes
      (BlackfireRequest.init [("Keep", PStr "me")] None)
      ("Name : one" ++ LF ++ "no colon" ++ LF ++ "Name: two:2" ++ LF ++ LF
       ++ "body")
    = Ok r
    /\ Dict.get (BlackfireRequest.headers r) "Name" = Some (PStr "two:2")
    /\ Dict.get (BlackfireRequest.headers r) "keep" = Some (PStr "me")
    /\ Dict.get (BlackfireRequest.headers r) "name" = None.
Proof.
  eexists. split; [reflexivity|].
  pose proof (request_from_bytes_headers
                (BlackfireRequest.init [("Keep", PStr "me")] None) _
                ("Name : one" ++ LF ++ "no colon" ++ LF ++ "Name: two:2"
                 ++ LF ++ LF ++ "body") eq_refl eq_refl) as H.
  cbv zeta in H.
  split; [|split]; rewrite H; reflexivity.
Defined.

Section MarkerFacts.

Lemma contains_cons (sub : string) (c : ascii) (s : string) :
  Py.contains sub (String c s)
  = prefix sub (String c s) || Py.contains sub s.
Proof. reflexivity. Qed.

Lemma prefix_marker (c : ascii) (s : string) :
  prefix Protocol.MARKER (String c s) = Ascii.eqb "010" c && prefix LF s.
Proof.
  change Protocol.MARKER with (String "010" LF). now rewrite prefix_cons.
Qed.

Lemma prefix_lf_append (a x y : string) :
  prefix LF x = prefix LF y -> prefix LF (a ++ x) = prefix LF (a ++ y).
Proof.
  destruct a as [|c a]; [trivial|]. intros _. cbn [append].
  unfold Protocol.HEADER_MARKER. now rewrite !prefix_cons, !prefix_nil.
Qed.

(** A text without the marker is one segment. *)
Lemma split_marker_free (b : string) :
  RequestSpec.marker_free b = true -> Py.split b Protocol.MARKER = [b].
Proof.
  unfold RequestSpec.marker_free, Py.split. rewrite negb_true_iff.
  induction b as [|c b IH]; [reflexivity|].
  rewrite contains_cons. intros H. apply orb_false_iff in H as [Hp Hc].
  cbn [Py.split_go]. rewrite Hp, (IH Hc). reflexivity.
Qed.

(** The first segment ends at the first marker. *)
Lemma split_marker_first (a b : string) :
  RequestSpec.marker_free_to_end a = true ->
  Py.split (a ++ Protocol.MARKER ++ b) Protocol.MARKER
  = a :: Py.split b Protocol.MARKER.
Proof.
  unfold RequestSpec.marker_free_to_end, Py.split. rewrite negb_true_iff.
  induction a as [|c a IH]; intros H.
  - change ("" ++ Protocol.MARKER ++ b) with (String "010" (String "010" b)).
    cbn [Py.split_go]. rewrite prefix_marker, Ascii.eqb_refl.
    unfold Protocol.HEADER_MARKER at 1. rewrite prefix_cons, prefix_nil.
    rewrite Ascii.eqb_refl. cbn [andb]. reflexivity.
  - cbn [append] in *. rewrite contains_cons in H.
    apply orb_false_iff in H as [Hp Hc].
    cbn [Py.split_go]. rewrite prefix_marker in *.
    rewrite (prefix_lf_append a (Protocol.MARKER ++ b) LF) by reflexivity.
    rewrite Hp, (IH Hc). reflexivity.
Qed.

Lemma marker_not_line_end (b1 b2 : string) :
  b1 ++ LF ++ b2 <> b1 ++ Protocol.MARKER ++ b2.
Proof.
  intros H. apply (f_equal String.length) in H.
  rewrite !length_append in H. cbn in H. lia.
Qed.

End MarkerFacts.

Section SegmentFacts.

(** The headers that the loop of [from_bytes] leaves. *)
Lemma parse_header_lines_read (old : dict pyval) (h : string) :
  RequestSpec.headers_read
    old h (BlackfireRequest.parse_header_lines old (Py.split h LF)).
Proof.
  intros _ k. rewrite parse_header_lines_as_fold, dict_get_fold_set.
  unfold RequestSpec.last_for. rewrite <- map_rev.
  induction (List.rev (flat_map RequestSpec.header_of_line (Py.split h LF)))
    as [|[k0 v0] l IH]; [reflexivity|].
  cbn [map List.find fst snd]. destruct (String.eqb k0 k); [reflexivity|].
  exact IH.
Qed.

(** Three markers or more: four pieces or more. *)
Lemma split_three_markers (h b1 b2 rest : string) :
  RequestSpec.marker_free_to_end h = true ->
  RequestSpec.marker_free_to_end b1 = true ->
  RequestSpec.marker_free_to_end b2 = true ->
  exists p l,
    Py.split (h ++ Protocol.MARKER ++ b1 ++ Protocol.MARKER ++ b2
              ++ Protocol.MARKER ++ rest) Protocol.MARKER
    = h :: b1 :: b2 :: p :: l.
Proof.
  intros Hh H1 H2.
  rewrite (split_marker_first _ _ Hh), (split_marker_first _ _ H1),
    (split_marker_first _ _ H2).
  pose proof (split_go_never_nil Protocol.MARKER None 0 rest) as Hne.
  fold (Py.split rest Protocol.MARKER) in Hne.
  destruct (Py.split rest Protocol.MARKER) as [|p l]; [now elim Hne|].
  now exists p, l.
Qed.

End SegmentFacts.

(** C7. [BlackfireRequest.from_bytes] by the pieces between the markers
    ['\n\n'] of the text; a piece that a marker follows has no ['\n\n'] in
    it and does not end with ['\n'], and the last piece has no ['\n\n'].
    One piece: the call returns, the headers are read from the lines of the
    piece (a line with a colon stores the stripped text after its first
    colon under the stripped text before it, the last line with a name
    wins) and the body is left as it was, [None] on a new request. Two
    pieces: the headers are read from the first and the body is the second.
    Three pieces: the headers are read from the first and the body is the
    second, one ['\n'] and the third. Four pieces or more: the call raises
    [BlackfireApiException] for an invalid message, with the text. *)
Theorem request_from_bytes_segments :
  forall (self : BlackfireRequest.t) (h b1 b2 rest : string),
    let headers := BlackfireRequest.headers in
    let body := BlackfireRequest.data in
    (RequestSpec.marker_free h = true ->
     exists r,
       BlackfireRequest.from_bytes self h = Ok r
       /\ RequestSpec.headers_read (headers self) h (headers r)
       /\ body r = body self)
    /\ (RequestSpec.marker_free_to_end h = true ->
        RequestSpec.marker_free b1 = true ->
        exists r,
          BlackfireRequest.from_bytes self (h ++ Protocol.MARKER ++ b1) = Ok r
          /\ RequestSpec.headers_read (headers self) h (headers r)
          /\ body r = Some b1)
    /\ (RequestSpec.marker_free_to_end h = true ->
        RequestSpec.marker_free_to_end b1 = true ->
        RequestSpec.marker_free b2 = true ->
        exists r,
          BlackfireRequest.from_bytes
            self (h ++ Protocol.MARKER ++ b1 ++ Protocol.MARKER ++ b2)
          = Ok r
          /\ RequestSpec.headers_read (headers self) h (headers r)
          /\ body r = Some (b1 ++ LF ++ b2))
    /\ (RequestSpec.marker_free_to_end h = true ->
        RequestSpec.marker_free_to_end b1 = true ->
        RequestSpec.marker_free_to_end b2 = true ->
        let data :=
          h ++ Protocol.MARKER ++ b1 ++ Protocol.MARKER ++ b2
          ++ Protocol.MARKER ++ rest in
        BlackfireRequest.from_bytes self data
        = Raise (BlackfireApiException (InvalidRequestMessage data))).
Proof.
  intros self h b1 b2 rest headers body. unfold BlackfireRequest.from_bytes.
  split; [|split; [|split]].
  - intros H. rewrite (split_marker_free _ H). cbn [bind fst snd].
    eexists. split; [reflexivity|]. split; [|reflexivity].
    apply parse_header_lines_read.
  - intros Hh H1.
    rewrite (split_marker_first _ _ Hh), (split_marker_free _ H1).
    cbn [bind fst snd].
    eexists. split; [reflexivity|]. split; [|reflexivity].
    apply parse_header_lines_read.
  - intros Hh H1 H2.
    rewrite (split_marker_first _ _ Hh), (split_marker_first _ _ H1),
      (split_marker_free _ H2).
    cbn [bind fst snd].
    eexists. split; [reflexivity|]. split; [|reflexivity].
    apply parse_header_lines_read.
  - intros Hh H1 H2. cbv zeta.
    destruct (split_three_markers h b1 b2 rest Hh H1 H2) as (p & l & ->).
    reflexivity.
Qed.

Lemma request_from_bytes_segments_witness :
  let new := BlackfireRequest.init [] None in
  BlackfireRequest.from_bytes new ("a: b" ++ LF ++ "no colon" ++ LF ++ "a : c")
  = Ok (BlackfireRequest.mk [("a", PStr "c")] None)
  /\ BlackfireRequest.from_bytes
       new ("a: b" ++ Protocol.MARKER ++ "body" ++ LF)
     = Ok (BlackfireRequest.mk [("a", PStr "b")] (Some ("body" ++ LF)))
  /\ BlackfireRequest.from_bytes
       new ("a: b" ++ Protocol.MARKER ++ "timespan" ++ Protocol.MARKER
            ++ "trace")
     = Ok (BlackfireRequest.mk [("a", PStr "b")]
             (Some ("timespan" ++ LF ++ "trace")))
  /\ BlackfireRequest.from_bytes
       new ("a: b" ++ Protocol.MARKER ++ "1" ++ Protocol.MARKER ++ "2"
            ++ Protocol.MARKER ++ "3" ++ Protocol.MARKER ++ "4")
     = Raise (BlackfireApiException
                (InvalidRequestMessage
                   ("a: b" ++ Protocol.MARKER ++ "1" ++ Protocol.MARKER ++ "2"
                    ++ Protocol.MARKER ++ "3" ++ Protocol.MARKER ++ "4"))).
Proof.
  intros new.
  pose proof (request_from_bytes_segments
                new ("a: b" ++ LF ++ "no colon" ++ LF ++ "a : c") "" "" "")
    as (H1 & _).
  pose proof (request_from_bytes_segments new "a: b" ("body" ++ LF) "" "")
    as (_ & H2 & _).
  pose proof (request_from_bytes_segments new "a: b" "timespan" "trace" "")
    as (_ & _ & H3 & _).
  pose proof (request_from_bytes_segments
                new "a: b" "1" "2" ("3" ++ Protocol.MARKER ++ "4"))
    as (_ & _ & _ & H4).
  split; [|split; [|split]].
  - destruct (H1 eq_refl) as (r & Hr & _). rewrite Hr.
    vm_compute in Hr. now injection Hr as <-.
  - destruct (H2 eq_refl eq_refl) as (r & Hr & _). rewrite Hr.
    vm_compute in Hr. now injection Hr as <-.
  - destruct (H3 eq_refl eq_refl eq_refl) as (r & Hr & _). rewrite Hr.
    vm_compute in Hr. now injection Hr as <-.
  - apply (H4 eq_refl eq_refl eq_refl).
Defined.

(** X14. [BlackfireRequest.from_bytes] by the text it is given. Without
    ['\n\n'] the whole text is header lines and the body is left as it was.
    With one ['\n\n'], what follows it is the body. With two, the body is
    the text between them, one ['\n'] and the text after the second: it is
    not the text that followed the first marker, a ['\n'] is lost. With
    three, the call raises. Here a part that is followed by a marker has no
    ['\n\n'] and does not end with ['\n'], and the last part has no
    ['\n\n']. *)
Theorem request_from_bytes_by_text :
  forall (self : BlackfireRequest.t) (h b1 b2 b3 : string),
    let read h := BlackfireRequest.parse_header_lines
                    (BlackfireRequest.headers self) (Py.split h LF) in
    (RequestSpec.marker_free h = true ->
     BlackfireRequest.from_bytes self h
     = Ok (BlackfireRequest.mk (read h) (BlackfireRequest.data self)))
    /\ (RequestSpec.marker_free_to_end h = true ->
        RequestSpec.marker_free b1 = true ->
        BlackfireRequest.from_bytes self (h ++ Protocol.MARKER ++ b1)
        = Ok (BlackfireRequest.mk (read h) (Some b1)))
    /\ (RequestSpec.marker_free_to_end h = true ->
        RequestSpec.marker_free_to_end b1 = true ->
        RequestSpec.marker_free b2 = true ->
        BlackfireRequest.from_bytes
          self (h ++ Protocol.MARKER ++ b1 ++ Protocol.MARKER ++ b2)
        = Ok (BlackfireRequest.mk (read h) (Some (b1 ++ LF ++ b2)))
        /\ b1 ++ LF ++ b2 <> b1 ++ Protocol.MARKER ++ b2)
    /\ (RequestSpec.marker_free_to_end h = true ->
        RequestSpec.marker_free_to_end b1 = true ->
        RequestSpec.marker_free_to_end b2 = true ->
        RequestSpec.marker_free b3 = true ->
        let data :=
          h ++ Protocol.MARKER ++ b1 ++ Protocol.MARKER ++ b2
          ++ Protocol.MARKER ++ b3 in
        BlackfireRequest.from_bytes self data
        = Raise (BlackfireApiException (InvalidRequestMessage data))).
Proof.
  intros self h b1 b2 b3 read. unfold BlackfireRequest.from_bytes.
  split; [|split; [|split]].
  - intros H. now rewrite (split_marker_free _ H).
  - intros Hh H1.
    now rewrite (split_marker_first _ _ Hh), (split_marker_free _ H1).
  - intros Hh H1 H2. split; [|apply marker_not_line_end].
    now rewrite (split_marker_first _ _ Hh), (split_marker_first _ _ H1),
      (split_marker_free _ H2).
  - intros Hh H1 H2 H3. cbv zeta.
    now rewrite (split_marker_first _ _ Hh), (split_marker_first _ _ H1),
      (split_marker_first _ _ H2), (split_marker_free _ H3).
Qed.

Lemma request_from_bytes_by_text_witness :
  BlackfireRequest.from_bytes (BlackfireRequest.init [] None)
    ("a: b" ++ LF ++ LF ++ "timespan" ++ LF ++ LF ++ "trace" ++ LF)
  = Ok (BlackfireRequest.mk [("a", PStr "b")]
          (Some ("timespan" ++ LF ++ "trace" ++ LF))).
Proof.
  apply (proj1 (proj2 (proj2 (request_from_bytes_by_text
                                (BlackfireRequest.init [] None)
                                "a: b" "timespan" ("trace" ++ LF) ""))));
    reflexivity.
Defined.

Section RoundTripFacts.

(** Lines, each with its end of line, put one after the other. *)
Lemma join_lines (ls : list string) :
  ls <> [] ->
  Text.join (map (fun l => l ++ LF) ls) = String.concat LF ls ++ LF.
Proof.
  induction ls as [|l [|l' ls] IH]; intros Hne; [congruence | |].
  - cbn [map]. rewrite join_cons. change (Text.join []) with "".
    now rewrite append_nil_r.
  - cbn [map] in *. rewrite join_cons, IH by discriminate.
    cbn [String.concat]. now rewrite !append_assoc.
Qed.

Lemma split_char_first (c : ascii) (l r : string) :
  Text.lacks c l = true ->
  Py.split (l ++ String c r) (String c EmptyString)
  = l :: Py.split r (String c EmptyString).
Proof.
  unfold Text.lacks, Py.split. induction l as [|a l IH]; intros H.
  - cbn [append]. rewrite split_go_char by discriminate.
    now rewrite Ascii.eqb_refl.
  - cbn [Py.forallb] in H. apply andb_true_iff in H as [Ha Hl].
    apply negb_true_iff in Ha. cbn [append].
    rewrite split_go_char by discriminate. now rewrite Ha, (IH Hl).
Qed.

(** Lines without an end of line in them come back from the split. *)
Lemma split_concat_lines (ls : list string) :
  Forall (fun l => Text.lacks "010" l = true) ls ->
  ls <> [] ->
  Py.split (String.concat LF ls) LF = ls.
Proof.
  induction 1 as [|l ls Hl Hls IH]; intros Hne; [congruence|].
  destruct ls as [|l' ls].
  - cbn [String.concat]. unfold Py.split. now apply split_go_lacks.
  - change (String.concat LF (l :: l' :: ls))
      with (l ++ String "010" (String.concat LF (l' :: ls))).
    unfold Protocol.HEADER_MARKER at 2.
    rewrite split_char_first by assumption.
    fold Protocol.HEADER_MARKER. rewrite IH by discriminate. reflexivity.
Qed.

(** A line that is not empty and has no end of line in it, its end of
    line, and a text that neither holds the marker nor starts with an end of
    line: the marker is not in them, and they do not start with an end of
    line. *)
Lemma line_keeps_marker_out (l rest : string) :
  Text.lacks "010" l = true -> l <> "" ->
  Py.contains Protocol.MARKER rest = false ->
  prefix LF rest = false ->
  Py.contains Protocol.MARKER (l ++ LF ++ rest) = false
  /\ prefix LF (l ++ LF ++ rest) = false.
Proof.
  unfold Text.lacks. intros Hl Hne Hrest Hstart.
  destruct l as [|a l]; [congruence|]. clear Hne.
  cbn [Py.forallb] in Hl. apply andb_true_iff in Hl as [Ha Hl].
  apply negb_true_iff in Ha. rewrite Ascii.eqb_sym in Ha.
  split.
  - revert a Ha. induction l as [|a' l IH]; intros a Ha; cbn [append].
    + rewrite contains_cons, prefix_marker, Ha. cbn [andb orb].
      change (LF ++ rest) with (String "010" rest).
      rewrite contains_cons, prefix_marker, Hstart, Hrest.
      now rewrite andb_false_r.
    + cbn [Py.forallb] in Hl. apply andb_true_iff in Hl as [Ha' Hl].
      apply negb_true_iff in Ha'. rewrite Ascii.eqb_sym in Ha'.
      rewrite contains_cons, prefix_marker, Ha. cbn [andb orb].
      now apply IH.
  - cbn [append]. unfold Protocol.HEADER_MARKER at 1.
    now rewrite prefix_cons, Ha.
Qed.

Lemma lines_keep_marker_out (ls : list string) :
  Forall (fun l => Text.lacks "010" l = true /\ l <> "") ls ->
  Py.contains Protocol.MARKER (Text.join (map (fun l => l ++ LF) ls)) = false
  /\ prefix LF (Text.join (map (fun l => l ++ LF) ls)) = false.
Proof.
  induction 1 as [|l ls [Hl Hne] _ [IHc IHp]]; [split; reflexivity|].
  cbn [map]. rewrite join_cons, append_assoc.
  now apply line_keeps_marker_out.
Qed.

Lemma dict_set_new {V : Type} (d : dict V) (k : string) (v : V) :
  ~ In k (Dict.keys d) -> Dict.set d k v = (d ++ [(k, v)])%list.
Proof.
  induction d as [|[k' v'] d IH]; simpl; [reflexivity|].
  intros H. destruct (String.eqb k' k) eqn:E.
  - apply String.eqb_eq in E. elim H. now left.
  - rewrite IH; [reflexivity|]. intros Hin. apply H. now right.
Qed.

(** Storing pairs with new, distinct names puts them at the end. *)
Lemma fold_set_new {V : Type} (pairs : list (string * V)) :
  forall d : dict V,
    NoDup (Dict.keys d ++ map fst pairs) ->
    fold_left (fun acc kv => Dict.set acc (fst kv) (snd kv)) pairs d
    = (d ++ pairs)%list.
Proof.
  induction pairs as [|[k v] pairs IH]; intros d Hnd.
  - now rewrite app_nil_r.
  - cbn [fold_left fst snd map] in *.
    rewrite dict_set_new.
    + rewrite IH; [now rewrite <- app_assoc|].
      unfold Dict.keys. rewrite map_app, <- app_assoc. exact Hnd.
    + apply NoDup_remove_2 in Hnd. intros H. apply Hnd.
      apply in_app_iff. now left.
Qed.

Lemma strip_after_space (v : string) :
  Py.strip (String " " v) = Py.strip v.
Proof. reflexivity. Qed.

(** The line of a clean header is read back as that header. *)
Lemma header_of_clean_line (kv : string * pyval) :
  RequestSpec.clean_header kv = true ->
  RequestSpec.header_of_line (fst kv ++ ": " ++ str (snd kv))
  = [(fst kv, str (snd kv))]
  /\ Text.lacks "010" (fst kv ++ ": " ++ str (snd kv)) = true
  /\ fst kv ++ ": " ++ str (snd kv) <> "".
Proof.
  unfold RequestSpec.clean_header. intros H.
  apply andb_true_iff in H as [H _].
  apply andb_true_iff in H as [H _].
  apply andb_true_iff in H as [H _].
  apply andb_true_iff in H as [H Hvs].
  apply andb_true_iff in H as [H Hvl].
  apply andb_true_iff in H as [H Hks].
  apply andb_true_iff in H as [Hkc Hkl].
  apply String.eqb_eq in Hks, Hvs.
  split; [|split].
  - unfold RequestSpec.header_of_line.
    change (fst kv ++ ": " ++ str (snd kv))
      with (fst kv ++ String ":" (String " " (str (snd kv)))).
    rewrite partition_append by assumption.
    now rewrite strip_after_space, Hks, Hvs.
  - unfold Text.lacks in *. rewrite !forallb_append, Hkl, Hvl. reflexivity.
  - destruct (fst kv); discriminate.
Qed.

Lemma in_keys_filter {V : Type} (p : string * V -> bool) (d : dict V)
    (k : string) :
  In k (Dict.keys (filter p d)) -> In k (Dict.keys d).
Proof.
  unfold Dict.keys. rewrite !in_map_iff. intros (kv & <- & Hin).
  apply filter_In in Hin as [Hin _]. now exists kv.
Qed.

Lemma nodup_keys_filter {V : Type} (p : string * V -> bool) (d : dict V) :
  NoDup (Dict.keys d) -> NoDup (Dict.keys (filter p d)).
Proof.
  induction d as [|[k v] d IH]; [trivial|]. cbn [Dict.keys map fst filter].
  intros H. inversion H as [|? ? Hk Hd]; subst.
  destruct (p (k, v)); [|now apply IH].
  cbn [map fst]. constructor; [|now apply IH].
  intros Hin. apply Hk. now apply (in_keys_filter p).
Qed.

Lemma dict_get_filter_names {V : Type} (p : string -> bool) (d : dict V)
    (k : string) :
  Dict.get (filter (fun kv => p (fst kv)) d) k
  = if p k then Dict.get d k else None.
Proof.
  induction d as [|[k' v'] d IH]; cbn [filter Dict.get fst].
  - now destruct (p k).
  - destruct (String.eqb k' k) eqn:E.
    + apply String.eqb_eq in E. subst k'.
      destruct (p k) eqn:Hp; [|exact IH].
      cbn [Dict.get]. now rewrite String.eqb_refl.
    + destruct (p k'); [|exact IH]. cbn [Dict.get]. now rewrite E.
Qed.

Lemma emit_order_keys (hdrs : dict pyval) :
  NoDup (Dict.keys hdrs) -> NoDup (Dict.keys (RequestSpec.emit_order hdrs)).
Proof.
  intros Hnd. unfold RequestSpec.emit_order, Dict.keys.
  rewrite !map_app.
  set (others := filter _ hdrs).
  assert (Hothers : NoDup (map fst others))
    by (apply (nodup_keys_filter _ _ Hnd)).
  assert (Hnot : forall k,
             BlackfireRequest.mem_list k ["Blackfire-Query"; "file-format"]
             = true -> ~ In k (map fst others)).
  { intros k Hk Hin. apply in_map_iff in Hin as ([k' v'] & <- & Hin).
    apply filter_In in Hin as [_ Hp]. cbn [fst] in *. now rewrite Hk in Hp. }
  destruct (Dict.get hdrs "file-format"), (Dict.get hdrs "Blackfire-Query");
    cbn [map fst app]; repeat constructor; trivial; cbn [In];
    try (apply Hnot; reflexivity);
    intros [H|H]; [discriminate | revert H; apply Hnot; reflexivity].
Qed.

Lemma emit_order_get (hdrs : dict pyval) (k : string) :
  Dict.get (RequestSpec.emit_order hdrs) k = Dict.get hdrs k.
Proof.
  unfold RequestSpec.emit_order.
  pose proof (dict_get_filter_names
                (fun n => negb (BlackfireRequest.mem_list
                                  n ["Blackfire-Query"; "file-format"]))
                hdrs k) as Hf.
  cbn beta in Hf.
  destruct (String.eqb "file-format" k) eqn:E1.
  - apply String.eqb_eq in E1. subst k.
    destruct (Dict.get hdrs "file-format") as [v|] eqn:G.
    + cbn [app Dict.get]. now rewrite String.eqb_refl.
    + destruct (Dict.get hdrs "Blackfire-Query");
        cbn [app Dict.get String.eqb Ascii.eqb Bool.eqb]; rewrite Hf;
        reflexivity.
  - destruct (String.eqb "Blackfire-Query" k) eqn:E2.
    + apply String.eqb_eq in E2. subst k.
      destruct (Dict.get hdrs "file-format");
        destruct (Dict.get hdrs "Blackfire-Query") as [v|] eqn:G;
        cbn [app Dict.get String.eqb Ascii.eqb Bool.eqb];
        rewrite ?Hf; reflexivity.
    + assert (Hp : BlackfireRequest.mem_list
                     k ["Blackfire-Query"; "file-format"] = false).
      { unfold BlackfireRequest.mem_list. cbn [existsb].
        rewrite (String.eqb_sym k), E2, (String.eqb_sym k), E1.
        reflexivity. }
      rewrite Hp in Hf. cbn [negb] in Hf.
      destruct (Dict.get hdrs "file-format"),
        (Dict.get hdrs "Blackfire-Query");
        cbn [app Dict.get]; rewrite ?E1, ?E2; exact Hf.
Qed.

Lemma emit_order_in (hdrs : dict pyval) (kv : string * pyval) :
  In kv (RequestSpec.emit_order hdrs) -> In kv hdrs.
Proof.
  unfold RequestSpec.emit_order. rewrite !in_app_iff.
  intros [H|[H|H]].
  - destruct (Dict.get hdrs "file-format") eqn:G; [|contradiction].
    destruct H as [<-|[]]. now apply dict_get_in.
  - destruct (Dict.get hdrs "Blackfire-Query") eqn:G; [|contradiction].
    destruct H as [<-|[]]. now apply dict_get_in.
  - now apply filter_In in H.
Qed.

Lemma emit_order_not_nil (hdrs : dict pyval) :
  hdrs <> [] -> RequestSpec.emit_order hdrs <> [].
Proof.
  destruct hdrs as [|[k v] hdrs]; [congruence|]. intros _ H.
  assert (G : Dict.get (RequestSpec.emit_order ((k, v) :: hdrs)) k = Some v).
  { rewrite emit_order_get. cbn [Dict.get]. now rewrite String.eqb_refl. }
  rewrite H in G. discriminate.
Qed.

(** The bytes of a request: the lines of its headers in the order of
    writing, the blank line when there is a header, the body. *)
Lemma to_bytes_shape (self : BlackfireRequest.t) :
  BlackfireRequest.to_bytes self
  = Text.join
      (map (fun kv => (fst kv ++ ": " ++ str (snd kv)) ++ LF)
           (RequestSpec.emit_order (BlackfireRequest.headers self)))
    ++ (if 0 <? List.length (BlackfireRequest.headers self) then LF else "")
    ++ RequestSpec.body_text (BlackfireRequest.data self).
Proof.
  unfold BlackfireRequest.to_bytes, RequestSpec.emit_order.
  rewrite other_headers_spec, !map_app. unfold Text.join.
  set (others := String.concat "" (map _ (filter _ _))).
  assert (Ho : String.concat ""
                 (map (fun kv => (fst kv ++ ": " ++ str (snd kv)) ++ LF)
                      (filter
                         (fun kv =>
                            negb (BlackfireRequest.mem_list
                                    (fst kv) ["Blackfire-Query"; "file-format"]))
                         (BlackfireRequest.headers self)))
               = others).
  { unfold others, BlackfireRequest.header_line. f_equal.
    apply map_ext. intros [k v]. cbn [fst snd]. now rewrite !append_assoc. }
  assert (Hbody : forall r : string,
    match BlackfireRequest.data self with
    | Some d => if 0 <? String.length d then r ++ d else r
    | None => r
    end = r ++ RequestSpec.body_text (BlackfireRequest.data self)).
  { intros r. destruct (BlackfireRequest.data self) as [[|c d]|]; cbn;
      now rewrite ?append_nil_r. }
  rewrite Hbody.
  assert (Hblank : forall r : string,
    (if 0 <? List.length (BlackfireRequest.headers self) then r ++ LF else r)
    = r ++ (if 0 <? List.length (BlackfireRequest.headers self)
            then LF else "")).
  { intros r. destruct (0 <? _); now rewrite ?append_nil_r. }
  rewrite Hblank.
  assert (Hcat : forall (a b : list string),
             String.concat "" (a ++ b)
             = String.concat "" a ++ String.concat "" b).
  { intros a b. induction a as [|x a IHa]; [reflexivity|].
    change ((x :: a) ++ b)%list with (x :: (a ++ b))%list.
    fold (Text.join (x :: (a ++ b))). fold (Text.join (x :: a)).
    rewrite !join_cons. unfold Text.join. now rewrite IHa, append_assoc. }
  rewrite !Hcat, Ho.
  destruct (Dict.get (BlackfireRequest.headers self) "file-format"),
    (Dict.get (BlackfireRequest.headers self) "Blackfire-Query");
    cbn [map String.concat fst snd];
    repeat (progress (rewrite ?append_assoc; cbn [append])); reflexivity.
Qed.

Lemma dict_get_map_values {V W : Type} (f : V -> W) (d : dict V)
    (k : string) :
  Dict.get (map (fun kv => (fst kv, f (snd kv))) d) k
  = option_map f (Dict.get d k).
Proof.
  induction d as [|[k0 v0] d IH]; [reflexivity|].
  cbn [map Dict.get fst snd]. now destruct (String.eqb k0 k).
Qed.

(** One marker: header lines, then the body. *)
Lemma from_bytes_two_segments (self : BlackfireRequest.t) (h b : string) :
  RequestSpec.marker_free_to_end h = true ->
  RequestSpec.marker_free b = true ->
  BlackfireRequest.from_bytes self (h ++ Protocol.MARKER ++ b)
  = Ok (BlackfireRequest.mk
          (BlackfireRequest.parse_header_lines
             (BlackfireRequest.headers self) (Py.split h LF))
          (Some b)).
Proof.
  intros Hh Hb. unfold BlackfireRequest.from_bytes.
  now rewrite (split_marker_first _ _ Hh), (split_marker_free _ Hb).
Qed.

End RoundTripFacts.

(** X15. Round trip of a request. Take a request with at least one header,
    whose header names have no colon, whose names and values are ASCII
    text with no end of line and no whitespace around them, the values of
    at most 4300 characters, and whose body has no ['\n\n'].
    Reading its bytes into a new request gives back every header, under
    the same name, with its value as text, in the order in which they were
    written, and the body (the empty text for no body). *)
Theorem request_round_trip_clean :
  forall self : BlackfireRequest.t,
    BlackfireRequest.headers self <> [] ->
    NoDup (Dict.keys (BlackfireRequest.headers self)) ->
    Forall (fun kv => RequestSpec.clean_header kv = true)
           (BlackfireRequest.headers self) ->
    RequestSpec.marker_free
      (RequestSpec.body_text (BlackfireRequest.data self)) = true ->
    let read :=
      map (fun kv => (fst kv, PStr (str (snd kv))))
          (RequestSpec.emit_order (BlackfireRequest.headers self)) in
    BlackfireRequest.from_bytes (BlackfireRequest.init [] None)
                                (BlackfireRequest.to_bytes self)
    = Ok (BlackfireRequest.mk
            read
            (Some (RequestSpec.body_text (BlackfireRequest.data self))))
    /\ forall k,
         Dict.get read k
         = option_map (fun v => PStr (str v))
                      (Dict.get (BlackfireRequest.headers self) k).
Proof.
  intros self Hne Hnd Hclean Hbody read.
  set (em := RequestSpec.emit_order (BlackfireRequest.headers self)).
  set (bare := fun kv : string * pyval => fst kv ++ ": " ++ str (snd kv)).
  assert (Hem : Forall (fun kv => RequestSpec.clean_header kv = true) em).
  { apply Forall_forall. intros kv Hin.
    rewrite Forall_forall in Hclean. now apply Hclean, emit_order_in. }
  assert (Hemne : map bare em <> []).
  { intros H. apply map_eq_nil in H.
    now apply (emit_order_not_nil _ Hne). }
  split.
  - rewrite to_bytes_shape. fold em.
    assert (Hlen : (0 <? List.length (BlackfireRequest.headers self)) = true).
    { destruct (BlackfireRequest.headers self); [congruence | reflexivity]. }
    rewrite Hlen.
    change (map (fun kv => (fst kv ++ ": " ++ str (snd kv)) ++ LF) em)
      with (map (fun kv => bare kv ++ LF) em).
    rewrite <- (map_map bare (fun l => l ++ LF)).
    assert (Hfree : RequestSpec.marker_free_to_end
                      (String.concat LF (map bare em)) = true).
    { unfold RequestSpec.marker_free_to_end.
      rewrite <- join_lines by assumption. apply negb_true_iff.
      apply lines_keep_marker_out. apply Forall_map.
      eapply Forall_impl; [|exact Hem]. intros kv Hkv.
      now destruct (header_of_clean_line kv Hkv) as (_ & H1 & H2). }
    rewrite join_lines, append_assoc by assumption.
    change (LF ++ LF ++ RequestSpec.body_text (BlackfireRequest.data self))
      with (Protocol.MARKER
            ++ RequestSpec.body_text (BlackfireRequest.data self)).
    rewrite from_bytes_two_segments by assumption.
    do 2 f_equal.
    rewrite split_concat_lines; [| |assumption].
    + rewrite parse_header_lines_as_fold.
      assert (Hflat : flat_map RequestSpec.header_of_line (map bare em)
                      = map (fun kv => (fst kv, str (snd kv))) em).
      { clear - Hem. induction Hem as [|kv em Hkv _ IH]; [reflexivity|].
        cbn [map flat_map]. rewrite IH. unfold bare at 1.
        now rewrite (proj1 (header_of_clean_line kv Hkv)). }
      rewrite Hflat, map_map. cbn [fst snd].
      rewrite fold_set_new; [reflexivity|].
      cbn [BlackfireRequest.init BlackfireRequest.headers fold_left
           Dict.keys map app].
      rewrite map_map. cbn [fst].
      apply (emit_order_keys _ Hnd).
    + apply Forall_map. eapply Forall_impl; [|exact Hem]. intros kv Hkv.
      now destruct (header_of_clean_line kv Hkv) as (_ & H1 & _).
  - intros k. unfold read. fold em.
    rewrite <- (emit_order_get (BlackfireRequest.headers self) k). fold em.
    apply (dict_get_map_values (fun v => PStr (str v))).
Qed.


Lemma request_round_trip_clean_witness :
  let self :=
    BlackfireRequest.init
      [("Blackfire-Query", PStr "q"); ("Zeta", PInt 3);
       ("file-format", PStr "x")]
      (Some "body") in
  BlackfireRequest.from_bytes (BlackfireRequest.init [] None)
                              (BlackfireRequest.to_bytes self)
  = Ok (BlackfireRequest.mk
          [("file-format", PStr "x"); ("Blackfire-Query", PStr "q");
           ("zeta", PStr "3")]
          (Some "body")).
Proof.
  intros self.
  refine (proj1 (request_round_trip_clean self _ _ _ _)).
  - discriminate.
  - vm_compute. repeat constructor; cbn [In]; intuition discriminate.
  - vm_compute. repeat constructor.
  - reflexivity.
Defined.

(* ================================================================== *)
(** * BlackfireAPMRequest.to_bytes *)
(* ================================================================== *)

Section APMRequestFacts.

Lemma apm_other_headers_spec (hdrs : dict pyval) (result : string) :
  BlackfireAPMRequest.other_headers result hdrs
  = result
    ++ Text.join
         (map (fun kv => fst kv ++ ": " ++ str (snd kv) ++ LF)
              (filter (fun kv => negb (String.eqb (fst kv) "file-format"))
                      hdrs)).
Proof.
  unfold BlackfireAPMRequest.other_headers.
  revert result. induction hdrs as [|[k v] hdrs IH]; intros result.
  - cbn. now rewrite append_nil_r.
  - cbn [fold_left filter fst snd]. rewrite IH.
    destruct (String.eqb k "file-format"); cbn [negb map]; [reflexivity|].
    rewrite join_cons. cbn [fst snd]. now rewrite !append_assoc.
Qed.

Lemma endswith_append (s p : string) : Py.endswith (s ++ p) p = true.
Proof.
  unfold Py.endswith. rewrite rev_append.
  induction (Py.rev p) as [|c r IH]; [now destruct (Py.rev s)|].
  cbn [append]. now rewrite prefix_cons, Ascii.eqb_refl.
Qed.

End APMRequestFacts.

(** X16. [BlackfireAPMRequest.to_bytes]. Without a [file-format] header
    the call raises [KeyError]. With one, the bytes are the [file-format]
    line, the lines of the other headers in their stored order
    ([Blackfire-Query] has no place of its own here), then the body with
    no blank line before it, then ['\n\n']: they always end with the
    marker, with or without a body. *)
Theorem apm_request_to_bytes :
  forall self : BlackfireRequest.t,
    match Dict.get (BlackfireRequest.headers self) "file-format" with
    | None =>
        BlackfireAPMRequest.to_bytes self = Raise (KeyError "file-format")
    | Some v =>
        exists bytes,
          BlackfireAPMRequest.to_bytes self = Ok bytes
          /\ bytes
             = "file-format: " ++ str v ++ LF
               ++ Text.join
                    (map (fun kv => fst kv ++ ": " ++ str (snd kv) ++ LF)
                         (filter
                            (fun kv =>
                               negb (String.eqb (fst kv) "file-format"))
                            (BlackfireRequest.headers self)))
               ++ RequestSpec.body_text (BlackfireRequest.data self)
               ++ Protocol.MARKER
          /\ Py.endswith bytes Protocol.MARKER = true
    end.
Proof.
  intros self. unfold BlackfireAPMRequest.to_bytes.
  destruct (Dict.get (BlackfireRequest.headers self) "file-format")
    as [v|]; [|reflexivity].
  cbn [bind]. eexists. split; [reflexivity|].
  split; [|apply endswith_append].
  rewrite apm_other_headers_spec.
  destruct (BlackfireRequest.data self) as [d|]; cbn [RequestSpec.body_text];
    repeat (progress (rewrite ?append_assoc; cbn [append])); reflexivity.
Qed.

(* ================================================================== *)
(** * The arguments of the responses *)
(* ================================================================== *)

Section ArgumentFacts.

(** [split] on one character, by the first occurrence of it. *)
Lemma split_partition (c : ascii) (s : string) :
  Py.split s (String c EmptyString)
  = match Text.partition c s with
    | Some (l, r) => l :: Py.split r (String c EmptyString)
    | None => [s]
    end.
Proof.
  destruct (Text.partition c s) as [[l r]|] eqn:E.
  - apply partition_spec in E as [-> Hl]. now apply split_char_first.
  - apply partition_none in E. now apply split_go_lacks.
Qed.

Lemma append_item_get_default {A : Type} (d : dict (list A))
    (k k' : string) (v : A) :
  Dict.get_default (Dict.append_item d k v) k' []
  = (Dict.get_default d k' [] ++ if String.eqb k k' then [v] else [])%list.
Proof.
  unfold Dict.append_item, Dict.get_default.
  destruct (String.eqb k k') eqn:E.
  - apply String.eqb_eq in E. subst k'. now rewrite dict_get_set_same.
  - rewrite dict_get_set_other, app_nil_r; [reflexivity|].
    intros ->. rewrite String.eqb_refl in E. discriminate.
Qed.

(** Appending pairs one by one: under a key, the values it had, then the
    values that the pairs give it, in order. *)
Lemma fold_append_item_values (pairs : list (string * string)) :
  forall (d : dict (list string)) (k : string),
    Dict.get_default
      (fold_left (fun d kv => Dict.append_item d (fst kv) (snd kv)) pairs d)
      k []
    = (Dict.get_default d k [] ++ ResponseSpec.values_for k pairs)%list.
Proof.
  induction pairs as [|[k0 v0] pairs IH]; intros d k; cbn [fold_left].
  - unfold ResponseSpec.values_for. cbn. now rewrite app_nil_r.
  - rewrite IH, append_item_get_default. unfold ResponseSpec.values_for.
    cbn [filter fst snd].
    destruct (String.eqb k0 k); cbn [map]; now rewrite <- app_assoc.
Qed.

Lemma fold_append_item_keys (pairs : list (string * string)) :
  forall d : dict (list string),
    Dict.keys
      (fold_left (fun d kv => Dict.append_item d (fst kv) (snd kv)) pairs d)
    = (Dict.keys d ++ ResponseSpec.new_keys (Dict.keys d) pairs)%list.
Proof.
  induction pairs as [|[k0 v0] pairs IH]; intros d;
    cbn [fold_left ResponseSpec.new_keys fst snd].
  - now rewrite app_nil_r.
  - rewrite IH. unfold Dict.append_item at 1 2.
    rewrite dict_keys_set, dict_mem_keys.
    destruct (Dict.mem d k0); [reflexivity|].
    now rewrite <- app_assoc.
Qed.

(** The loop of [BlackfireResponse.from_bytes], when it ends. *)
Lemma simple_body_loop_pairs (lines : list string) :
  forall args args' : dict (list string),
    BlackfireResponse.body_loop args lines = Ok args' ->
    args'
    = fold_left (fun d kv => Dict.append_item d (fst kv) (snd kv))
                (flat_map ResponseSpec.argument_of_line lines) args.
Proof.
  induction lines as [|line lines IH]; intros args args' H;
    cbn [BlackfireResponse.body_loop] in H.
  - now injection H as <-.
  - rewrite unpack2_body_line in H. cbn [flat_map].
    unfold ResponseSpec.argument_of_line at 1.
    destruct (Text.partition ":" line) as [[l r]|]; cbn [bind] in H;
      [|discriminate].
    cbn [app fold_left fst snd] in *. now apply IH.
Qed.

Lemma simple_from_bytes_body (parse_qsl : string -> list (string * string))
    (self r : BlackfireResponse.t) (data : string) :
  BlackfireResponse.from_bytes parse_qsl self data = Ok r ->
  BlackfireResponse.body_loop (BlackfireResponse.args self)
                              (tl (Py.split (Py.strip data) LF))
  = Ok (BlackfireResponse.args r).
Proof.
  unfold BlackfireResponse.from_bytes.
  destruct (unpack2 _) as [p|e]; cbn [bind]; [|discriminate].
  destruct (BlackfireResponse.body_loop _ _) as [a|e]; cbn [bind];
    [|discriminate].
  now intros [= <-].
Qed.

End ArgumentFacts.

(** X17. The arguments that [BlackfireResponse.from_bytes] collects from
    ASCII text. When
    the call returns, each line after the status line has given one value:
    the stripped text after its first colon, under the stripped text before
    it. Under every key the response holds the values that the object held
    before the call (they are not reset), then the values of the lines with
    that key, in the order of the lines; a key that is new comes after the
    keys already there, by its first line. [get_constants] so gives the
    values of the [Blackfire-Const] lines in order. *)
Theorem simple_response_args_accumulate :
  forall (parse_qsl : string -> list (string * string))
         (self r : BlackfireResponse.t) (data : string),
    Py.isascii data = true ->
    BlackfireResponse.from_bytes parse_qsl self data = Ok r ->
    let pairs :=
      flat_map ResponseSpec.argument_of_line
               (tl (Py.split (Py.strip data) LF)) in
    (forall k,
        Dict.get_default (BlackfireResponse.args r) k []
        = (Dict.get_default (BlackfireResponse.args self) k []
           ++ ResponseSpec.values_for k pairs)%list)
    /\ Dict.keys (BlackfireResponse.args r)
       = (Dict.keys (BlackfireResponse.args self)
          ++ ResponseSpec.new_keys
               (Dict.keys (BlackfireResponse.args self)) pairs)%list
    /\ BlackfireResponse.get_constants r
       = (BlackfireResponse.get_constants self
          ++ ResponseSpec.values_for "Blackfire-Const" pairs)%list.
Proof.
  intros parse_qsl self r data _ H pairs.
  apply simple_from_bytes_body, simple_body_loop_pairs in H. fold pairs in H.
  rewrite H. split; [|split].
  - intros k. apply fold_append_item_values.
  - apply fold_append_item_keys.
  - unfold BlackfireResponse.get_constants,
      BlackfireResponseBase.get_constants.
    rewrite H. apply fold_append_item_values.
Qed.

Lemma simple_response_args_accumulate_witness :
  let data :=
    "Blackfire-Response: ok" ++ LF ++ "Blackfire-Const: A" ++ LF
    ++ "Blackfire-Fn-Args: f 1,2" ++ LF ++ "Blackfire-Const : B:b" ++ LF in
  exists r,
    BlackfireResponse.from_bytes Utils.parse_qsl BlackfireResponse.init data
    = Ok r
    /\ BlackfireResponse.get_constants r = ["A"; "B:b"]
    /\ Dict.keys (BlackfireResponse.args r)
       = ["Blackfire-Const"; "Blackfire-Fn-Args"].
Proof.
  intros data. eexists. split; [reflexivity|].
  split;
    [apply (proj2 (proj2 (simple_response_args_accumulate
                            Utils.parse_qsl BlackfireResponse.init _ data
                            eq_refl eq_refl)))
    |apply (proj1 (proj2 (simple_response_args_accumulate
                            Utils.parse_qsl BlackfireResponse.init _ data
                            eq_refl eq_refl)))].
Defined.

(* ================================================================== *)
(** * BlackfireAPMResponse.from_bytes *)
(* ================================================================== *)

Section APMResponseFacts.

(** The two pieces of the status line that [from_bytes] reads. *)
Lemma apm_status_pieces (line : string) :
  index (Py.split line ":") 0 = Ok (APMSpec.status_type line)
  /\ index (Py.split line ":") 1
     = match APMSpec.status_value line with
       | Some v => Ok v
       | None => Raise IndexError
       end.
Proof.
  change ":" with (String ":"%char EmptyString).
  unfold APMSpec.status_type, APMSpec.status_value.
  rewrite (split_partition ":" line).
  destruct (Text.partition ":" line) as [[t tail]|]; [|split; reflexivity].
  rewrite (split_partition ":" tail).
  destruct (Text.partition ":" tail) as [[v rest]|]; split; reflexivity.
Qed.

Lemma apm_loop_opens (args : dict (list string))
    (kps : list (option (dict string))) (kp : option (dict string))
    (line : string) (rest : list string) :
  APMSpec.opens line = true ->
  BlackfireAPMResponse.body_loop args kps kp (line :: rest)
  = BlackfireAPMResponse.body_loop args kps (Some []) rest.
Proof.
  unfold APMSpec.opens. intros H. cbn [BlackfireAPMResponse.body_loop].
  now rewrite H.
Qed.

Lemma apm_loop_closes (args : dict (list string))
    (kps : list (option (dict string))) (kp : option (dict string))
    (line : string) (rest : list string) :
  APMSpec.closes line = true ->
  BlackfireAPMResponse.body_loop args kps kp (line :: rest)
  = BlackfireAPMResponse.body_loop args (kps ++ [kp])%list None rest.
Proof.
  unfold APMSpec.closes, APMSpec.opens. intros H.
  apply andb_true_iff in H as [Ho Hc]. apply negb_true_iff in Ho.
  cbn [BlackfireAPMResponse.body_loop]. now rewrite Ho, Hc.
Qed.

Lemma apm_loop_entry (line : string) :
  APMSpec.is_entry line = true ->
  exists k v,
    APMSpec.entry line = [(k, v)]
    /\ forall args kps kp rest,
         BlackfireAPMResponse.body_loop args kps kp (line :: rest)
         = match kp with
           | Some p =>
               BlackfireAPMResponse.body_loop
                 args kps (Some (Dict.set p k v)) rest
           | None =>
               BlackfireAPMResponse.body_loop
                 (Dict.append_item args k v) kps None rest
           end.
Proof.
  unfold APMSpec.is_entry, APMSpec.closes, APMSpec.opens, APMSpec.entry,
    ResponseSpec.argument_of_line.
  intros H. apply andb_true_iff in H as [H Hcolon].
  apply andb_true_iff in H as [Ho Hc]. apply negb_true_iff in Ho, Hc.
  rewrite Ho in Hc. cbn [negb andb] in Hc.
  destruct (colon_partition _ Hcolon) as [[l r] Hp]. rewrite Hp.
  exists (Py.strip l), (Py.strip r). split; [reflexivity|].
  intros args kps kp rest. cbn [BlackfireAPMResponse.body_loop].
  rewrite Ho, Hc, unpack2_body_line, Hp. cbn [bind fst snd].
  now destruct kp.
Qed.

(** The entries of a key page that is open. *)
Lemma apm_loop_page_entries (entries : list string) :
  forallb APMSpec.is_entry entries = true ->
  forall args kps p rest,
    BlackfireAPMResponse.body_loop args kps (Some p) (entries ++ rest)%list
    = BlackfireAPMResponse.body_loop
        args kps
        (Some (fold_left (fun acc kv => Dict.set acc (fst kv) (snd kv))
                         (flat_map APMSpec.entry entries) p))
        rest.
Proof.
  induction entries as [|line entries IH]; intros H args kps p rest;
    [reflexivity|].
  cbn [forallb] in H. apply andb_true_iff in H as [Hline Hrest].
  destruct (apm_loop_entry line Hline) as (k & v & He & Hstep).
  cbn [app flat_map]. rewrite Hstep, He, (IH Hrest). reflexivity.
Qed.

(** The loop over whole blocks. *)
Lemma apm_loop_blocks (blocks : list APMSpec.block) :
  Forall (fun b => APMSpec.well_formed b = true) blocks ->
  forall args kps rest,
    BlackfireAPMResponse.body_loop
      args kps None (flat_map APMSpec.lines_of blocks ++ rest)%list
    = BlackfireAPMResponse.body_loop
        (fold_left (fun d kv => Dict.append_item d (fst kv) (snd kv))
                   (APMSpec.arguments blocks) args)
        (kps ++ APMSpec.pages blocks)%list None rest.
Proof.
  induction 1 as [|b blocks Hb _ IH]; intros args kps rest.
  - cbn. now rewrite app_nil_r.
  - unfold APMSpec.arguments, APMSpec.pages in *. cbn [flat_map].
    rewrite <- app_assoc.
    destruct b as [line|opening entries closing|closing];
      cbn [APMSpec.well_formed APMSpec.lines_of] in *.
    + destruct (apm_loop_entry line Hb) as (k & v & He & Hstep).
      cbn [app]. rewrite Hstep, IH, He. cbn [app fold_left fst snd].
      reflexivity.
    + apply andb_true_iff in Hb as [Hb Hclose].
      apply andb_true_iff in Hb as [Hopen Hentries].
      cbn [app]. rewrite (apm_loop_opens _ _ _ _ _ Hopen).
      rewrite <- app_assoc, (apm_loop_page_entries _ Hentries).
      cbn [app]. rewrite (apm_loop_closes _ _ _ _ _ Hclose), IH.
      cbn [app]. now rewrite <- app_assoc.
    + cbn [app]. rewrite (apm_loop_closes _ _ _ _ _ Hb), IH.
      cbn [app]. now rewrite <- app_assoc.
Qed.

(** A key page that is not closed leaves nothing. *)
Lemma apm_loop_unclosed (lines : list string) :
  APMSpec.unclosed lines = true ->
  forall args kps,
    BlackfireAPMResponse.body_loop args kps None lines = Ok (args, kps).
Proof.
  destruct lines as [|opening entries]; intros H args kps; [reflexivity|].
  cbn [APMSpec.unclosed] in H. apply andb_true_iff in H as [Hopen Hentries].
  rewrite (apm_loop_opens _ _ _ _ _ Hopen).
  rewrite <- (app_nil_r entries), (apm_loop_page_entries _ Hentries).
  reflexivity.
Qed.

Variable parse_qsl : string -> list (string * string).

Lemma apm_from_bytes_body (self r : BlackfireAPMResponse.t) (data : string) :
  BlackfireAPMResponse.from_bytes parse_qsl self data = Ok r ->
  BlackfireAPMResponse.body_loop
    (BlackfireAPMResponse.args self) (BlackfireAPMResponse.key_pages self)
    None (tl (Py.split (Py.strip data) LF))
  = Ok (BlackfireAPMResponse.args r, BlackfireAPMResponse.key_pages r).
Proof.
  unfold BlackfireAPMResponse.from_bytes.
  destruct (index _ 0) as [t|e]; cbn [bind]; [|discriminate].
  destruct (index _ 1) as [v|e]; cbn [bind]; [|discriminate].
  destruct (String.eqb t "Blackfire-Error"); [discriminate|].
  destruct (Dict.get _ "success") as [s|]; cbn [bind]; [|discriminate].
  destruct (Py.contains "false" s); [discriminate|].
  destruct (BlackfireAPMResponse.body_loop _ _ _ _) as [[a k]|e];
    cbn [bind fst snd]; [|discriminate].
  now intros [= <-].
Qed.

End APMResponseFacts.

(** X18. The status line of [BlackfireAPMResponse.from_bytes] on ASCII
    text, which is
    the first line of the stripped text. Without a colon the call raises
    [IndexError]. Else the type is the text before the first colon and the
    value the text between the first colon and the second one (or the end
    of the line): what follows a second colon is dropped, it is not an
    error as it is for [BlackfireResponse]. The value is parsed as a query
    string after the test for [Blackfire-Error]; without a [success] key in
    it the call raises [KeyError]. When the call returns, the response
    holds the stripped value, its dictionary and the stripped text, and
    [update_config] is false exactly when the dictionary gives ['false']
    for it or has no such key. *)
Theorem apm_response_status_line :
  forall (parse_qsl : string -> list (string * string))
         (self : BlackfireAPMResponse.t) (data : string),
    Py.isascii data = true ->
    let line := hd EmptyString (Py.split (Py.strip data) LF) in
    match APMSpec.status_value line with
    | None =>
        BlackfireAPMResponse.from_bytes parse_qsl self data
        = Raise IndexError
    | Some v =>
        if String.eqb (APMSpec.status_type line) "Blackfire-Error" then
          BlackfireAPMResponse.from_bytes parse_qsl self data
          = Raise (BlackfireAPMException
                     ("Agent could not send APM trace. reason=" ++ v))
        else
          let d := Dict.of_pairs (parse_qsl (Py.strip v)) in
          match Dict.get d "success" with
          | None =>
              BlackfireAPMResponse.from_bytes parse_qsl self data
              = Raise (KeyError "success")
          | Some _ =>
              forall r,
                BlackfireAPMResponse.from_bytes parse_qsl self data = Ok r ->
                BlackfireAPMResponse.status_val r = Some (Py.strip v)
                /\ BlackfireAPMResponse.status_val_dict r = Some d
                /\ BlackfireAPMResponse.raw_data r = Py.strip data
                /\ BlackfireAPMResponse.update_config r
                   = negb (String.eqb
                             (Dict.get_default d "update_config" "false")
                             "false")
          end
    end.
Proof.
  intros parse_qsl self data _ line.
  unfold BlackfireAPMResponse.from_bytes. fold line.
  destruct (apm_status_pieces line) as [H0 H1]. rewrite H0, H1.
  destruct (APMSpec.status_value line) as [v|]; [|reflexivity].
  cbn [bind].
  destruct (String.eqb (APMSpec.status_type line) "Blackfire-Error");
    [reflexivity|].
  cbv zeta.
  destruct (Dict.get (Dict.of_pairs (parse_qsl (Py.strip v))) "success")
    as [s|]; [|reflexivity].
  cbn [bind]. intros r.
  destruct (Py.contains "false" s); [discriminate|].
  destruct (BlackfireAPMResponse.body_loop _ _ _ _) as [[a k]|e];
    cbn [bind fst snd]; [|discriminate].
  intros [= <-]. cbn.
  now destruct (String.eqb _ "false").
Qed.

Lemma apm_response_status_line_witness :
  BlackfireAPMResponse.from_bytes Utils.parse_qsl BlackfireAPMResponse.init
    ("no colon here" ++ LF)
  = Raise IndexError
  /\ BlackfireAPMResponse.from_bytes Utils.parse_qsl BlackfireAPMResponse.init
       ("Blackfire-Response: update_config=true" ++ LF)
     = Raise (KeyError "success")
  /\ (forall r,
        BlackfireAPMResponse.from_bytes
          Utils.parse_qsl BlackfireAPMResponse.init
          ("Blackfire-Response: success=true&update_config=1:dropped" ++ LF)
        = Ok r ->
        BlackfireAPMResponse.status_val r
        = Some "success=true&update_config=1"
        /\ BlackfireAPMResponse.update_config r = true).
Proof.
  split; [|split].
  - apply (apm_response_status_line
             Utils.parse_qsl BlackfireAPMResponse.init
             ("no colon here" ++ LF) eq_refl).
  - apply (apm_response_status_line
             Utils.parse_qsl BlackfireAPMResponse.init
             ("Blackfire-Response: update_config=true" ++ LF) eq_refl).
  - intros r Hr.
    destruct (apm_response_status_line
                Utils.parse_qsl BlackfireAPMResponse.init
                ("Blackfire-Response: success=true&update_config=1:dropped"
                 ++ LF) eq_refl r Hr) as (Hv & _ & _ & Hu).
    split; [exact Hv | exact Hu].
Defined.

(** X19. The key pages of [BlackfireAPMResponse.from_bytes]. Take a text
    that is parsed, whose lines after the status line are blocks, each a
    line with a colon, a key page (a line that starts with [key-page(],
    lines with a colon, a line that starts with [)]) or a closing line by
    itself, and then possibly a key page that is never closed. The entries
    of a key page go to its dictionary and never to the arguments (a later
    entry replaces an earlier one with its key); the pages are appended to
    [key_pages] in order, [None] for a closing line that closes nothing;
    the page that is not closed is lost with its entries. The arguments
    get the values of the lines outside the pages, after the ones the
    object held. *)
Theorem apm_response_key_pages :
  forall (parse_qsl : string -> list (string * string))
         (self r : BlackfireAPMResponse.t) (data : string)
         (blocks : list APMSpec.block) (last : list string),
    BlackfireAPMResponse.from_bytes parse_qsl self data = Ok r ->
    tl (Py.split (Py.strip data) LF)
    = (flat_map APMSpec.lines_of blocks ++ last)%list ->
    Forall (fun b => APMSpec.well_formed b = true) blocks ->
    APMSpec.unclosed last = true ->
    BlackfireAPMResponse.key_pages r
    = (BlackfireAPMResponse.key_pages self ++ APMSpec.pages blocks)%list
    /\ forall k,
         Dict.get_default (BlackfireAPMResponse.args r) k []
         = (Dict.get_default (BlackfireAPMResponse.args self) k []
            ++ ResponseSpec.values_for k (APMSpec.arguments blocks))%list.
Proof.
  intros parse_qsl self r data blocks last H Hlines Hblocks Hlast.
  apply apm_from_bytes_body in H.
  rewrite Hlines, (apm_loop_blocks _ Hblocks), (apm_loop_unclosed _ Hlast)
    in H.
  injection H as Hargs Hpages. rewrite <- Hargs, <- Hpages.
  split; [reflexivity|]. intros k. apply fold_append_item_values.
Qed.

Lemma apm_response_key_pages_witness :
  let data :=
    "Blackfire-Response: success=true" ++ LF
    ++ "fn-args: f 1" ++ LF
    ++ "key-page(" ++ LF
    ++ "  id: 7" ++ LF
    ++ "  fn-args: g 2" ++ LF
    ++ "  id: 8" ++ LF
    ++ ")" ++ LF
    ++ ")" ++ LF
    ++ "timespan: =h" ++ LF
    ++ "key-page(" ++ LF
    ++ "  id: 9" ++ LF in
  exists r,
    BlackfireAPMResponse.from_bytes Utils.parse_qsl BlackfireAPMResponse.init
                                    data
    = Ok r
    /\ BlackfireAPMResponse.key_pages r
       = [Some [("id", "8"); ("fn-args", "g 2")]; None]
    /\ Dict.get_default (BlackfireAPMResponse.args r) "fn-args" [] = ["f 1"]
    /\ Dict.get_default (BlackfireAPMResponse.args r) "id" [] = [].
Proof.
  intros data. eexists. split; [reflexivity|].
  pose proof (apm_response_key_pages
                Utils.parse_qsl BlackfireAPMResponse.init _ data
                [APMSpec.Line "fn-args: f 1";
                 APMSpec.Page "key-page("
                              ["  id: 7"; "  fn-args: g 2"; "  id: 8"] ")";
                 APMSpec.Stray ")";
                 APMSpec.Line "timespan: =h"]
                ["key-page("; "  id: 9"]
                eq_refl eq_refl) as H.
  destruct H as [Hpages Hargs].
  - repeat constructor.
  - reflexivity.
  - split; [exact Hpages|]. split; [apply (Hargs "fn-args") | apply (Hargs "id")].
Defined.

(* ================================================================== *)
(** * BlackfireResponse.to_bytes *)
(* ================================================================== *)

Section ResponseBytesFacts.

Lemma join_app (a b : list string) :
  Text.join (a ++ b) = Text.join a ++ Text.join b.
Proof.
  induction a as [|x a IH]; [reflexivity|].
  cbn [app]. rewrite !join_cons, IH. now rewrite append_assoc.
Qed.

Lemma arg_values_lines (k : string) (vs : list string) :
  forall result : string,
    fold_left (fun result arg_val => result ++ k ++ ": " ++ arg_val ++ LF)
              vs result
    = result
      ++ Text.join (map (fun kv => ResponseBytesSpec.line kv ++ LF)
                        (map (pair k) vs)).
Proof.
  induction vs as [|v vs IH]; intros result; cbn [fold_left map].
  - change (Text.join []) with "". now rewrite append_nil_r.
  - rewrite IH, join_cons. unfold ResponseBytesSpec.line. cbn [fst snd].
    now rewrite !append_assoc.
Qed.

Lemma arg_lines_spec (args : dict (list string)) :
  forall result : string,
    BlackfireResponse.arg_lines result args
    = result
      ++ Text.join (map (fun kv => ResponseBytesSpec.line kv ++ LF)
                        (ResponseBytesSpec.flatten args)).
Proof.
  unfold BlackfireResponse.arg_lines, ResponseBytesSpec.flatten.
  induction args as [|[k vs] args IH]; intros result;
    cbn [fold_left flat_map fst snd].
  - change (Text.join (map _ [])) with "". now rewrite append_nil_r.
  - rewrite IH, arg_values_lines, map_app, join_app. now rewrite append_assoc.
Qed.

(** The bytes of a response that has a status value. *)
Lemma simple_to_bytes_shape (self : BlackfireResponse.t) (sv : string) :
  BlackfireResponse.status_val self = Some sv ->
  BlackfireResponse.to_bytes self
  = Ok (ResponseBytesSpec.status_name (BlackfireResponse.status_code self)
        ++ ": " ++ sv
        ++ (if 0 <? List.length (BlackfireResponse.args self)
            then LF else "")
        ++ Text.join (map (fun kv => ResponseBytesSpec.line kv ++ LF)
                          (ResponseBytesSpec.flatten
                             (BlackfireResponse.args self)))).
Proof.
  intros Hsv. unfold BlackfireResponse.to_bytes. rewrite Hsv. cbn [bind].
  rewrite arg_lines_spec. f_equal.
  destruct (BlackfireResponse.status_code self),
    (0 <? List.length (BlackfireResponse.args self));
    cbn [ResponseBytesSpec.status_name];
    repeat (progress (rewrite ?append_assoc, ?append_nil_r; cbn [append]));
    reflexivity.
Qed.

(** ** [str.rstrip] *)

Lemma rstrip_cons (c : ascii) (s : string) :
  Py.rstrip (String c s)
  = match Py.rstrip s with
    | EmptyString =>
        if Py.isspace c then EmptyString else String c EmptyString
    | r => String c r
    end.
Proof. reflexivity. Qed.

Lemma rstrip_nonspace (c : ascii) (s : string) :
  Py.isspace c = false -> Py.rstrip (String c s) = String c (Py.rstrip s).
Proof.
  intros H. rewrite rstrip_cons.
  destruct (Py.rstrip s); [now rewrite H | reflexivity].
Qed.

Lemma rstrip_append (a b : string) :
  Py.rstrip b <> "" -> Py.rstrip (a ++ b) = a ++ Py.rstrip b.
Proof.
  intros Hb. induction a as [|c a IH]; [reflexivity|].
  cbn [append]. rewrite rstrip_cons, IH.
  destruct (a ++ Py.rstrip b) eqn:E; [|reflexivity].
  destruct a; [|discriminate]. cbn in E. congruence.
Qed.

Lemma rstrip_lf (s : string) : Py.rstrip (s ++ LF) = Py.rstrip s.
Proof.
  induction s as [|c s IH]; [reflexivity|].
  cbn [append]. now rewrite !rstrip_cons, IH.
Qed.

Lemma rstrip_idempotent (s : string) : Py.rstrip (Py.rstrip s) = Py.rstrip s.
Proof.
  induction s as [|c s IH]; [reflexivity|].
  rewrite (rstrip_cons c s).
  destruct (Py.rstrip s) as [|a r] eqn:E.
  - destruct (Py.isspace c) eqn:Hc; [reflexivity|].
    rewrite rstrip_cons. cbn [Py.rstrip]. now rewrite Hc.
  - rewrite rstrip_cons, IH. reflexivity.
Qed.

Lemma strip_fixed_rstrip (v : string) : Py.strip v = v -> Py.rstrip v = v.
Proof.
  intros H. rewrite <- H at 1. unfold Py.strip in *.
  now rewrite rstrip_idempotent.
Qed.

(** What [rstrip] leaves of a key, a colon, a space and a value. *)
Lemma rstrip_value_line (k v : string) :
  Py.strip v = v ->
  exists w,
    Py.rstrip (k ++ ": " ++ v) = k ++ ":" ++ w
    /\ (w = "" /\ v = "" \/ w = String " " v).
Proof.
  intros H. apply strip_fixed_rstrip in H. destruct v as [|c v].
  - exists "". split; [|now left].
    rewrite rstrip_append by (vm_compute; discriminate). reflexivity.
  - exists (String " " (String c v)). split; [|now right].
    change (k ++ ": " ++ String c v)
      with (k ++ String ":" (String " " (String c v))).
    assert (Hw : Py.rstrip (String ":" (String " " (String c v)))
                 = String ":" (String " " (String c v))).
    { rewrite rstrip_nonspace by reflexivity.
      rewrite (rstrip_cons " "), H. reflexivity. }
    rewrite rstrip_append; rewrite Hw; [reflexivity | discriminate].
Qed.

Lemma value_tail (v w : string) :
  ResponseBytesSpec.clean_value v = true ->
  w = "" /\ v = "" \/ w = String " " v ->
  Py.strip w = v
  /\ Text.lacks "010" w = true
  /\ (Text.lacks ":" v = true -> Text.lacks ":" w = true).
Proof.
  unfold ResponseBytesSpec.clean_value. intros H Hw.
  apply andb_true_iff in H as [Hlf Hs]. apply String.eqb_eq in Hs.
  destruct Hw as [[-> ->]| ->]; [repeat split|].
  split; [exact Hs|]. split; [exact Hlf|]. intros Hc. exact Hc.
Qed.

(** ** Reading the lines back *)

Lemma status_line_pieces (name w : string) :
  Text.lacks ":" name = true -> Text.lacks ":" w = true ->
  unpack2 (Py.split (name ++ ":" ++ w) ":") = Ok (name, w).
Proof.
  intros Hn Hw.
  change (name ++ ":" ++ w) with (name ++ String ":" w).
  change ":" with (String ":"%char EmptyString).
  rewrite split_char_first by assumption.
  unfold Py.split. rewrite split_go_lacks by assumption. reflexivity.
Qed.

Lemma argument_of_clean_line (k w v : string) :
  ResponseBytesSpec.clean_key k = true -> Py.strip w = v ->
  ResponseSpec.argument_of_line (k ++ ":" ++ w) = [(k, v)].
Proof.
  unfold ResponseBytesSpec.clean_key, ResponseBytesSpec.clean_value.
  intros H <-. apply andb_true_iff in H as [Hc H].
  apply andb_true_iff in H as [_ Hs]. apply String.eqb_eq in Hs.
  unfold ResponseSpec.argument_of_line.
  change (k ++ ":" ++ w) with (k ++ String ":" w).
  rewrite partition_append by assumption. now rewrite Hs.
Qed.

Lemma clean_line_lacks_lf (k w : string) :
  ResponseBytesSpec.clean_key k = true -> Text.lacks "010" w = true ->
  Text.lacks "010" (k ++ ":" ++ w) = true.
Proof.
  unfold ResponseBytesSpec.clean_key, ResponseBytesSpec.clean_value.
  intros H Hw. apply andb_true_iff in H as [_ H].
  apply andb_true_iff in H as [Hk _].
  unfold Text.lacks in *. now rewrite !forallb_append, Hk, Hw.
Qed.

(** The loop of [from_bytes] over lines that each give an argument. *)
Lemma simple_body_loop_arguments (lines : list string)
    (pairs : list (string * string)) :
  Forall2 (fun l p => ResponseSpec.argument_of_line l = [p]) lines pairs ->
  forall args,
    BlackfireResponse.body_loop args lines
    = Ok (fold_left (fun d kv => Dict.append_item d (fst kv) (snd kv))
                    pairs args).
Proof.
  induction 1 as [|line [k v] lines pairs Hline _ IH]; intros args;
    [reflexivity|].
  cbn [BlackfireResponse.body_loop fold_left fst snd].
  rewrite unpack2_body_line.
  unfold ResponseSpec.argument_of_line in Hline.
  destruct (Text.partition ":" line) as [[l r]|]; [|discriminate].
  cbn [bind fst snd]. injection Hline as <- <-. apply IH.
Qed.

Lemma concat_last (l : list string) (z : string) :
  l <> [] ->
  String.concat LF (l ++ [z]) = String.concat LF l ++ LF ++ z.
Proof.
  induction l as [|x [|y l] IH]; intros Hne; [congruence|reflexivity|].
  change (String.concat LF ((x :: y :: l) ++ [z]))
    with (x ++ LF ++ String.concat LF ((y :: l) ++ [z])).
  rewrite IH by discriminate.
  change (String.concat LF (x :: y :: l))
    with (x ++ LF ++ String.concat LF (y :: l)).
  now rewrite !append_assoc.
Qed.

Lemma strip_status (code : StatusCode) (x : string) :
  Py.strip (ResponseBytesSpec.status_name code ++ x)
  = Py.rstrip (ResponseBytesSpec.status_name code ++ x).
Proof. destruct code; reflexivity. Qed.

Lemma status_name_clean (code : StatusCode) :
  Text.lacks ":" (ResponseBytesSpec.status_name code) = true
  /\ Text.lacks "010" (ResponseBytesSpec.status_name code) = true
  /\ Py.strip (ResponseBytesSpec.status_name code)
     = ResponseBytesSpec.status_name code
  /\ String.eqb (ResponseBytesSpec.status_name code) "Blackfire-Error"
     = match code with ERR => true | OK => false end.
Proof. destruct code; repeat split. Qed.

(** The lines of the stripped bytes. *)
Lemma simple_bytes_lines (code : StatusCode) (sv blank : string)
    (pairs : list (string * string)) :
  blank = LF \/ blank = "" /\ pairs = [] ->
  Text.lacks ":" sv = true ->
  ResponseBytesSpec.clean_value sv = true ->
  Forall (fun kv => ResponseBytesSpec.clean_key (fst kv) = true
                    /\ ResponseBytesSpec.clean_value (snd kv) = true)
         pairs ->
  exists w lines,
    Py.split
      (Py.strip (ResponseBytesSpec.status_name code ++ ": " ++ sv ++ blank
                 ++ Text.join (map (fun kv => ResponseBytesSpec.line kv ++ LF)
                                   pairs)))
      LF
    = (ResponseBytesSpec.status_name code ++ ":" ++ w) :: lines
    /\ Py.strip w = sv
    /\ Text.lacks ":" w = true
    /\ Forall2 (fun l p => ResponseSpec.argument_of_line l = [p])
               lines pairs.
Proof.
  intros Hblank Hcolon Hsv Hpairs. rewrite strip_status.
  set (name := ResponseBytesSpec.status_name code).
  destruct (status_name_clean code) as (Hnc & Hnl & _ & _).
  fold name in Hnc, Hnl.
  assert (Hsv' := Hsv). unfold ResponseBytesSpec.clean_value in Hsv'.
  apply andb_true_iff in Hsv' as [Hsvl Hsvs]. apply String.eqb_eq in Hsvs.
  destruct pairs as [|p0 pairs0] eqn:Epairs.
  - (* no line after the status line *)
    change (Text.join (map _ [])) with "".
    assert (Hdata : Py.rstrip (name ++ ": " ++ sv ++ blank ++ "")
                    = Py.rstrip (name ++ ": " ++ sv)).
    { destruct Hblank as [-> | [-> _]]; rewrite !append_nil_r;
        [|reflexivity].
      rewrite <- (rstrip_lf (name ++ ": " ++ sv)).
      now rewrite !append_assoc. }
    rewrite Hdata.
    destruct (rstrip_value_line name sv Hsvs) as (w & -> & Hw).
    destruct (value_tail sv w Hsv Hw) as (Hws & Hwl & Hwc).
    exists w, []. split; [|split; [exact Hws|split; [now apply Hwc|constructor]]].
    unfold Py.split. apply split_go_lacks.
    unfold Text.lacks in *. now rewrite !forallb_append, Hnl, Hwl.
  - (* lines after the status line *)
    rewrite <- Epairs in *.
    assert (Hne : pairs <> []) by (rewrite Epairs; discriminate).
    clear Epairs p0 pairs0.
    destruct Hblank as [-> | [_ ->]]; [|congruence].
    destruct (exists_last Hne) as (ps & [k v] & ->).
    apply Forall_app in Hpairs as [Hps Hlast].
    inversion Hlast as [|? ? [Hk Hv] _]; subst. cbn [fst snd] in Hk, Hv.
    assert (Hvs : Py.strip v = v).
    { unfold ResponseBytesSpec.clean_value in Hv.
      apply andb_true_iff in Hv as [_ Hv']. now apply String.eqb_eq in Hv'. }
    destruct (rstrip_value_line k v Hvs) as (w & Hrs & Hw).
    destruct (value_tail v w Hv Hw) as (Hws & Hwl & _).
    set (head := name ++ ": " ++ sv).
    set (ls := map ResponseBytesSpec.line ps).
    assert (Hdata :
      Py.rstrip (name ++ ": " ++ sv ++ LF
                 ++ Text.join (map (fun kv => ResponseBytesSpec.line kv ++ LF)
                                   (ps ++ [(k, v)])))
      = String.concat LF ((head :: ls) ++ [k ++ ":" ++ w])).
    { rewrite <- (map_map ResponseBytesSpec.line (fun l => l ++ LF)).
      rewrite join_lines
        by (rewrite map_app; intros E; apply app_eq_nil in E as [_ E];
            discriminate).
      replace (name ++ ": " ++ sv ++ LF
               ++ String.concat LF (map ResponseBytesSpec.line (ps ++ [(k, v)]))
               ++ LF)
        with (String.concat LF
                (head :: map ResponseBytesSpec.line (ps ++ [(k, v)])) ++ LF).
      2:{ unfold head. rewrite map_app. cbn [map].
          destruct (map ResponseBytesSpec.line ps ++ [ResponseBytesSpec.line (k, v)])%list
            eqn:E; [now apply app_eq_nil in E as [_ E]|].
          cbn [String.concat]. now rewrite !append_assoc. }
      rewrite rstrip_lf, map_app. cbn [map]. fold ls.
      change (head :: (ls ++ [ResponseBytesSpec.line (k, v)])%list)
        with ((head :: ls) ++ [ResponseBytesSpec.line (k, v)])%list.
      rewrite !concat_last by discriminate.
      rewrite <- !(append_assoc (String.concat LF (head :: ls)) LF).
      unfold ResponseBytesSpec.line. cbn [fst snd].
      rewrite rstrip_append; rewrite Hrs;
        [reflexivity | destruct k; discriminate]. }
    rewrite Hdata.
    assert (Hline : forall p,
               ResponseBytesSpec.clean_key (fst p) = true
               /\ ResponseBytesSpec.clean_value (snd p) = true ->
               ResponseSpec.argument_of_line (ResponseBytesSpec.line p) = [p]
               /\ Text.lacks "010" (ResponseBytesSpec.line p) = true).
    { intros [k0 v0] [Hk0 Hv0]. cbn [fst snd] in *.
      destruct (value_tail v0 (String " " v0) Hv0 (or_intror eq_refl))
        as (H1 & H2 & _).
      split.
      - apply (argument_of_clean_line k0 (String " " v0) v0 Hk0 H1).
      - apply (clean_line_lacks_lf k0 (String " " v0) Hk0 H2). }
    rewrite split_concat_lines; [| |discriminate].
    + exists (String " " sv), (ls ++ [(k ++ ":" ++ w)%string])%list.
      split; [reflexivity|].
      destruct (value_tail sv (String " " sv) Hsv (or_intror eq_refl))
        as (H1 & _ & H3).
      split; [exact H1|]. split; [now apply H3|].
      apply Forall2_app.
      * unfold ls. clear - Hps Hline.
        induction Hps as [|p ps Hp _ IH]; [constructor|].
        cbn [map]. constructor; [now apply Hline | exact IH].
      * constructor; [|constructor].
        now apply argument_of_clean_line.
    + change ((head :: ls) ++ [(k ++ ":" ++ w)%string])%list
        with (head :: (ls ++ [(k ++ ":" ++ w)%string]))%list.
      constructor.
      * unfold head, Text.lacks in *.
        change (name ++ ": " ++ sv)
          with (name ++ String ":" (String " " sv)).
        rewrite forallb_append, Hnl. cbn [Py.forallb]. now rewrite Hsvl.
      * apply Forall_app. split.
        -- unfold ls. clear - Hps Hline.
           induction Hps as [|p ps Hp _ IH]; [constructor|].
           cbn [map]. constructor; [now apply Hline | exact IH].
        -- constructor; [|constructor].
           now apply clean_line_lacks_lf.
Qed.

(** ** The arguments that come back *)

Lemma dict_set_last {V : Type} (d : dict V) (k : string) (x y : V) :
  ~ In k (Dict.keys d) ->
  Dict.set (d ++ [(k, x)])%list k y = (d ++ [(k, y)])%list
  /\ Dict.get (d ++ [(k, x)])%list k = Some x.
Proof.
  induction d as [|[k' v'] d IH];
    cbn [app Dict.set Dict.get Dict.keys map fst].
  - intros _. now rewrite String.eqb_refl.
  - intros H. destruct (String.eqb k' k) eqn:E.
    + apply String.eqb_eq in E. elim H. now left.
    + destruct IH as [IH1 IH2]; [intros Hin; apply H; now right|].
      now rewrite IH1, IH2.
Qed.

Lemma append_values_last (d : dict (list string)) (k : string)
    (vs : list string) :
  ~ In k (Dict.keys d) ->
  forall acc,
    fold_left (fun d kv => Dict.append_item d (fst kv) (snd kv))
              (map (pair k) vs) (d ++ [(k, acc)])%list
    = (d ++ [(k, acc ++ vs)])%list.
Proof.
  intros Hk. induction vs as [|v vs IH]; intros acc; cbn [map fold_left].
  - now rewrite app_nil_r.
  - cbn [fst snd]. unfold Dict.append_item at 2, Dict.get_default.
    destruct (dict_set_last d k acc (acc ++ [v])%list Hk) as [Hset Hget].
    rewrite Hget, Hset, IH, <- app_assoc. reflexivity.
Qed.

Lemma append_values_new (d : dict (list string)) (k : string)
    (vs : list string) :
  ~ In k (Dict.keys d) ->
  fold_left (fun d kv => Dict.append_item d (fst kv) (snd kv))
            (map (pair k) vs) d
  = (d ++ if 0 <? List.length vs then [(k, vs)] else [])%list.
Proof.
  intros Hk. destruct vs as [|v vs]; cbn [map fold_left List.length Nat.ltb Nat.leb].
  - now rewrite app_nil_r.
  - cbn [fst snd]. unfold Dict.append_item at 2, Dict.get_default.
    rewrite (dict_get_not_key d k Hk), (dict_set_new d k _ Hk).
    now rewrite (append_values_last d k vs Hk).
Qed.

(** Appending the arguments one by one gives back the keys that have a
    value, each with its values. *)
Lemma fold_flatten (args : dict (list string)) :
  forall d : dict (list string),
    NoDup (Dict.keys d ++ Dict.keys args) ->
    fold_left (fun d kv => Dict.append_item d (fst kv) (snd kv))
              (ResponseBytesSpec.flatten args) d
    = (d ++ ResponseBytesSpec.with_values args)%list.
Proof.
  unfold ResponseBytesSpec.flatten, ResponseBytesSpec.with_values.
  induction args as [|[k vs] args IH]; intros d Hnd.
  - cbn. now rewrite app_nil_r.
  - cbn [flat_map filter fst snd Dict.keys map] in *.
    rewrite fold_left_app.
    assert (Hk : ~ In k (Dict.keys d)).
    { apply NoDup_remove_2 in Hnd. intros Hin. apply Hnd.
      apply in_app_iff. now left. }
    rewrite (append_values_new d k vs Hk).
    destruct (0 <? List.length vs).
    + rewrite IH, <- app_assoc; [reflexivity|].
      unfold Dict.keys. rewrite map_app, <- app_assoc. exact Hnd.
    + rewrite app_nil_r. apply IH. now apply NoDup_remove_1 in Hnd.
Qed.

Lemma clean_args_flatten (args : dict (list string)) :
  ResponseBytesSpec.clean_args args = true ->
  Forall (fun kv => ResponseBytesSpec.clean_key (fst kv) = true
                    /\ ResponseBytesSpec.clean_value (snd kv) = true)
         (ResponseBytesSpec.flatten args).
Proof.
  unfold ResponseBytesSpec.clean_args, ResponseBytesSpec.flatten.
  induction args as [|[k vs] args IH]; [constructor|].
  cbn [forallb flat_map fst snd]. intros H.
  apply andb_true_iff in H as [H Hrest].
  apply andb_true_iff in H as [Hk Hvs].
  apply Forall_app. split; [|now apply IH].
  clear - Hk Hvs. induction vs as [|v vs IHv]; [constructor|].
  cbn [forallb] in Hvs. apply andb_true_iff in Hvs as [Hv Hvs].
  cbn [map]. constructor; [now split | now apply IHv].
Qed.

End ResponseBytesFacts.

(** X20. Round trip of a response. [BlackfireResponse.to_bytes] raises
    [TypeError] on a response without a status value, as a new one is.
    For a response whose status value has no colon, whose keys have no
    colon, and whose keys, values and status value are ASCII text with no
    end of line and no whitespace around them, reading its bytes into a
    new response gives
    back the status code, the status value and, in their order, the keys
    that have at least one value, each with its values in order. A key
    without a value is not written and does not come back. *)
Theorem simple_response_round_trip :
  forall (parse_qsl : string -> list (string * string))
         (self : BlackfireResponse.t),
    (BlackfireResponse.status_val self = None ->
     BlackfireResponse.to_bytes self = Raise TypeError)
    /\ forall sv,
         BlackfireResponse.status_val self = Some sv ->
         Py.isascii sv = true ->
         ResponseBytesSpec.ascii_args (BlackfireResponse.args self) = true ->
         Text.lacks ":" sv = true ->
         ResponseBytesSpec.clean_value sv = true ->
         NoDup (Dict.keys (BlackfireResponse.args self)) ->
         ResponseBytesSpec.clean_args (BlackfireResponse.args self) = true ->
         exists bytes r,
           BlackfireResponse.to_bytes self = Ok bytes
           /\ BlackfireResponse.from_bytes parse_qsl BlackfireResponse.init
                                           bytes
              = Ok r
           /\ BlackfireResponse.status_code r
              = BlackfireResponse.status_code self
           /\ BlackfireResponse.status_val r = Some sv
           /\ BlackfireResponse.status_val_dict r
              = Some (Dict.of_pairs (parse_qsl sv))
           /\ BlackfireResponse.args r
              = ResponseBytesSpec.with_values (BlackfireResponse.args self).
Proof.
  intros parse_qsl self. split.
  - intros H. unfold BlackfireResponse.to_bytes. now rewrite H.
  - intros sv Hsv _ _ Hcolon Hclean Hnd Hargs.
    eexists. eexists. split; [apply (simple_to_bytes_shape self sv Hsv)|].
    set (code := BlackfireResponse.status_code self).
    set (pairs := ResponseBytesSpec.flatten (BlackfireResponse.args self)).
    destruct (simple_bytes_lines
                code sv
                (if 0 <? List.length (BlackfireResponse.args self)
                 then LF else "")
                pairs) as (w & lines & Hlines & Hw & Hwc & Hall);
      [ | assumption | assumption | now apply clean_args_flatten | ].
    { unfold pairs.
      destruct (BlackfireResponse.args self); [now right | now left]. }
    destruct (status_name_clean code) as (Hnc & _ & Hns & Hne).
    unfold BlackfireResponse.from_bytes.
    rewrite Hlines. cbn [hd tl].
    rewrite (status_line_pieces _ w Hnc Hwc). cbn [bind fst snd].
    rewrite (simple_body_loop_arguments lines pairs Hall). cbn [bind].
    rewrite Hns, Hne, Hw.
    split; [reflexivity|]. cbn.
    split; [unfold code;
            now destruct (BlackfireResponse.status_code self)|].
    split; [reflexivity|].
    split; [reflexivity|].
    apply (fold_flatten (BlackfireResponse.args self) []). exact Hnd.
Qed.

Lemma simple_response_round_trip_witness :
  let self :=
    BlackfireResponse.mk
      ERR (Some "a=1&b=2") None
      [("Blackfire-Const", ["A"; "B"]); ("empty", []);
       ("Blackfire-Fn-Args", ["f 1,2"; ""])]
      None in
  exists bytes r,
    BlackfireResponse.to_bytes self = Ok bytes
    /\ BlackfireResponse.from_bytes Utils.parse_qsl BlackfireResponse.init
                                    bytes
       = Ok r
    /\ BlackfireResponse.status_code r = ERR
    /\ BlackfireResponse.status_val r = Some "a=1&b=2"
    /\ BlackfireResponse.status_val_dict r = Some [("a", "1"); ("b", "2")]
    /\ BlackfireResponse.args r
       = [("Blackfire-Const", ["A"; "B"]);
          ("Blackfire-Fn-Args", ["f 1,2"; ""])].
Proof.
  intros self.
  apply (proj2 (simple_response_round_trip Utils.parse_qsl self) "a=1&b=2").
  - reflexivity.
  - reflexivity.
  - reflexivity.
  - reflexivity.
  - reflexivity.
  - vm_compute. repeat constructor; cbn [In]; intuition discriminate.
  - reflexivity.
Defined.

(* ================================================================== *)
(** * Connection.__init__ *)
(* ================================================================== *)

Section ConnectionInitFacts.

(** [rsplit(c, 1)] cuts at the last [c]. *)
Lemma rsplit_last_char (c : ascii) (name tail : string) :
  Text.lacks c tail = true ->
  Py.rsplit_n (name ++ String c tail) (String c EmptyString) 1
  = [name; tail].
Proof.
  intros H. unfold Py.rsplit_n.
  change (name ++ String c tail) with (name ++ String c EmptyString ++ tail).
  rewrite !rev_append.
  change (Py.rev (String c EmptyString)) with (String c EmptyString).
  rewrite append_assoc.
  change (Py.split_go (String c EmptyString) (Some 1) 0
            (Py.rev tail ++ String c EmptyString ++ Py.rev name))
    with (Py.split_n (Py.rev tail ++ String c (Py.rev name))
                     (String c EmptyString) 1).
  rewrite split_n_partition, partition_append.
  - simpl. now rewrite !rev_involutive.
  - unfold Text.lacks. now rewrite forallb_rev.
Qed.

Lemma rsplit_no_char (c : ascii) (s : string) :
  Text.lacks c s = true -> Py.rsplit_n s (String c EmptyString) 1 = [s].
Proof.
  intros H. unfold Py.rsplit_n.
  change (Py.rev (String c EmptyString)) with (String c EmptyString).
  rewrite split_go_lacks.
  - simpl. now rewrite rev_involutive.
  - unfold Text.lacks. now rewrite forallb_rev.
Qed.

Lemma inner_brackets (h : string) :
  ConnectionInit.inner ("[" ++ h ++ "]") = h.
Proof.
  unfold ConnectionInit.inner.
  change ("[" ++ h ++ "]") with (String "[" (h ++ "]")).
  cbn [String.length substring]. rewrite length_append.
  replace (S (String.length h + String.length "]") - 2)
    with (String.length h) by (cbn [String.length]; lia).
  apply substring_prefix.
Qed.

End ConnectionInitFacts.

(** X21. The address that [Connection.__init__] takes from the parsed
    URL of the agent. With the scheme [tcp] the network location is cut at
    its last colon into a host and a port, and the port, ASCII text, is
    read by [int]: a host that starts with ['['] is taken for an IPv6
    address and given to an [AF_INET6] socket without its first and its
    last character, whatever the last one is, so ['[h]'] is given as [h];
    a host that does not start with ['['], colons included, goes as it is
    to an [AF_INET] socket; a location without a colon, or a port that
    [int] refuses, raises [ValueError]. With the scheme [unix] the address
    is the path. Any other scheme, [TCP] in capitals too, is an unsupported
    socket type. *)
Theorem connection_init_address :
  forall (sock_parsed : ConnectionInit.ParseResult),
    let scheme := ConnectionInit.scheme sock_parsed in
    let netloc := ConnectionInit.netloc sock_parsed in
    (scheme = "unix" ->
     ConnectionInit.sock_params sock_parsed
     = ConnectionInit.Resolved
         ConnectionInit.AF_UNIX
         (ConnectionInit.UnixPath (ConnectionInit.path sock_parsed)))
    /\ (scheme <> "unix" -> scheme <> "tcp" ->
        ConnectionInit.sock_params sock_parsed
        = ConnectionInit.UnsupportedSocketType scheme)
    /\ (scheme = "tcp" -> Text.lacks ":" netloc = true ->
        ConnectionInit.sock_params sock_parsed
        = ConnectionInit.InitRaises ValueError)
    /\ (forall host port,
          scheme = "tcp" -> netloc = host ++ ":" ++ port ->
          Text.lacks ":" port = true -> Py.isascii port = true ->
          match PyInt.int port with
          | Raise e =>
              e = ValueError
              /\ ConnectionInit.sock_params sock_parsed
                 = ConnectionInit.InitRaises ValueError
          | Ok n =>
              (Py.startswith host "[" = false ->
               ConnectionInit.sock_params sock_parsed
               = ConnectionInit.Resolved
                   ConnectionInit.AF_INET (ConnectionInit.HostPort host n))
              /\ (Py.startswith host "[" = true ->
                  ConnectionInit.sock_params sock_parsed
                  = ConnectionInit.Resolved
                      ConnectionInit.AF_INET6
                      (ConnectionInit.HostPort (ConnectionInit.inner host)
                                               n))
              /\ (forall h, host = "[" ++ h ++ "]" ->
                  ConnectionInit.sock_params sock_parsed
                  = ConnectionInit.Resolved
                      ConnectionInit.AF_INET6
                      (ConnectionInit.HostPort h n))
          end).
Proof.
  intros sock_parsed scheme netloc. unfold ConnectionInit.sock_params.
  fold scheme. fold netloc.
  split; [|split; [|split]].
  - intros ->. reflexivity.
  - intros Hu Ht. apply String.eqb_neq in Hu, Ht. now rewrite Hu, Ht.
  - intros -> H. cbn [String.eqb Ascii.eqb Bool.eqb].
    change ":" with (String ":"%char EmptyString).
    now rewrite (rsplit_no_char ":" netloc H).
  - intros host port -> Hnet Hport _. cbn [String.eqb Ascii.eqb Bool.eqb].
    rewrite Hnet.
    change (host ++ ":" ++ port) with (host ++ String ":" port).
    change ":" with (String ":"%char EmptyString).
    rewrite (rsplit_last_char ":" host port Hport). cbn [unpack2].
    destruct (PyInt.int port) as [n|e] eqn:Hint.
    + split; [|split].
      * intros Hb. now rewrite Hb.
      * intros Hb. now rewrite Hb.
      * intros h ->. unfold Py.startswith.
        rewrite (prefix_append "[" (h ++ "]")). now rewrite inner_brackets.
    + assert (He : e = ValueError)
        by (now apply (int_raises_value_error port)).
      subst e. split; [reflexivity|].
      now destruct (Py.startswith host "[").
Qed.

Lemma connection_init_address_witness :
  ConnectionInit.sock_params
    (ConnectionInit.mk_parsed "tcp" "[::1]:8307" "")
  = ConnectionInit.Resolved ConnectionInit.AF_INET6
                            (ConnectionInit.HostPort "::1" 8307)
  /\ ConnectionInit.sock_params
       (ConnectionInit.mk_parsed "tcp" "[::1]x:80" "")
     = ConnectionInit.Resolved ConnectionInit.AF_INET6
                               (ConnectionInit.HostPort "::1]" 80)
  /\ ConnectionInit.sock_params
       (ConnectionInit.mk_parsed "tcp" "::1:8307" "")
     = ConnectionInit.Resolved ConnectionInit.AF_INET
                               (ConnectionInit.HostPort "::1" 8307)
  /\ ConnectionInit.sock_params
       (ConnectionInit.mk_parsed "tcp" "localhost" "")
     = ConnectionInit.InitRaises ValueError.
Proof.
  pose proof (proj2 (proj2 (proj2
                (connection_init_address
                   (ConnectionInit.mk_parsed "tcp" "[::1]:8307" "")))))
    as H1.
  pose proof (proj2 (proj2 (proj2
                (connection_init_address
                   (ConnectionInit.mk_parsed "tcp" "[::1]x:80" "")))))
    as H2.
  pose proof (proj2 (proj2 (proj2
                (connection_init_address
                   (ConnectionInit.mk_parsed "tcp" "::1:8307" "")))))
    as H3.
  pose proof (proj1 (proj2 (proj2
                (connection_init_address
                   (ConnectionInit.mk_parsed "tcp" "localhost" "")))))
    as H4.
  split; [|split; [|split]].
  - apply (proj2 (proj2 (H1 "[::1]" "8307" eq_refl eq_refl eq_refl eq_refl))
             "::1" eq_refl).
  - apply (proj1 (proj2 (H2 "[::1]x" "80" eq_refl eq_refl eq_refl eq_refl))
             eq_refl).
  - apply (proj1 (H3 "::1" "8307" eq_refl eq_refl eq_refl eq_refl) eq_refl).
  - apply (H4 eq_refl eq_refl).
Defined.

(* ================================================================== *)
(** * Edges of the handshake and of the request *)
(* ================================================================== *)

Section EdgeFacts.

Lemma flag_raises_value_error (config : Config) (name default : string)
    (e : exn) :
  Connection.flag config name default = Raise e -> e = ValueError.
Proof.
  unfold Connection.flag.
  destruct (PyInt.int _) as [n|e'] eqn:E; cbn [bind]; [discriminate|].
  intros [= <-]. now apply int_raises_value_error in E.
Qed.

Lemma write_prolog_no_hello (parse_qsl : string -> list (string * string))
    (config : Config) (env : Env) (self : Connection.t) (e : exn) :
  Connection.hello_request config env = Raise e ->
  Connection._write_prolog parse_qsl config env self = Raises e self.
Proof.
  intros H. unfold Connection._write_prolog, Connection.bindM.
  now rewrite H.
Qed.

End EdgeFacts.

(** X22. The flags are read before anything is sent. When one of the
    arguments [flag_yml], [flag_timespan], [no_pruning] and [no_anon] of the
    configuration is ASCII text that [int] refuses, the handshake raises
    [ValueError] and leaves the connection as it was: no byte has been sent,
    nothing has been read, and [self.agent_response] is not assigned. *)
Theorem handshake_bad_flag_sends_nothing :
  forall (parse_qsl : string -> list (string * string))
         (config : Config) (env : Env) (self : Connection.t)
         (name default : string) (e : exn),
    In (name, default)
       [("flag_yml", "1"); ("flag_timespan", "0"); ("no_pruning", "0");
        ("no_anon", "0")] ->
    Py.isascii (Dict.get_default (config_args config) name default) = true ->
    PyInt.int (Dict.get_default (config_args config) name default)
    = Raise e ->
    Connection._write_prolog parse_qsl config env self
    = Raises ValueError self.
Proof.
  intros parse_qsl config env self name default e Hin _ Hint.
  apply write_prolog_no_hello.
  assert (Hflag : Connection.flag config name default = Raise e)
    by (unfold Connection.flag; now rewrite Hint).
  unfold Connection.hello_request.
  destruct (Connection.flag config "flag_yml" "1") as [b1|e1] eqn:E1;
    cbn [bind];
    [|now rewrite (flag_raises_value_error _ _ _ _ E1)].
  destruct (Connection.flag config "flag_timespan" "0") as [b2|e2] eqn:E2;
    cbn [bind];
    [|now rewrite (flag_raises_value_error _ _ _ _ E2)].
  destruct (Connection.flag config "no_pruning" "0") as [b3|e3] eqn:E3;
    cbn [bind];
    [|now rewrite (flag_raises_value_error _ _ _ _ E3)].
  destruct (Connection.flag config "no_anon" "0") as [b4|e4] eqn:E4;
    cbn [bind];
    [|now rewrite (flag_raises_value_error _ _ _ _ E4)].
  cbn [In] in Hin.
  destruct Hin as [H|[H|[H|[H|[]]]]]; injection H as <- <-; congruence.
Qed.

Lemma handshake_bad_flag_sends_nothing_witness :
  let config := mk_config [("flag_timespan", "yes")] "c" "s" "a" false in
  let env := mk_env 50859248 None None None in
  let self :=
    Connection.mk (Socket.mk [Socket.Data "Blackfire-Response: ok"] [] [])
                  false None in
  Connection._write_prolog Utils.parse_qsl config env self
  = Raises ValueError self.
Proof.
  intros config env self.
  apply (handshake_bad_flag_sends_nothing
           Utils.parse_qsl config env self "flag_timespan" "0" ValueError).
  - cbn [In]. right. left. reflexivity.
  - reflexivity.
  - reflexivity.
Defined.

(** X23. A request without headers does not come back. Its bytes are its
    body alone, with no blank line before it; read into a new request, a
    body without ['\n\n'] is taken for header lines and the request that is
    returned has no body. *)
Theorem request_without_headers_loses_body :
  forall self : BlackfireRequest.t,
    BlackfireRequest.headers self = [] ->
    RequestSpec.marker_free
      (RequestSpec.body_text (BlackfireRequest.data self)) = true ->
    BlackfireRequest.to_bytes self
    = RequestSpec.body_text (BlackfireRequest.data self)
    /\ BlackfireRequest.from_bytes (BlackfireRequest.init [] None)
                                   (BlackfireRequest.to_bytes self)
       = Ok (BlackfireRequest.mk
               (BlackfireRequest.parse_header_lines
                  []
                  (Py.split
                     (RequestSpec.body_text (BlackfireRequest.data self))
                     LF))
               None).
Proof.
  intros self Hh Hfree.
  assert (Hbytes : BlackfireRequest.to_bytes self
                   = RequestSpec.body_text (BlackfireRequest.data self)).
  { rewrite to_bytes_shape, Hh. unfold RequestSpec.emit_order.
    cbn. reflexivity. }
  split; [exact Hbytes|]. rewrite Hbytes.
  unfold BlackfireRequest.from_bytes.
  now rewrite (split_marker_free _ Hfree).
Qed.

Lemma request_without_headers_loses_body_witness :
  let self := BlackfireRequest.init [] (Some "metric: a") in
  BlackfireRequest.to_bytes self = "metric: a"
  /\ BlackfireRequest.from_bytes (BlackfireRequest.init [] None)
                                 (BlackfireRequest.to_bytes self)
     = Ok (BlackfireRequest.mk [("metric", PStr "a")] None).
Proof.
  intros self.
  apply (request_without_headers_loses_body self); reflexivity.
Defined.
